(** * Casibase audit records: lifecycle and dual-chain commitment

    A shallow embedding of [object/record.go], [object/record_chain.go] and
    of the Ethereum ledger client ([chain], type [EthereumClient]).

    Go strings are byte strings; they are modelled by [string], whose
    characters are the 8-bit [ascii] values, so [String.length] is Go's
    [len].  A Go function returning [(v, err)] returns a pair whose last
    component is [option string]: [None] is the [nil] error, [Some msg] an
    error with message [msg].  A pointer that may be [nil] is an [option]. *)

From Stdlib Require Import ZArith String Ascii List Bool Lia DecimalString.
From stdpp Require Import gmap strings list sorting.

Open Scope string_scope.
Set Warnings "-register-all".

(** The Go [error] value: [nil] or a message. *)
Definition error : Type := option string.

(** ** The parts of Go's [strings] package and of slicing that the code uses *)

Module Strings.

(** [s[lo:hi]] for [lo <= hi <= len(s)]. *)
Definition slice (s : string) (lo hi : nat) : string :=
  substring lo (hi - lo) s.

(** [strings.HasSuffix]:
    [len(s) >= len(suffix) && s[len(s)-len(suffix):] == suffix]. *)
Definition HasSuffix (s suffix : string) : bool :=
  (String.length suffix <=? String.length s)%nat
  && String.eqb
       (slice s (String.length s - String.length suffix) (String.length s))
       suffix.

(** [strings.Replace(s, old, new, -1)] for a non-empty [old] (both call
    sites pass a literal): every non-overlapping occurrence of [old], found
    from the left, is replaced.  [skip] counts the bytes of a matched
    occurrence that are still to be dropped. *)
Fixpoint replace_from (old new : string) (skip : nat) (s : string) : string :=
  match s with
  | EmptyString => EmptyString
  | String c tl =>
      match skip with
      | S k => replace_from old new k tl
      | O =>
          if String.prefix old s
          then new +:+ replace_from old new (String.length old - 1) tl
          else String c (replace_from old new 0 tl)
      end
  end.

Definition Replace (s old new : string) : string := replace_from old new 0 s.

(** [s] contains [sub] as a contiguous run of bytes. *)
Definition Contains (s sub : string) : Prop :=
  exists before after, s = before +:+ sub +:+ after.

(** Decimal text of an integer, as [%d] and [big.Int.String] print it. *)
Definition Itoa (z : Z) : string := NilZero.string_of_int (Z.to_int z).

End Strings.

(** ** Data model ([object/record.go], [object/record_chain.go]) *)

(** The [Record] struct, field for field. *)
Record Record := mkRecord {
  Id : Z;
  Owner : string; Name : string; CreatedTime : string;
  Organization : string; ClientIp : string; UserAgent : string;
  User : string; Method : string; RequestUri : string; Action : string;
  Language : string; Region : string; City : string; Unit : string;
  Section : string;
  Object : string; Response : string;
  Provider : string; Block : string; BlockHash : string;
  Transaction : string;
  Provider2 : string; Block2 : string; BlockHash2 : string;
  Transaction2 : string;
  IsTriggered : bool; NeedCommit : bool
}.

(** The zero value [Record{}]. *)
Definition Record_zero : Record :=
  mkRecord 0 "" "" "" "" "" "" "" "" "" "" "" "" "" "" "" "" "" "" "" "" ""
    "" "" "" "" false false.

(** Field assignments [r.F = v]. *)
Definition set_Id (v : Z) (r : Record) : Record :=
  mkRecord v (Owner r) (Name r) (CreatedTime r) (Organization r) (ClientIp r)
    (UserAgent r) (User r) (Method r) (RequestUri r) (Action r) (Language r)
    (Region r) (City r) (Unit r) (Section r) (Object r) (Response r)
    (Provider r) (Block r) (BlockHash r) (Transaction r) (Provider2 r)
    (Block2 r) (BlockHash2 r) (Transaction2 r) (IsTriggered r) (NeedCommit r).

Definition set_Owner (v : string) (r : Record) : Record :=
  mkRecord (Id r) v (Name r) (CreatedTime r) (Organization r) (ClientIp r)
    (UserAgent r) (User r) (Method r) (RequestUri r) (Action r) (Language r)
    (Region r) (City r) (Unit r) (Section r) (Object r) (Response r)
    (Provider r) (Block r) (BlockHash r) (Transaction r) (Provider2 r)
    (Block2 r) (BlockHash2 r) (Transaction2 r) (IsTriggered r) (NeedCommit r).

Definition set_Provider (v : string) (r : Record) : Record :=
  mkRecord (Id r) (Owner r) (Name r) (CreatedTime r) (Organization r)
    (ClientIp r) (UserAgent r) (User r) (Method r) (RequestUri r) (Action r)
    (Language r) (Region r) (City r) (Unit r) (Section r) (Object r)
    (Response r) v (Block r) (BlockHash r) (Transaction r) (Provider2 r)
    (Block2 r) (BlockHash2 r) (Transaction2 r) (IsTriggered r) (NeedCommit r).

Definition set_Block (v : string) (r : Record) : Record :=
  mkRecord (Id r) (Owner r) (Name r) (CreatedTime r) (Organization r)
    (ClientIp r) (UserAgent r) (User r) (Method r) (RequestUri r) (Action r)
    (Language r) (Region r) (City r) (Unit r) (Section r) (Object r)
    (Response r) (Provider r) v (BlockHash r) (Transaction r) (Provider2 r)
    (Block2 r) (BlockHash2 r) (Transaction2 r) (IsTriggered r) (NeedCommit r).

Definition set_BlockHash (v : string) (r : Record) : Record :=
  mkRecord (Id r) (Owner r) (Name r) (CreatedTime r) (Organization r)
    (ClientIp r) (UserAgent r) (User r) (Method r) (RequestUri r) (Action r)
    (Language r) (Region r) (City r) (Unit r) (Section r) (Object r)
    (Response r) (Provider r) (Block r) v (Transaction r) (Provider2 r)
    (Block2 r) (BlockHash2 r) (Transaction2 r) (IsTriggered r) (NeedCommit r).

Definition set_Transaction (v : string) (r : Record) : Record :=
  mkRecord (Id r) (Owner r) (Name r) (CreatedTime r) (Organization r)
    (ClientIp r) (UserAgent r) (User r) (Method r) (RequestUri r) (Action r)
    (Language r) (Region r) (City r) (Unit r) (Section r) (Object r)
    (Response r) (Provider r) (Block r) (BlockHash r) v (Provider2 r)
    (Block2 r) (BlockHash2 r) (Transaction2 r) (IsTriggered r) (NeedCommit r).

Definition set_Provider2 (v : string) (r : Record) : Record :=
  mkRecord (Id r) (Owner r) (Name r) (CreatedTime r) (Organization r)
    (ClientIp r) (UserAgent r) (User r) (Method r) (RequestUri r) (Action r)
    (Language r) (Region r) (City r) (Unit r) (Section r) (Object r)
    (Response r) (Provider r) (Block r) (BlockHash r) (Transaction r) v
    (Block2 r) (BlockHash2 r) (Transaction2 r) (IsTriggered r) (NeedCommit r).

Definition set_Block2 (v : string) (r : Record) : Record :=
  mkRecord (Id r) (Owner r) (Name r) (CreatedTime r) (Organization r)
    (ClientIp r) (UserAgent r) (User r) (Method r) (RequestUri r) (Action r)
    (Language r) (Region r) (City r) (Unit r) (Section r) (Object r)
    (Response r) (Provider r) (Block r) (BlockHash r) (Transaction r)
    (Provider2 r) v (BlockHash2 r) (Transaction2 r) (IsTriggered r)
    (NeedCommit r).

Definition set_BlockHash2 (v : string) (r : Record) : Record :=
  mkRecord (Id r) (Owner r) (Name r) (CreatedTime r) (Organization r)
    (ClientIp r) (UserAgent r) (User r) (Method r) (RequestUri r) (Action r)
    (Language r) (Region r) (City r) (Unit r) (Section r) (Object r)
    (Response r) (Provider r) (Block r) (BlockHash r) (Transaction r)
    (Provider2 r) (Block2 r) v (Transaction2 r) (IsTriggered r) (NeedCommit r).

Definition set_Transaction2 (v : string) (r : Record) : Record :=
  mkRecord (Id r) (Owner r) (Name r) (CreatedTime r) (Organization r)
    (ClientIp r) (UserAgent r) (User r) (Method r) (RequestUri r) (Action r)
    (Language r) (Region r) (City r) (Unit r) (Section r) (Object r)
    (Response r) (Provider r) (Block r) (BlockHash r) (Transaction r)
    (Provider2 r) (Block2 r) (BlockHash2 r) v (IsTriggered r) (NeedCommit r).
(** [Record{Name: name}] *)
Definition Record_named (name : string) : Record :=
  mkRecord 0 "" name "" "" "" "" "" "" "" "" "" "" "" "" "" "" "" "" "" "" ""
    "" "" "" "" false false.

(** The [Response] struct of [record.go] (named [RespBody] here: the
    [Record] field [Response] already has that name). *)
Record RespBody := mkRespBody { Status : string; Msg : string }.

(** The [Param] struct. *)
Record Param := mkParam { Key : string; Field : string; Value : string }.

(** The fields of [Provider] that [getRecordChainClient] and the commit
    paths read (the struct is declared in [object/provider.go]). *)
Record ProviderT := mkProvider {
  PName : string; PType : string; ClientId : string; ClientSecret : string;
  PRegion : string; Network : string; Chain : string; ProviderUrl : string;
  Text : string; UserKey : string; UserCert : string; SignKey : string;
  SignCert : string; ContractName : string; ContractMethod : string
}.

(** ** JSON values, and the trees [encoding/json] builds from the structs

    A struct is encoded as an object whose members follow the declaration
    order of the fields, under the names of their [json] tags. *)

Inductive json :=
| JNull
| JNum (z : Z)
| JStr (s : string)
| JBool (b : bool)
| JArr (items : list json)
| JObj (members : list (string * json)).

Definition Record_json (r : Record) : json :=
  JObj [ ("id", JNum (Id r));
         ("owner", JStr (Owner r)); ("name", JStr (Name r));
         ("createdTime", JStr (CreatedTime r));
         ("organization", JStr (Organization r));
         ("clientIp", JStr (ClientIp r)); ("userAgent", JStr (UserAgent r));
         ("user", JStr (User r)); ("method", JStr (Method r));
         ("requestUri", JStr (RequestUri r)); ("action", JStr (Action r));
         ("language", JStr (Language r)); ("region", JStr (Region r));
         ("city", JStr (City r)); ("unit", JStr (Unit r));
         ("section", JStr (Section r));
         ("object", JStr (Object r)); ("response", JStr (Response r));
         ("provider", JStr (Provider r)); ("block", JStr (Block r));
         ("blockHash", JStr (BlockHash r));
         ("transaction", JStr (Transaction r));
         ("provider2", JStr (Provider2 r)); ("block2", JStr (Block2 r));
         ("blockHash2", JStr (BlockHash2 r));
         ("transaction2", JStr (Transaction2 r));
         ("isTriggered", JBool (IsTriggered r));
         ("needCommit", JBool (NeedCommit r)) ].

Definition Param_json (p : Param) : json :=
  JObj [ ("key", JStr (Key p)); ("field", JStr (Field p));
         ("value", JStr (Value p)) ].

(** ** The record table behind [adapter.engine] (xorm)

    The table is the list of its rows in primary-key order.  Every call
    on the engine is written to [journal], so that what a function asked
    of the store can be read back.  A call may fail in the driver:
    [faults] holds, call by call, the error the driver answers ([None]:
    the call goes through; an exhausted plan: every further call goes
    through).  The affected count of an update or a delete is the
    number of rows its condition matches, and names are compared byte by
    byte. *)

(** A Go [interface{}] holding a column value. *)
Inductive any :=
| AStr (s : string)
| AInt (z : Z)
| ABool (b : bool).

Inductive Stmt :=
| SqlGet (bean : Record)
    (* Get(&bean): WHERE <the non-zero fields of bean> LIMIT 1 *)
| SqlUpdateAllCols (name : string) (bean : Record)
    (* Where("name = ?", name).AllCols().Update(bean) *)
| SqlUpdateMap (name : string) (fields : gmap string any)
    (* Table(&Record{}).Where("name = ?", name).Update(fields) *)
| SqlInsert (bean : Record)
    (* Insert(bean) *)
| SqlDelete (name : string).
    (* Where("name = ?", name).Delete(&Record{}) *)

Record Engine := mkEngine {
  rows : list Record;
  journal : list Stmt;
  faults : list error
}.

(** A statement writes when it is not a [Get]. *)
Definition is_write (st : Stmt) : bool :=
  match st with SqlGet _ => false | _ => true end.

(** A run of the Go code either panics or returns; in both cases the store
    is left in some state. *)
Inductive Outcome (A : Type) :=
| Panic (msg : string) (e : Engine)
| Done (a : A) (e : Engine).
Arguments Panic {A} msg e.
Arguments Done {A} a e.

Definition M (A : Type) : Type := Engine -> Outcome A.

Definition ret {A} (a : A) : M A := fun e => Done a e.

Definition bind {A B} (m : M A) (k : A -> M B) : M B := fun e =>
  match m e with
  | Panic msg e' => Panic msg e'
  | Done a e' => k a e'
  end.

Notation "'do' p <- c ;; k" := (bind c (fun x => match x with p => k end))
  (at level 10, p pattern, c at level 99, k at level 200).

Definition panic {A} (msg : string) : M A := fun e => Panic msg e.

(** One round trip to the driver: the statement is journalled and the
    next entry of the fault plan is the driver's answer. *)
Definition sent (st : Stmt) (e : Engine) : Engine :=
  mkEngine (rows e) (journal e ++ [st]) (tl (faults e)).

Definition with_rows (rs : list Record) (e : Engine) : Engine :=
  mkEngine rs (journal e) (faults e).

Definition driver (st : Stmt) : M error := fun e =>
  Done (hd None (faults e)) (sent st e).

Definition get_rows : M (list Record) := fun e => Done (rows e) e.

Definition put_rows (rs : list Record) : M unit := fun e =>
  Done tt (with_rows rs e).

(** xorm builds the condition of [Get(&bean)] from the bean's non-zero
    fields: a non-empty string or a non-zero integer must be matched, a
    bool field is left out. *)
Definition cond_str (b v : string) : bool := String.eqb b "" || String.eqb b v.

Definition bean_match (bean row : Record) : bool :=
  (Z.eqb (Id bean) 0 || Z.eqb (Id bean) (Id row))
  && cond_str (Owner bean) (Owner row) && cond_str (Name bean) (Name row)
  && cond_str (CreatedTime bean) (CreatedTime row)
  && cond_str (Organization bean) (Organization row)
  && cond_str (ClientIp bean) (ClientIp row)
  && cond_str (UserAgent bean) (UserAgent row)
  && cond_str (User bean) (User row) && cond_str (Method bean) (Method row)
  && cond_str (RequestUri bean) (RequestUri row)
  && cond_str (Action bean) (Action row)
  && cond_str (Language bean) (Language row)
  && cond_str (Region bean) (Region row) && cond_str (City bean) (City row)
  && cond_str (Unit bean) (Unit row) && cond_str (Section bean) (Section row)
  && cond_str (Object bean) (Object row)
  && cond_str (Response bean) (Response row)
  && cond_str (Provider bean) (Provider row)
  && cond_str (Block bean) (Block row)
  && cond_str (BlockHash bean) (BlockHash row)
  && cond_str (Transaction bean) (Transaction row)
  && cond_str (Provider2 bean) (Provider2 row)
  && cond_str (Block2 bean) (Block2 row)
  && cond_str (BlockHash2 bean) (BlockHash2 row)
  && cond_str (Transaction2 bean) (Transaction2 row).

(** [Where("name = ?", name)] *)
Definition name_is (name : string) (row : Record) : bool :=
  String.eqb (Name row) name.

(** The columns of the table, under xorm's snake-case names, and the
    assignment [SET col = v, ...] of a field map to one row. *)
Definition str_columns : list string :=
  [ "owner"; "name"; "created_time"; "organization"; "client_ip";
    "user_agent"; "user"; "method"; "request_uri"; "action"; "language";
    "region"; "city"; "unit"; "section"; "object"; "response";
    "provider"; "block"; "block_hash"; "transaction";
    "provider2"; "block2"; "block_hash2"; "transaction2" ].

Definition column_accepts (col : string) (v : any) : bool :=
  match v with
  | AStr _ => bool_decide (col ∈ str_columns)
  | AInt _ => String.eqb col "id"
  | ABool _ => String.eqb col "is_triggered" || String.eqb col "need_commit"
  end.

Definition fields_ok (fields : gmap string any) : bool :=
  forallb (fun kv => column_accepts kv.1 kv.2) (map_to_list fields).

Definition set_str (fields : gmap string any) (col : string) (old : string)
  : string :=
  match fields !! col with Some (AStr s) => s | _ => old end.

Definition set_int (fields : gmap string any) (col : string) (old : Z) : Z :=
  match fields !! col with Some (AInt z) => z | _ => old end.

Definition set_bool (fields : gmap string any) (col : string) (old : bool)
  : bool :=
  match fields !! col with Some (ABool b) => b | _ => old end.

Definition assign (fields : gmap string any) (r : Record) : Record :=
  mkRecord (set_int fields "id" (Id r))
    (set_str fields "owner" (Owner r)) (set_str fields "name" (Name r))
    (set_str fields "created_time" (CreatedTime r))
    (set_str fields "organization" (Organization r))
    (set_str fields "client_ip" (ClientIp r))
    (set_str fields "user_agent" (UserAgent r))
    (set_str fields "user" (User r)) (set_str fields "method" (Method r))
    (set_str fields "request_uri" (RequestUri r))
    (set_str fields "action" (Action r))
    (set_str fields "language" (Language r))
    (set_str fields "region" (Region r)) (set_str fields "city" (City r))
    (set_str fields "unit" (Unit r)) (set_str fields "section" (Section r))
    (set_str fields "object" (Object r))
    (set_str fields "response" (Response r))
    (set_str fields "provider" (Provider r))
    (set_str fields "block" (Block r))
    (set_str fields "block_hash" (BlockHash r))
    (set_str fields "transaction" (Transaction r))
    (set_str fields "provider2" (Provider2 r))
    (set_str fields "block2" (Block2 r))
    (set_str fields "block_hash2" (BlockHash2 r))
    (set_str fields "transaction2" (Transaction2 r))
    (set_bool fields "is_triggered" (IsTriggered r))
    (set_bool fields "need_commit" (NeedCommit r)).

(** [UPDATE ... WHERE name = ?] with the assignment [f], and
    [DELETE ... WHERE name = ?], on the rows. *)
Definition update_where (name : string) (f : Record -> Record)
  (rs : list Record) : list Record :=
  List.map (fun row => if name_is name row then f row else row) rs.

Definition delete_where (name : string) (rs : list Record) : list Record :=
  List.filter (fun row => negb (name_is name row)) rs.

(** Number of rows a [Where("name = ?", name)] statement matches. *)
Definition matched (name : string) (rs : list Record) : Z :=
  Z.of_nat (List.length (List.filter (name_is name) rs)).

(** [engine.Get(&bean)]: the bean as filled in, [existed], [err]. *)
Definition engine_Get (bean : Record) : M (Record * bool * error) :=
  do err <- driver (SqlGet bean) ;;
  match err with
  | Some msg => ret (bean, false, Some msg)
  | None =>
      do rs <- get_rows ;;
      match List.find (bean_match bean) rs with
      | Some row => ret (row, true, None)
      | None => ret (bean, false, None)
      end
  end.

(** [engine.Where("name = ?", name).AllCols().Update(bean)]: every column
    but the auto-increment key is set from the bean, in every matching
    row. *)
Definition engine_UpdateAllCols (name : string) (bean : Record)
  : M (Z * error) :=
  do err <- driver (SqlUpdateAllCols name bean) ;;
  match err with
  | Some msg => ret (0%Z, Some msg)
  | None =>
      do rs <- get_rows ;;
      do _ <- put_rows
            (update_where name (fun row => set_Id (Id row) bean) rs) ;;
      ret (matched name rs, None)
  end.

(** [engine.Table(&Record{}).Where("name = ?", name).Update(fields)]: only
    the columns of the map are set.  A column the table does not have, or
    a value of the wrong kind, is an error of the statement. *)
Definition engine_UpdateMap (name : string) (fields : gmap string any)
  : M (Z * error) :=
  do err <- driver (SqlUpdateMap name fields) ;;
  match err with
  | Some msg => ret (0%Z, Some msg)
  | None =>
      if fields_ok fields then
        do rs <- get_rows ;;
        do _ <- put_rows (update_where name (assign fields) rs) ;;
        ret (matched name rs, None)
      else ret (0%Z, Some "Unknown column in field list")
  end.

(** The key the table gives to an inserted row whose [Id] is zero. *)
Definition next_id (rs : list Record) : Z :=
  1 + fold_right Z.max 0%Z (List.map Id rs).

(** [Id] is the primary key ([xorm:"int notnull pk autoincr"]).  The rows
    are held in the order of the key, which is the order a scan of the
    table, or of the index on [name], meets them: the first match of
    [Get] is the match with the lowest key. *)
Definition key_ordered (rs : list Record) : Prop :=
  StronglySorted (fun a b => (Id a < Id b)%Z) rs.

(** Some row has the key. *)
Definition key_taken (id : Z) (rs : list Record) : bool :=
  existsb (fun row => Z.eqb (Id row) id) rs.

(** The place of a row among the rows: before the first one with a higher
    key. *)
Fixpoint insert_by_key (row : Record) (rs : list Record) : list Record :=
  match rs with
  | [] => [row]
  | x :: rs' =>
      if Z.ltb (Id row) (Id x) then row :: rs
      else x :: insert_by_key row rs'
  end.

(** The driver's answer to a second row with a key of the table. *)
Definition duplicate_key : string := "UNIQUE constraint failed: record.id".

(** [engine.Insert(bean)]: the bean with its key filled in, [affected],
    [err].  A zero [Id] is left out of the statement: the table gives the
    next key and the row comes last.  A non-zero [Id] is inserted as it
    is: the statement fails, and the table stays, when a row has that key
    already. *)
Definition engine_Insert (bean : Record) : M (Record * Z * error) :=
  do err <- driver (SqlInsert bean) ;;
  match err with
  | Some msg => ret (bean, 0%Z, Some msg)
  | None =>
      do rs <- get_rows ;;
      if Z.eqb (Id bean) 0 then
        let row := set_Id (next_id rs) bean in
        do _ <- put_rows (rs ++ [row]) ;;
        ret (row, 1%Z, None)
      else if key_taken (Id bean) rs then
        ret (bean, 0%Z, Some duplicate_key)
      else
        do _ <- put_rows (insert_by_key bean rs) ;;
        ret (bean, 1%Z, None)
  end.

(** [engine.Where("name = ?", name).Delete(&Record{})] *)
Definition engine_Delete (name : string) : M (Z * error) :=
  do err <- driver (SqlDelete name) ;;
  match err with
  | Some msg => ret (0%Z, Some msg)
  | None =>
      do rs <- get_rows ;;
      do _ <- put_rows (delete_where name rs) ;;
      ret (matched name rs, None)
  end.

(** ** Ledger clients ([chain])

    [ChainClientInterface] is the Go interface; a value of the interface
    type is an implementation together with one of its values. *)

Class ChainClientInterface (C : Type) := {
  Commit : C -> string -> string * string * string * error;
  Query : C -> string -> string -> string * error
}.

Record ChainClient := mkChainClient {
  impl : Type;
  impl_iface : ChainClientInterface impl;
  self : impl
}.

Definition client_Commit (c : ChainClient) (data : string)
  : string * string * string * error :=
  @Commit (impl c) (impl_iface c) (self c) data.

Definition client_Query (c : ChainClient) (tx data : string) : string * error :=
  @Query (impl c) (impl_iface c) (self c) tx data.

(** *** The Ethereum client

    What go-ethereum answers is given by the connection: each RPC method
    of [ethclient.Client], the signer, the mining wait (bounded by the
    two-minute context) and the hex conversions are functions of their
    arguments. *)

Record CallMsg := mkCallMsg {
  From : string; To : string; MsgGasPrice : Z; MsgValue : Z; MsgData : string
}.

Record Tx := mkTx {
  Nonce : Z; TxTo : string; TxValue : Z; GasLimit : Z; GasPrice : Z;
  Data : string; Signature : string
}.

Record Receipt := mkReceipt { ReceiptBlockHash : string; BlockNumber : Z }.

Record EthConn := mkEthConn {
  PendingNonceAt : string -> Z * error;
  SuggestGasPrice : Z * error;
  EstimateGas : CallMsg -> Z * error;
  ChainID : Z * error;
  SignTx : Tx -> Z -> string -> Tx * error;
  SendTransaction : Tx -> error;
  TxHash : Tx -> string;
  WaitMined : Tx -> Receipt * error;
  TransactionReceipt : string -> Receipt * error;
  TransactionByHash : string -> Tx * error;
  Hex : string -> string;
  HexToHash : string -> string
}.

Record EthereumClient := mkEthereumClient {
  Client : EthConn;
  PrivateKey : string;
  FromAddress : string
}.

Definition EthereumClient_Commit (client : EthereumClient) (data : string)
  : string * string * string * error :=
  let '(nonce, err) := PendingNonceAt (Client client) (FromAddress client) in
  match err with Some _ => ("", "", "", err) | None =>
  let '(gasPrice, err) := SuggestGasPrice (Client client) in
  match err with Some _ => ("", "", "", err) | None =>
  let value := 0%Z in
  let dataBytes := data in
  let msg := mkCallMsg (FromAddress client) (FromAddress client) gasPrice
               value dataBytes in
  let '(gasLimit, err) := EstimateGas (Client client) msg in
  match err with Some _ => ("", "", "", err) | None =>
  let toAddress := FromAddress client in
  let tx := mkTx nonce toAddress value gasLimit gasPrice dataBytes "" in
  let '(chainID, err) := ChainID (Client client) in
  match err with Some _ => ("", "", "", err) | None =>
  let '(signedTx, err) := SignTx (Client client) tx chainID (PrivateKey client) in
  match err with Some _ => ("", "", "", err) | None =>
  let err := SendTransaction (Client client) signedTx in
  match err with Some _ => ("", "", "", err) | None =>
  let txHash := TxHash (Client client) signedTx in
  let '(receipt, err) := WaitMined (Client client) signedTx in
  match err with
  | Some e => ("", "", "", Some ("transaction failed to be mined: " +:+ e))
  | None =>
  let blockHash := Hex (Client client) (ReceiptBlockHash receipt) in
  let blockNumber := Strings.Itoa (BlockNumber receipt) in
  (blockNumber, Hex (Client client) txHash, blockHash, None)
  end end end end end end end.

(** The two verdict texts of [Query] ([LF] is the line feed of the raw
    string literals). *)
Definition LF : string := String (ascii_of_nat 10) EmptyString.

Definition stars : string :=
  "******************************************************".

Definition Matched_text (chainData : string) : string :=
  "Matched" +:+ LF +:+ stars +:+ LF +:+ "Data:" +:+ LF +:+ LF +:+ chainData.

Definition Mismatched_text (chainData data : string) : string :=
  "Mismatched" +:+ LF +:+ stars +:+ LF +:+ "Chain data:" +:+ LF +:+ LF
  +:+ chainData +:+ LF +:+ stars +:+ LF +:+ "Local data:" +:+ LF +:+ LF
  +:+ data.

Definition EthereumClient_Query (client : EthereumClient) (txHash data : string)
  : string * error :=
  let hash := HexToHash (Client client) txHash in
  let '(receipt, err) := TransactionReceipt (Client client) hash in
  match err with Some _ => ("", err) | None =>
  let blockId := Strings.Itoa (BlockNumber receipt) in
  let '(tx, err) := TransactionByHash (Client client) hash in
  match err with Some _ => ("", err) | None =>
  let chainData := Data tx in
  let res :=
    if String.eqb chainData data then Matched_text chainData
    else Mismatched_text chainData data in
  ("The query result for block [" +:+ blockId +:+ "] is: " +:+ res, None)
  end end.

#[global] Instance EthereumClient_iface : ChainClientInterface EthereumClient := {
  Commit := EthereumClient_Commit;
  Query := EthereumClient_Query
}.

Definition EthereumClient_client (c : EthereumClient) : ChainClient :=
  mkChainClient EthereumClient EthereumClient_iface c.

(** ** Collaborators declared in other packages of the repository

    [util], [conf], the provider directory of [object/provider.go] and
    [chain.NewChainClient] are used through their signatures. *)

(** The request data [NewRecord] reads from the beego context. *)
Record Request := mkRequest {
  ReqMethod : string;
  URL_Path : string;
  RequestURI : string;
  Header_Get : string -> string;
  RemoteAddr : string
}.

Record Context := mkContext {
  Req : Request;
  Input_RequestBody : option string;      (* nil or the bytes *)
  Input_Data_json : option json           (* ctx.Input.Data()["json"] *)
}.

Record LocationInfo := mkLocationInfo { Country : string; LocCity : string }.

Class UtilPkg := {
  (* the text of json.Marshal for the tree of the struct *)
  StructToJson : json -> string;
  (* None: the call panics *)
  GetOwnerAndNameFromId : string -> option (string * string);
  FilterQuery : string -> list string -> string;
  GetIPFromRequest : Request -> string;
  GetInfoFromIP : string -> LocationInfo * error;
  (* the values the two calls of NewRecord return *)
  GenerateId : string;
  GetCurrentTime : string;
  (* encoding/json on the response data *)
  json_Marshal : option json -> string * error;
  json_Unmarshal : string -> RespBody * error
}.

Class ConfPkg := {
  GetConfigBool : string -> bool;
  GetLanguage : string -> string
}.

Class ProviderDirectory := {
  getProvider : string -> string -> option ProviderT * error;
  GetActiveBlockchainProvider : string -> option ProviderT * error;
  GetTwoActiveBlockchainProvider :
    string -> option ProviderT * option ProviderT * error;
  NewChainClient :
    string -> string -> string -> string -> string -> string -> string ->
    string -> string -> string -> string -> string -> string -> string ->
    option ChainClient * error
}.

(** A Go [map[string]interface{}] from column names to values. *)
Definition FieldMap : Type := gmap string any.

Section RecordEngine.

Context {util : UtilPkg} {conf : ConfPkg} {directory : ProviderDirectory}.

(** [var logPostOnly bool], set by [init]. *)
Definition logPostOnly : bool := GetConfigBool "logPostOnly".

(** *** [record.go] *)

Definition getId (record : Record) : string :=
  Owner record +:+ "/" +:+ Name record.

Definition getRecord (owner name : string) : M (option Record * error) :=
  if String.eqb owner "" || String.eqb name "" then ret (None, None)
  else
    do (record, existed, err) <- engine_Get (Record_named name) ;;
    match err with
    | Some _ => ret (Some record, err)
    | None => if existed then ret (Some record, None) else ret (None, None)
    end.

(** The two "Update provider" blocks of [UpdateRecord]. *)
Definition reset_slot1 (p record : Record) : Record :=
  if negb (String.eqb (Provider record) (Provider p))
  then set_Transaction "" (set_BlockHash "" (set_Block "" record))
  else record.

Definition reset_slot2 (p record : Record) : Record :=
  if negb (String.eqb (Provider2 record) (Provider2 p))
  then set_Transaction2 "" (set_BlockHash2 "" (set_Block2 "" record))
  else record.

(** Functions that take a [*Record] and assign to its fields also return
    the record as they leave it. *)
Definition UpdateRecord (id : string) (record : Record)
  : M (Record * (bool * error)) :=
  match GetOwnerAndNameFromId id with
  | None => panic "GetOwnerAndNameFromId() error"
  | Some (owner, name) =>
      do (p, err) <- getRecord owner name ;;
      match err, p with
      | Some _, _ => ret (record, (false, err))
      | None, None => ret (record, (false, None))
      | None, Some p =>
          let record := reset_slot1 p record in
          let record := reset_slot2 p record in
          do (affected, err) <- engine_UpdateAllCols name record ;;
          match err with
          | Some _ => ret (record, (false, err))
          | None => ret (record, (negb (Z.eqb affected 0), None))
          end
      end
  end.

Definition UpdateRecordFields (id : string) (fields : FieldMap)
  : M (bool * error) :=
  match GetOwnerAndNameFromId id with
  | None => panic "GetOwnerAndNameFromId() error"
  | Some (owner, name) =>
      do (p, err) <- getRecord owner name ;;
      match err, p with
      | Some _, _ => ret (false, err)
      | None, None => ret (false, None)
      | None, Some _ =>
          do (affected, err) <- engine_UpdateMap name fields ;;
          match err with
          | Some _ => ret (false, err)
          | None => ret (negb (Z.eqb affected 0), None)
          end
      end
  end.

(** The double quote of the [Sprintf] format of [NewRecord]. *)
Definition DQ : string := String (ascii_of_nat 34) EmptyString.

Definition truncate_uri (requestUri : string) : string :=
  if (1000 <? String.length requestUri)%nat
  then Strings.slice requestUri 0 1000
  else requestUri.

Definition NewRecord (ctx : Context) : option Record * error :=
  let ip := Strings.Replace (GetIPFromRequest (Req ctx)) ": " "" in
  let action := Strings.Replace (URL_Path (Req ctx)) "/api/" "" in
  let requestUri := FilterQuery (RequestURI (Req ctx)) ["accessToken"] in
  let requestUri := truncate_uri requestUri in
  let object :=
    match Input_RequestBody ctx with
    | Some body => if negb (String.length body =? 0)%nat then body else ""
    | None => ""
    end in
  let '(respBytes, err) := json_Marshal (Input_Data_json ctx) in
  match err with Some _ => (None, err) | None =>
  let '(resp, err) := json_Unmarshal respBytes in
  match err with Some _ => (None, err) | None =>
  let language := Header_Get (Req ctx) "Accept-Language" in
  let language :=
    if (2 <? String.length language)%nat then Strings.slice language 0 2
    else language in
  let languageCode := GetLanguage language in
  let '(locationInfo, err) := GetInfoFromIP ip in
  match err with Some _ => (None, err) | None =>
  let region := Country locationInfo in
  let city := LocCity locationInfo in
  let record :=
    mkRecord 0 "" GenerateId GetCurrentTime "" ip "" "" (ReqMethod (Req ctx))
      requestUri action languageCode region city "" "" object
      ("{" +:+ DQ +:+ "status" +:+ DQ +:+ ":" +:+ DQ +:+ Status resp +:+ DQ
       +:+ "," +:+ DQ +:+ "msg" +:+ DQ +:+ ":" +:+ DQ +:+ Msg resp +:+ DQ
       +:+ "}")
      "" "" "" "" "" "" "" "" false false in
  (Some record, None)
  end end end.

Definition DeleteRecord (record : Record) : M (bool * error) :=
  do (affected, err) <- engine_Delete (Name record) ;;
  match err with
  | Some _ => ret (false, err)
  | None => ret (negb (Z.eqb affected 0), None)
  end.

(** *** [record_chain.go] *)

Definition getRecordProvider (chainProvider : string)
  : option ProviderT * error :=
  if negb (String.eqb chainProvider "") then
    let '(provider, err) := getProvider "admin" chainProvider in
    match err, provider with
    | Some _, _ => (None, err)
    | None, None =>
        (None, Some ("the blockchain provider: " +:+ chainProvider
                     +:+ " is not found"))
    | None, Some _ => (provider, None)
    end
  else
    let '(provider, err) := GetActiveBlockchainProvider "admin" in
    match err with
    | Some _ => (None, err)
    | None => (provider, None)
    end.

Definition getRecordChainClient (chainProvider : string)
  : option ChainClient * option ProviderT * error :=
  let '(provider, err) := getRecordProvider chainProvider in
  match err, provider with
  | Some _, _ => (None, None, err)
  | None, None => (None, None, Some "there is no active blockchain provider")
  | None, Some pv =>
      let '(client, err) :=
        NewChainClient (PType pv) (ClientId pv) (ClientSecret pv) (PRegion pv)
          (Network pv) (Chain pv) (ProviderUrl pv) (Text pv) (UserKey pv)
          (UserCert pv) (SignKey pv) (SignCert pv) (ContractName pv)
          (ContractMethod pv) in
      match err with
      | Some _ => (None, None, err)
      | None => (client, provider, None)
      end
  end.

(** The eight assignments of [toParam] to its copy of the record. *)
Definition clear_anchoring (record : Record) : Record :=
  let record2 := record in
  let record2 := set_Provider "" record2 in
  let record2 := set_Block "" record2 in
  let record2 := set_Transaction "" record2 in
  let record2 := set_BlockHash "" record2 in
  let record2 := set_Provider2 "" record2 in
  let record2 := set_Block2 "" record2 in
  let record2 := set_Transaction2 "" record2 in
  let record2 := set_BlockHash2 "" record2 in
  record2.

Definition toParam (record : Record) : string :=
  let record2 := clear_anchoring record in
  let res := mkParam (getId record2) "Record"
               (StructToJson (Record_json record2)) in
  StructToJson (Param_json res).

Definition already_committed (record : Record) (block : string) : string :=
  "the record: " +:+ getId record +:+ " has already been committed, blockId = "
  +:+ block.

Definition nil_deref : string :=
  "invalid memory address or nil pointer dereference".

Definition primary_data (provider blockId transactionId blockHash : string)
  : FieldMap :=
  <["provider" := AStr provider]>
  (<["block" := AStr blockId]>
  (<["transaction" := AStr transactionId]>
  (<["block_hash" := AStr blockHash]> ∅))).

Definition secondary_data (provider2 blockId transactionId blockHash : string)
  : FieldMap :=
  <["provider2" := AStr provider2]>
  (<["block2" := AStr blockId]>
  (<["transaction2" := AStr transactionId]>
  (<["block_hash2" := AStr blockHash]> ∅))).

Definition CommitRecord (record : Record)
  : M (Record * (bool * option FieldMap * error)) :=
  if negb (String.eqb (Block record) "") then
    ret (record, (false, None,
                   Some (already_committed record (Block record))))
  else
    let '(client, provider, err) := getRecordChainClient (Provider record) in
    match err, provider, client with
    | Some _, _, _ => ret (record, (false, None, err))
    | None, None, _ => panic nil_deref
    | None, Some pv, None => panic nil_deref
    | None, Some pv, Some client =>
        let record := set_Provider (PName pv) record in
        let '(blockId, transactionId, blockHash, err) :=
          client_Commit client (toParam record) in
        match err with
        | Some _ => ret (record, (false, None, err))
        | None =>
            let data :=
              primary_data (Provider record) blockId transactionId blockHash in
            do (affected, err) <- UpdateRecordFields (getId record) data ;;
            ret (record, (affected, Some data, err))
        end
    end.

Definition CommitRecordSecond (record : Record) : M (Record * (bool * error)) :=
  if negb (String.eqb (Block2 record) "") then
    ret (record, (false, Some (already_committed record (Block2 record))))
  else
    let '(client, provider, err) := getRecordChainClient (Provider2 record) in
    match err, provider, client with
    | Some _, _, _ => ret (record, (false, err))
    | None, None, _ => panic nil_deref
    | None, Some pv, None => panic nil_deref
    | None, Some pv, Some client =>
        let record := set_Provider2 (PName pv) record in
        let '(blockId, transactionId, blockHash, err) :=
          client_Commit client (toParam record) in
        match err with
        | Some _ => ret (record, (false, err))
        | None =>
            do (affected, err) <-
              UpdateRecordFields (getId record)
                (secondary_data (Provider2 record) blockId transactionId
                   blockHash) ;;
            ret (record, (affected, err))
        end
    end.

(** *** [AddRecord] ([record.go]; it calls [CommitRecord]) *)

Definition bind_active_providers (record : Record)
  : Record * error :=
  if String.eqb (Provider record) "" then
    let '(providerFrist, providerSecend, err) :=
      GetTwoActiveBlockchainProvider "admin" in
    match err with
    | Some _ => (record, err)
    | None =>
        let record :=
          match providerFrist with
          | Some pv => set_Provider (PName pv) record
          | None => record
          end in
        let record :=
          match providerSecend with
          | Some pv => set_Provider2 (PName pv) record
          | None => record
          end in
        (record, None)
    end
  else (record, None).

Definition AddRecord (record : Record)
  : M (Record * (bool * option FieldMap * error)) :=
  if logPostOnly && String.eqb (Method record) "GET" then
    ret (record, (false, None, None))
  else if Strings.HasSuffix (Action record) "-record" then
    ret (record, (false, None, None))
  else if Strings.HasSuffix (Action record) "-record-second" then
    ret (record, (false, None, None))
  else
    let '(record, err) := bind_active_providers record in
    match err with
    | Some _ => ret (record, (false, None, err))
    | None =>
        let record := set_Owner (Organization record) record in
        do (record, affected, err) <- engine_Insert record ;;
        match err with
        | Some _ => ret (record, (false, None, err))
        | None =>
            if NeedCommit record then
              do (record, (affected2, data, err)) <- CommitRecord record ;;
              match err with
              | Some _ => ret (record, (false, None, err))
              | None => ret (record, (affected2, data, None))
              end
            else ret (record, (negb (Z.eqb affected 0), None, None))
        end
    end.

End RecordEngine.

(** ** Lookup by id, listing and verification

    The remaining functions of [record.go] and [record_chain.go] that run
    on the statements above, and the two listings.  [Find] has no entry in
    [Stmt]: a listing is a round trip that takes the next answer of the
    fault plan and leaves the journal alone. *)

(** [util.GetOwnerAndNameFromIdNoCheck]; [None]: the call panics. *)
Class UtilIdPkg := {
  GetOwnerAndNameFromIdNoCheck : string -> option (string * string)
}.

(** [ORDER BY id DESC] *)
Definition id_desc (a b : Record) : Prop := (Id b <= Id a)%Z.

#[global] Instance id_desc_dec (a b : Record) : Decision (id_desc a b).
Proof. unfold id_desc. apply _. Defined.

(** [Record{Owner: owner}] *)
Definition Record_owned (owner : string) : Record :=
  mkRecord 0 owner "" "" "" "" "" "" "" "" "" "" "" "" "" "" "" "" "" "" "" ""
    "" "" "" "" false false.

(** [engine.Desc("id").Find(&records, &bean)]: the rows that match the
    non-zero fields of the bean, highest id first; on a driver error the
    slice is left as it was given, empty. *)
Definition engine_FindDesc (bean : Record) : M (list Record * error) :=
  fun e =>
    let e1 := mkEngine (rows e) (journal e) (tl (faults e)) in
    match hd None (faults e) with
    | Some msg => Done ([], Some msg) e1
    | None =>
        Done (merge_sort id_desc (List.filter (bean_match bean) (rows e)),
              None) e1
    end.

Definition GetRecords (owner : string) : M (list Record * error) :=
  do (records, err) <- engine_FindDesc (Record_owned owner) ;;
  match err with
  | Some _ => ret (records, err)
  | None => ret (records, None)
  end.

Definition getAllRecords : M (list Record * error) :=
  do (records, err) <- engine_FindDesc Record_zero ;;
  match err with
  | Some _ => ret (records, err)
  | None => ret (records, None)
  end.

Section Verification.

Context {util : UtilPkg} {utilid : UtilIdPkg} {directory : ProviderDirectory}.

Definition GetRecord (id : string) : M (option Record * error) :=
  match GetOwnerAndNameFromIdNoCheck id with
  | None => panic "index out of range"
  | Some (owner, name) => getRecord owner name
  end.

Definition does_not_exist (id : string) : string :=
  "the record: " +:+ id +:+ " does not exist".

Definition block_empty (record : Record) : string :=
  "the record: " +:+ getId record +:+ "'s block ID should not be empty".

Definition QueryRecord (id : string) : M (string * error) :=
  do (record, err) <- GetRecord id ;;
  match err, record with
  | Some _, _ => ret ("", err)
  | None, None => ret ("", Some (does_not_exist id))
  | None, Some record =>
      if String.eqb (Block record) "" then
        ret ("", Some (block_empty record))
      else
        let '(client, _, err) := getRecordChainClient (Provider record) in
        match err, client with
        | Some _, _ => ret ("", err)
        | None, None => panic nil_deref
        | None, Some client =>
            let '(res, err) :=
              client_Query client (Transaction record) (toParam record) in
            match err with
            | Some _ => ret ("", err)
            | None => ret (res, None)
            end
        end
  end.

Definition QueryRecordSecond (id : string) : M (string * error) :=
  do (record, err) <- GetRecord id ;;
  match err, record with
  | Some _, _ => ret ("", err)
  | None, None => ret ("", Some (does_not_exist id))
  | None, Some record =>
      if String.eqb (Block2 record) "" then
        ret ("", Some (block_empty record))
      else
        let '(client, _, err) := getRecordChainClient (Provider2 record) in
        match err, client with
        | Some _, _ => ret ("", err)
        | None, None => panic nil_deref
        | None, Some client =>
            let '(res, err) :=
              client_Query client (Transaction2 record) (toParam record) in
            match err with
            | Some _ => ret ("", err)
            | None => ret (res, None)
            end
        end
  end.

End Verification.

(** ** Concrete collaborators, to run the model

    A compact JSON renderer, the [owner/name] splitter, a provider
    directory with one Ethereum provider and an in-memory chain
    connection. *)

Module Demo.

Definition hex_digit (n : nat) : ascii :=
  nth n (list_ascii_of_string "0123456789abcdef") "0"%char.

Definition BS : string := String (ascii_of_nat 92) EmptyString.

Definition escape_byte (c : ascii) : string :=
  let n := nat_of_ascii c in
  if (n =? 34)%nat then BS +:+ DQ
  else if (n =? 92)%nat then BS +:+ BS
  else if (n =? 10)%nat then BS +:+ "n"
  else if (n =? 13)%nat then BS +:+ "r"
  else if (n =? 9)%nat then BS +:+ "t"
  else if (n <? 32)%nat || (n =? 60)%nat || (n =? 62)%nat || (n =? 38)%nat
  then BS +:+ "u00" +:+ String (hex_digit (n / 16)) (String (hex_digit (n mod 16)) "")
  else String c "".

Fixpoint escape (s : string) : string :=
  match s with
  | EmptyString => EmptyString
  | String c tl => escape_byte c +:+ escape tl
  end.

Definition quote (s : string) : string := DQ +:+ escape s +:+ DQ.

Fixpoint render (j : json) : string :=
  match j with
  | JNull => "null"
  | JNum z => Strings.Itoa z
  | JStr s => quote s
  | JBool b => if b then "true" else "false"
  | JArr items =>
      "[" +:+ (fix go (l : list json) : string :=
                 match l with
                 | [] => ""
                 | [x] => render x
                 | x :: tl => render x +:+ "," +:+ go tl
                 end) items +:+ "]"
  | JObj members =>
      "{" +:+ (fix go (l : list (string * json)) : string :=
                 match l with
                 | [] => ""
                 | [(k, v)] => quote k +:+ ":" +:+ render v
                 | (k, v) :: tl => quote k +:+ ":" +:+ render v +:+ "," +:+ go tl
                 end) members +:+ "}"
  end.

Fixpoint split_on (sep : ascii) (s : string) : list string :=
  match s with
  | EmptyString => [EmptyString]
  | String c tl =>
      let rest := split_on sep tl in
      if Ascii.eqb c sep then EmptyString :: rest
      else match rest with
           | h :: t => String c h :: t
           | [] => [String c EmptyString]
           end
  end.

(** Exactly two tokens around one slash, else a panic. *)
Definition split_id (id : string) : option (string * string) :=
  match split_on "/"%char id with
  | [owner; name] => Some (owner, name)
  | _ => None
  end.

#[local] Instance util : UtilPkg := {
  StructToJson := render;
  GetOwnerAndNameFromId := split_id;
  FilterQuery := fun uri _ => uri;
  GetIPFromRequest := RemoteAddr;
  GetInfoFromIP := fun _ => (mkLocationInfo "FR" "Paris", None);
  GenerateId := "7c6b0d9e";
  GetCurrentTime := "2024-05-01T10:00:00Z";
  json_Marshal := fun d =>
    (match d with Some j => render j | None => "null" end, None);
  json_Unmarshal := fun _ => (mkRespBody "ok" "", None)
}.

Definition conf_of (postOnly : bool) : ConfPkg := {|
  GetConfigBool := fun key => String.eqb key "logPostOnly" && postOnly;
  GetLanguage := fun l => l
|}.

(** A chain connection: the submitted transaction is mined in block
    [block] unless [mine_error] is set; the chain holds [stored] as the
    data of every transaction. *)
Definition conn (mine_error : error) (block : Z) (stored : string) : EthConn := {|
  PendingNonceAt := fun _ => (7%Z, None);
  SuggestGasPrice := (1000%Z, None);
  EstimateGas := fun _ => (21000%Z, None);
  ChainID := (1%Z, None);
  SignTx := fun tx _ key =>
    (mkTx (Nonce tx) (TxTo tx) (TxValue tx) (GasLimit tx) (GasPrice tx)
       (Data tx) key, None);
  SendTransaction := fun _ => None;
  TxHash := fun _ => "txhash";
  WaitMined := fun _ =>
    match mine_error with
    | Some _ => (mkReceipt "" 0, mine_error)
    | None => (mkReceipt "blockhash" block, None)
    end;
  TransactionReceipt := fun _ => (mkReceipt "blockhash" block, None);
  TransactionByHash := fun _ => (mkTx 7 "0xabc" 0 21000 1000 stored "k", None);
  Hex := fun h => "0x" +:+ h;
  HexToHash := fun s => s
|}.

Definition eth (mine_error : error) : EthereumClient :=
  mkEthereumClient (conn mine_error 12345 "payload") "k" "0xabc".

Definition eth_provider : ProviderT :=
  mkProvider "eth-main" "Ethereum" "" "k" "" "" "" "http://localhost:8545"
    "" "" "" "" "" "" "".

Definition directory_of (mine_error : error) : ProviderDirectory := {|
  getProvider := fun _ name =>
    if String.eqb name "eth-main" then (Some eth_provider, None)
    else (None, None);
  GetActiveBlockchainProvider := fun _ => (Some eth_provider, None);
  GetTwoActiveBlockchainProvider := fun _ => (Some eth_provider, None, None);
  NewChainClient := fun _ _ _ _ _ _ _ _ _ _ _ _ _ _ =>
    (Some (EthereumClient_client (eth mine_error)), None)
|}.

(** A stored record of organization [acme], not yet anchored, and the
    same record once anchored in block 12345. *)
Definition fresh : Record :=
  mkRecord 1 "acme" "7c6b0d9e" "2024-05-01T10:00:00Z" "acme" "10.0.0.1"
    "curl" "alice" "POST" "/api/add-store" "add-store" "en" "FR" "Paris"
    "" "" "{}" "ok" "eth-main" "" "" "" "" "" "" "" false false.

Definition anchored : Record :=
  set_Transaction "0xtxhash"
    (set_BlockHash "0xblockhash" (set_Block "12345" fresh)).

Definition anchored2 : Record :=
  set_Transaction2 "0xtxhash"
    (set_BlockHash2 "0xblockhash"
       (set_Block2 "777" (set_Provider2 "eth-main" fresh))).

Definition store_of (rs : list Record) : Engine := mkEngine rs [] [].

(** The record of another organization that has the same name. *)
Definition namesake : Record := set_Id 2 (set_Owner "globex" fresh).

(** A [GET] request record, not yet stored. *)
Definition get_request : Record :=
  mkRecord 0 "" "51aa0c3f" "2024-05-01T10:00:05Z" "acme" "10.0.0.1" "curl"
    "alice" "GET" "/api/get-stores" "get-stores" "en" "FR" "Paris" "" ""
    "" "ok" "" "" "" "" "" "" "" "" false false.

Fixpoint replicate_char (n : nat) (c : ascii) : string :=
  match n with
  | O => EmptyString
  | S k => String c (replicate_char k c)
  end.

(** A request whose URI has 1219 bytes. *)
Definition long_uri : string :=
  "/api/get-records?q=" +:+ replicate_char 1200 "a"%char.

Definition long_request : Context :=
  mkContext (mkRequest "GET" "/api/get-records" long_uri (fun _ => "en-US")
               "10.0.0.1")
    None None.

End Demo.

(** A toy chain for running the two ledger calls together: a transaction
    is addressed by its data, and the chain serves back what it was
    sent. *)
Module Sim.

Definition conn : EthConn := {|
  PendingNonceAt := fun _ => (0%Z, None);
  SuggestGasPrice := (1%Z, None);
  EstimateGas := fun _ => (21000%Z, None);
  ChainID := (1%Z, None);
  SignTx := fun tx _ key =>
    (mkTx (Nonce tx) (TxTo tx) (TxValue tx) (GasLimit tx) (GasPrice tx)
       (Data tx) key, None);
  SendTransaction := fun _ => None;
  TxHash := fun tx => Data tx;
  WaitMined := fun _ => (mkReceipt "b" 42, None);
  TransactionReceipt := fun _ => (mkReceipt "b" 42, None);
  TransactionByHash := fun h => (mkTx 0 "" 0 0 0 h "", None);
  Hex := fun h => "0x" +:+ h;
  HexToHash := fun s => substring 2 (String.length s - 2) s
|}.

Definition eth : EthereumClient := mkEthereumClient conn "k" "0xabc".

Definition provider : ProviderT :=
  mkProvider "sim" "Ethereum" "" "k" "" "" "" "" "" "" "" "" "" "" "".

Definition directory : ProviderDirectory := {|
  getProvider := fun _ name =>
    if String.eqb name "sim" then (Some provider, None) else (None, None);
  GetActiveBlockchainProvider := fun _ => (None, None);
  GetTwoActiveBlockchainProvider := fun _ => (Some provider, None, None);
  NewChainClient := fun _ _ _ _ _ _ _ _ _ _ _ _ _ _ =>
    (Some (EthereumClient_client eth), None)
|}.

(** A directory in which the ledger refuses every commit. *)
Definition failing_directory : ProviderDirectory := {|
  getProvider := fun _ name =>
    if String.eqb name "sim" then (Some provider, None) else (None, None);
  GetActiveBlockchainProvider := fun _ => (None, None);
  GetTwoActiveBlockchainProvider := fun _ => (Some provider, None, None);
  NewChainClient := fun _ _ _ _ _ _ _ _ _ _ _ _ _ _ =>
    (Some (EthereumClient_client
             (mkEthereumClient (Demo.conn (Some "timeout") 0 "") "k" "0xabc")),
     None)
|}.

#[local] Instance utilid : UtilIdPkg := {
  GetOwnerAndNameFromIdNoCheck := Demo.split_id
}.

(** A record of organization [acme] bound to the toy chain, as a client
    submits it (no id, no owner yet), and as the table holds it. *)
Definition submitted : Record :=
  mkRecord 0 "" "rec-1" "2024-05-01T10:00:00Z" "acme" "10.0.0.1" "curl"
    "alice" "POST" "/api/add-store" "add-store" "en" "FR" "Paris" "" ""
    "{}" "ok" "sim" "" "" "" "" "" "" "" false false.

Definition stored : Record := set_Id 1 (set_Owner "acme" submitted).

End Sim.

(** ** The local embedding provider ([embedding/local.go])

    Prices are [float64] values that the code only passes on: the three
    literals of [calculatePrice], the provider's own price and
    [getPrice] are taken as given, and so are the vectors of the
    response.  A client is told by the function that built it and its
    arguments; [CreateEmbeddings] is the call of go-openai on the client,
    which may be nil. *)

Module Embedding.

Class PricePkg := {
  float64 : Type;
  float64_zero : float64;
  lit_0_0001 : float64;
  lit_0_00002 : float64;
  lit_0_00013 : float64;
  (* embedding.getPrice *)
  getPrice : Z -> float64 -> float64;
  (* []float32 *)
  Vector : Type
}.

Inductive Client :=
| LocalClient (authToken url : string)
    (* getLocalClientFromUrl: BaseURL = url, TLS verification skipped *)
| AzureClient (deploymentName secretKey providerUrl apiVersion : string)
    (* getAzureClientFromToken *)
| ProxyClient (secretKey : string).
    (* getProxyClientFromToken *)

(** [strings.Contains] *)
Fixpoint Contains_b (s substr : string) : bool :=
  String.prefix substr s
  || match s with
     | EmptyString => false
     | String _ tl => Contains_b tl substr
     end.

Section Provider.

Context {prices : PricePkg}.

Record LocalEmbeddingProvider := mkLocalEmbeddingProvider {
  typ : string;
  subType : string;
  deploymentName : string;
  secretKey : string;
  providerUrl : string;
  compatibleProvider : string;
  apiVersion : string;
  pricePerThousandTokens : float64;
  currency : string
}.

Record EmbeddingResult := mkEmbeddingResult {
  TokenCount : Z;
  Price : float64;
  Currency : string
}.

Record EmbeddingResponse := mkEmbeddingResponse {
  PromptTokens : Z;
  RespData : list Vector
}.

(** The request [CreateEmbeddings] is called with: client, input text,
    model.  The client may be nil ([None]); what the go-openai library
    does with a nil receiver is the library's, and a backend here always
    answers with a response and an error. *)
Definition Backend : Type :=
  option Client -> string -> string -> EmbeddingResponse * error.

Definition NewLocalEmbeddingProvider
  (typ subType secretKey providerUrl compatibleProvider : string)
  (pricePerThousandTokens : float64) (currency : string)
  : option LocalEmbeddingProvider * error :=
  (Some (mkLocalEmbeddingProvider typ subType "" secretKey providerUrl
           compatibleProvider "" pricePerThousandTokens currency),
   None).

Definition getLocalClientFromUrl (authToken url : string) : Client :=
  LocalClient authToken url.

Definition unknown_model (model : string) : string :=
  "calculatePrice() error: unknown model type: " +:+ model.

(** [calculatePrice] assigns to the result it is given: the result as it
    leaves it, and the error. *)
Definition calculatePrice (p : LocalEmbeddingProvider) (res : EmbeddingResult)
  : EmbeddingResult * error :=
  let embeddingModel := subType p in
  let res := mkEmbeddingResult (TokenCount res) (Price res) "USD" in
  let priced (res : EmbeddingResult) (pricePerThousandTokens : float64) :=
    (mkEmbeddingResult (TokenCount res)
       (getPrice (TokenCount res) pricePerThousandTokens) (Currency res),
     None) in
  if Contains_b embeddingModel "text-embedding-ada-002" then
    priced res lit_0_0001
  else if Contains_b embeddingModel "text-embedding-3-small" then
    priced res lit_0_00002
  else if Contains_b embeddingModel "text-embedding-3-large" then
    priced res lit_0_00013
  else if String.eqb embeddingModel "custom-embedding"
          || String.eqb (typ p) "Ollama" then
    priced (mkEmbeddingResult (TokenCount res) (Price res) (currency p))
      (pricePerThousandTokens p)
  else (res, Some (unknown_model embeddingModel)).

(** What [QueryVector] comes to: a panic or its three results. *)
Inductive QueryOutcome :=
| QueryPanic (msg : string)
| QueryReturn (vector : option Vector) (res : option EmbeddingResult)
    (err : error).

Definition select_client (p : LocalEmbeddingProvider) : option Client :=
  if String.eqb (typ p) "Local" then
    Some (getLocalClientFromUrl (secretKey p) (providerUrl p))
  else if String.eqb (typ p) "Azure" then
    Some (AzureClient (deploymentName p) (secretKey p) (providerUrl p)
            (apiVersion p))
  else if String.eqb (typ p) "OpenAI" then
    Some (ProxyClient (secretKey p))
  else if String.eqb (typ p) "Custom" then
    Some (getLocalClientFromUrl (secretKey p) (providerUrl p))
  else None.

Definition QueryVector (CreateEmbeddings : Backend)
  (p : LocalEmbeddingProvider) (text : string) : QueryOutcome :=
  let client := select_client p in
  let model := subType p in
  let request (model : string) :=
    let '(resp, err) := CreateEmbeddings client text model in
    match err with
    | Some _ => QueryReturn None None err
    | None =>
        let tokenCount := PromptTokens resp in
        let embeddingResult := mkEmbeddingResult tokenCount float64_zero "" in
        let '(embeddingResult, err) :=
          if negb (String.eqb (typ p) "Custom")
          then calculatePrice p embeddingResult
          else (embeddingResult, None) in
        match err with
        | Some _ => QueryReturn None None err
        | None =>
            match RespData resp with
            | [] => QueryPanic "index out of range [0] with length 0"
            | vector :: _ =>
                QueryReturn (Some vector) (Some embeddingResult) None
            end
        end
    end in
  if String.eqb model "custom-embedding"
     && negb (String.eqb (compatibleProvider p) "") then
    request (compatibleProvider p)
  else if String.eqb model "custom-embedding"
          && String.eqb (compatibleProvider p) "" then
    QueryReturn None None (Some "no embedding provider specified")
  else request model.

End Provider.

(** One of the three model names of the price table occurs in the model
    name. *)
Definition known_model (model : string) : Prop :=
  Strings.Contains model "text-embedding-ada-002"
  \/ Strings.Contains model "text-embedding-3-small"
  \/ Strings.Contains model "text-embedding-3-large".

(** Prices in units of a hundred-thousandth, to run the model. *)
Definition demo_prices : PricePkg := {|
  float64 := Z;
  float64_zero := 0%Z;
  lit_0_0001 := 10%Z;
  lit_0_00002 := 2%Z;
  lit_0_00013 := 13%Z;
  getPrice := fun tokenCount price => (tokenCount * price)%Z;
  Vector := list Z
|}.

(** A backend that answers every request with 7 prompt tokens and one
    vector. *)
Definition demo_backend : @Backend demo_prices :=
  fun _ _ _ => (@mkEmbeddingResponse demo_prices 7 [[1; 2; 3]%Z], None).

End Embedding.

(** ** Properties *)

(** Two records agree on every field outside the two anchoring slots. *)
Definition same_but_anchoring (r1 r2 : Record) : Prop :=
  Id r1 = Id r2 /\ Owner r1 = Owner r2 /\ Name r1 = Name r2
  /\ CreatedTime r1 = CreatedTime r2 /\ Organization r1 = Organization r2
  /\ ClientIp r1 = ClientIp r2 /\ UserAgent r1 = UserAgent r2
  /\ User r1 = User r2 /\ Method r1 = Method r2
  /\ RequestUri r1 = RequestUri r2 /\ Action r1 = Action r2
  /\ Language r1 = Language r2 /\ Region r1 = Region r2 /\ City r1 = City r2
  /\ Unit r1 = Unit r2 /\ Section r1 = Section r2 /\ Object r1 = Object r2
  /\ Response r1 = Response r2 /\ IsTriggered r1 = IsTriggered r2
  /\ NeedCommit r1 = NeedCommit r2.

(** The primary slot of a record, and the secondary one. *)
Definition slot1 (r : Record) : string * string * string * string :=
  (Provider r, Block r, BlockHash r, Transaction r).

Definition slot2 (r : Record) : string * string * string * string :=
  (Provider2 r, Block2 r, BlockHash2 r, Transaction2 r).

(** [r'] is [r] but for its primary slot; but for its secondary slot. *)
Definition frame1 (r r' : Record) : Prop :=
  same_but_anchoring r r' /\ slot2 r = slot2 r'.

Definition frame2 (r r' : Record) : Prop :=
  same_but_anchoring r r' /\ slot1 r = slot1 r'.

Definition primary_columns : gset string :=
  {[ "provider"; "block"; "transaction"; "block_hash" ]}.

Definition secondary_columns : gset string :=
  {[ "provider2"; "block2"; "transaction2"; "block_hash2" ]}.

(** Members of a JSON object: their names in order, and the value under a
    name. *)
Definition member_names (j : json) : list string :=
  match j with
  | JObj members => List.map fst members
  | _ => []
  end.

Definition member (k : string) (j : json) : option json :=
  match j with
  | JObj members =>
      match List.find (fun kv => String.eqb (fst kv) k) members with
      | Some kv => Some (snd kv)
      | None => None
      end
  | _ => None
  end.

(** The [json] tags of the eight anchoring fields. *)
Definition anchoring_tags : list string :=
  [ "provider"; "block"; "blockHash"; "transaction";
    "provider2"; "block2"; "blockHash2"; "transaction2" ].

(** The statements sent between two states of the store, and those of
    them that write. *)
Definition sent_between (e e' : Engine) (stmts : list Stmt) : Prop :=
  journal e' = (journal e ++ stmts)%list.

Definition writes_between (e e' : Engine) (ws : list Stmt) : Prop :=
  exists stmts, sent_between e e' stmts /\ List.filter is_write stmts = ws.

(** The store after the lookup and the partial update of a commit. *)
Definition committed (name : string) (data : FieldMap) (e : Engine) : Engine :=
  with_rows (update_where name (assign data) (rows e))
    (sent (SqlUpdateMap name data) (sent (SqlGet (Record_named name)) e)).

(** The text [Query] puts before the verdict. *)
Definition verdict_header (receipt : Receipt) : string :=
  "The query result for block [" +:+ Strings.Itoa (BlockNumber receipt)
  +:+ "] is: ".

(** A chain that does not tamper: signing keeps the data of a
    transaction, and a transaction that was accepted is served back, with
    its data and a receipt, under the hash text [Commit] returned for
    it. *)
Definition faithful_chain (c : EthConn) : Prop :=
  (forall tx chainID key signed,
     SignTx c tx chainID key = (signed, None) -> Data signed = Data tx)
  /\ (forall signed,
        SendTransaction c signed = None ->
        let hash := HexToHash c (Hex c (TxHash c signed)) in
        (exists tx, TransactionByHash c hash = (tx, None)
                    /\ Data tx = Data signed)
        /\ exists receipt, TransactionReceipt c hash = (receipt, None)).

(** What a call that returns [(text, err)] hands back to its caller in
    [QueryRecord]: the text only when there is no error. *)
Definition passed_on (res : string * error) : string * error :=
  match res.2 with
  | Some _ => ("", res.2)
  | None => (res.1, None)
  end.

(** *** Canonical payload *)

Lemma same_but_anchoring_clear r1 r2 :
  same_but_anchoring r1 r2 -> clear_anchoring r1 = clear_anchoring r2.
Proof.
  destruct r1, r2; unfold same_but_anchoring, clear_anchoring; simpl.
  intros H; decompose [and] H; by subst.
Qed.

Lemma assign_primary_data p b t h r :
  assign (primary_data p b t h) r
  = set_Provider p (set_Block b (set_Transaction t (set_BlockHash h r))).
Proof. destruct r; reflexivity. Qed.

Lemma assign_secondary_data p b t h r :
  assign (secondary_data p b t h) r
  = set_Provider2 p (set_Block2 b (set_Transaction2 t (set_BlockHash2 h r))).
Proof. destruct r; reflexivity. Qed.

Section Canonical.

Context {util : UtilPkg}.

(** C2.  The canonical payload does not depend on the anchoring state:
    [toParam] of a record is [toParam] of the record with the eight
    anchoring fields cleared; two records that differ in those eight
    fields only have the same payload; and a stored row gives the same
    payload before and after a commit of either slot wrote to it. *)
Theorem toParam_anchoring_invariant (r : Record) :
  toParam r = toParam (clear_anchoring r)
  /\ (forall r2, same_but_anchoring r r2 -> toParam r = toParam r2)
  /\ (forall p b t h, toParam (assign (primary_data p b t h) r) = toParam r)
  /\ (forall p b t h, toParam (assign (secondary_data p b t h) r) = toParam r).
Proof.
  assert (Hclear : forall a c, clear_anchoring a = clear_anchoring c ->
                               toParam a = toParam c).
  { intros a c E. unfold toParam. by rewrite E. }
  split; [| split; [| split]].
  - apply Hclear. by destruct r.
  - intros r2 H. by apply Hclear, same_but_anchoring_clear.
  - intros. apply Hclear. rewrite assign_primary_data. by destruct r.
  - intros. apply Hclear. rewrite assign_secondary_data. by destruct r.
Qed.

(** The record tree of the payload: the anchoring members are empty
    strings, every other member is the record's. *)
Lemma cleared_members (r : Record) :
  member_names (Record_json (clear_anchoring r))
  = member_names (Record_json r)
  /\ (forall k, In k anchoring_tags ->
        member k (Record_json (clear_anchoring r)) = Some (JStr ""))
  /\ (forall k, ~ In k anchoring_tags ->
        member k (Record_json (clear_anchoring r))
        = member k (Record_json r)).
Proof.
  split; [reflexivity |]. split.
  - intros k Hk. unfold anchoring_tags in Hk. cbn [In] in Hk.
    decompose [or] Hk; subst; try reflexivity; contradiction.
  - intros k Hk.
    assert (Hne : forall t, In t anchoring_tags -> String.eqb t k = false).
    { intros t Ht. apply String.eqb_neq. by intros ->. }
    unfold member, Record_json, clear_anchoring.
    cbn [List.find fst snd].
    rewrite (Hne "provider"), (Hne "block"), (Hne "blockHash"),
      (Hne "transaction"), (Hne "provider2"), (Hne "block2"),
      (Hne "blockHash2"), (Hne "transaction2")
      by (unfold anchoring_tags; cbn [In]; auto 10).
    reflexivity.
Qed.

(** C3.  The payload is the JSON text of the object with the three
    members [key], [field] and [value], in that order: [key] is
    [owner/name], [field] is [Record], and [value] is the JSON text of the
    record in which the eight anchoring fields are the empty string and
    every other field is the record's. *)
Theorem toParam_payload (r : Record) :
  toParam r =
  StructToJson
    (JObj
       [ ("key", JStr (Owner r +:+ "/" +:+ Name r));
         ("field", JStr "Record");
         ("value",
          JStr
            (StructToJson
               (JObj
                  [ ("id", JNum (Id r));
                    ("owner", JStr (Owner r)); ("name", JStr (Name r));
                    ("createdTime", JStr (CreatedTime r));
                    ("organization", JStr (Organization r));
                    ("clientIp", JStr (ClientIp r));
                    ("userAgent", JStr (UserAgent r));
                    ("user", JStr (User r)); ("method", JStr (Method r));
                    ("requestUri", JStr (RequestUri r));
                    ("action", JStr (Action r));
                    ("language", JStr (Language r));
                    ("region", JStr (Region r)); ("city", JStr (City r));
                    ("unit", JStr (Unit r)); ("section", JStr (Section r));
                    ("object", JStr (Object r));
                    ("response", JStr (Response r));
                    ("provider", JStr ""); ("block", JStr "");
                    ("blockHash", JStr ""); ("transaction", JStr "");
                    ("provider2", JStr ""); ("block2", JStr "");
                    ("blockHash2", JStr ""); ("transaction2", JStr "");
                    ("isTriggered", JBool (IsTriggered r));
                    ("needCommit", JBool (NeedCommit r)) ]))) ])
  /\ (exists tree,
        toParam r
        = StructToJson
            (Param_json
               (mkParam (getId r) "Record" (StructToJson tree)))
        /\ member_names tree = member_names (Record_json r)
        /\ (forall k, In k anchoring_tags -> member k tree = Some (JStr ""))
        /\ (forall k, ~ In k anchoring_tags ->
              member k tree = member k (Record_json r)))
  /\ (forall p, member_names (Param_json p) = ["key"; "field"; "value"]).
Proof.
  split; [reflexivity |]. split; [| reflexivity].
  exists (Record_json (clear_anchoring r)).
  split; [reflexivity |]. apply cleared_members.
Qed.

End Canonical.

(** *** Byte strings *)

Lemma append_assoc (a b c : string) : (a +:+ b) +:+ c = a +:+ b +:+ c.
Proof.
  induction a as [| x a IH]; [done |].
  change (String x ((a +:+ b) +:+ c) = String x (a +:+ b +:+ c)).
  by f_equal.
Qed.

Lemma append_nil_r (a : string) : a +:+ "" = a.
Proof.
  induction a as [| x a IH]; [done |].
  change (String x (a +:+ "") = String x a). by f_equal.
Qed.

Lemma length_substring_0 (n : nat) (s : string) :
  (n <= String.length s)%nat -> String.length (substring 0 n s) = n.
Proof.
  revert s; induction n as [| n IH]; intros [| c s]; simpl; intros H;
    try done; try lia.
  rewrite IH; [done | lia].
Qed.

Lemma Contains_here (a b c : string) : Strings.Contains (a +:+ b +:+ c) b.
Proof. by exists a, c. Qed.

Lemma Contains_end (a b : string) : Strings.Contains (a +:+ b) b.
Proof. exists a, "". by rewrite append_nil_r. Qed.

Lemma Contains_start (a b : string) : Strings.Contains (a +:+ b) a.
Proof. by exists "", b. Qed.

Lemma Contains_after (p s x : string) :
  Strings.Contains s x -> Strings.Contains (p +:+ s) x.
Proof.
  intros (a & b & ->). exists (p +:+ a), b. symmetry. apply append_assoc.
Qed.

Lemma Contains_before (s q x : string) :
  Strings.Contains s x -> Strings.Contains (s +:+ q) x.
Proof.
  intros (a & b & ->). exists a, (b +:+ q).
  by rewrite (append_assoc a), (append_assoc x).
Qed.

(** *** The Ethereum client *)

Lemma EthereumClient_Commit_error client data b t h msg :
  EthereumClient_Commit client data = (b, t, h, Some msg) ->
  b = "" /\ t = "" /\ h = "".
Proof.
  unfold EthereumClient_Commit.
  destruct (PendingNonceAt _ _) as [nonce [e1 |]]; [by intros [= <- <- <-] |].
  destruct (SuggestGasPrice _) as [gasPrice [e2 |]]; [by intros [= <- <- <-] |].
  destruct (EstimateGas _ _) as [gasLimit [e3 |]]; [by intros [= <- <- <-] |].
  destruct (ChainID _) as [chainID [e4 |]]; [by intros [= <- <- <-] |].
  destruct (SignTx _ _ _ _) as [signedTx [e5 |]]; [by intros [= <- <- <-] |].
  destruct (SendTransaction _ _) as [e6 |]; [by intros [= <- <- <-] |].
  destruct (WaitMined _ _) as [receipt [e7 |]]; [by intros [= <- <- <-] |].
  discriminate.
Qed.

(** C7.  When the receipt and the transaction are fetched, [Query] returns
    no error and a verdict text: if the bytes on the chain are the local
    payload, the text holds [Matched] and the payload; if they differ in
    any byte, it holds [Mismatched], the chain data and the local payload.
    [Query] returns an error only when one of the two fetches failed. *)
Theorem Query_verdict (client : EthereumClient) (txHash data : string) :
  let hash := HexToHash (Client client) txHash in
  (forall receipt tx,
     TransactionReceipt (Client client) hash = (receipt, None) ->
     TransactionByHash (Client client) hash = (tx, None) ->
     exists verdict,
       EthereumClient_Query client txHash data = (verdict, None)
       /\ (Data tx = data ->
           verdict = verdict_header receipt +:+ Matched_text data
           /\ Strings.Contains verdict "Matched"
           /\ Strings.Contains verdict data)
       /\ (Data tx <> data ->
           verdict = verdict_header receipt +:+ Mismatched_text (Data tx) data
           /\ Strings.Contains verdict "Mismatched"
           /\ Strings.Contains verdict (Data tx)
           /\ Strings.Contains verdict data))
  /\ (forall verdict msg,
        EthereumClient_Query client txHash data = (verdict, Some msg) ->
        (TransactionReceipt (Client client) hash).2 = Some msg
        \/ (TransactionByHash (Client client) hash).2 = Some msg).
Proof.
  intros hash; split.
  - intros receipt tx Hr Ht. unfold EthereumClient_Query.
    fold hash. rewrite Hr, Ht. eexists; split; [reflexivity |].
    unfold verdict_header; split.
    + intros E. rewrite E, String.eqb_refl. split; [by rewrite !append_assoc |].
      split.
      * rewrite <- !append_assoc. apply Contains_after.
        unfold Matched_text. apply Contains_start.
      * rewrite <- !append_assoc. apply Contains_after.
        unfold Matched_text. rewrite <- !append_assoc. apply Contains_end.
    + intros NE. apply String.eqb_neq in NE. rewrite NE.
      split; [by rewrite !append_assoc |]. split; [| split].
      * rewrite <- !append_assoc. apply Contains_after.
        unfold Mismatched_text. apply Contains_start.
      * rewrite <- !append_assoc. apply Contains_after.
        unfold Mismatched_text.
        change (Strings.Contains
                  (("Mismatched" +:+ LF +:+ stars +:+ LF +:+ "Chain data:"
                    +:+ LF +:+ LF) +:+ Data tx +:+
                   (LF +:+ stars +:+ LF +:+ "Local data:" +:+ LF +:+ LF
                    +:+ data)) (Data tx)).
        apply Contains_here.
      * rewrite <- !append_assoc. apply Contains_after.
        unfold Mismatched_text. rewrite <- !append_assoc. apply Contains_end.
  - intros verdict msg. unfold EthereumClient_Query. fold hash.
    destruct (TransactionReceipt _ hash) as [receipt [e1 |]];
      [intros [= _ ->]; by left |].
    destruct (TransactionByHash _ hash) as [tx [e2 |]];
      [intros [= _ ->]; by right |].
    discriminate.
Qed.

(** *** Record creation and the skip policy *)

Section Creation.

Context {util : UtilPkg} {conf : ConfPkg} {directory : ProviderDirectory}.

Lemma truncate_uri_long (u : string) :
  (1000 < String.length u)%nat ->
  truncate_uri u = substring 0 1000 u
  /\ String.length (truncate_uri u) = 1000%nat.
Proof.
  intros H. unfold truncate_uri, Strings.slice.
  apply Nat.ltb_lt in H as Hb. rewrite Hb.
  split; [done |]. apply length_substring_0. lia.
Qed.

Lemma truncate_uri_short (u : string) :
  (String.length u <= 1000)%nat -> truncate_uri u = u.
Proof.
  intros H. unfold truncate_uri.
  by replace (1000 <? String.length u)%nat with false
    by (symmetry; apply Nat.ltb_ge; lia).
Qed.

Lemma NewRecord_RequestUri (ctx : Context) (r : Record) (err : error) :
  NewRecord ctx = (Some r, err) ->
  RequestUri r
  = truncate_uri (FilterQuery (RequestURI (Req ctx)) ["accessToken"]).
Proof.
  unfold NewRecord.
  destruct (json_Marshal _) as [respBytes [e1 |]]; [discriminate |].
  destruct (json_Unmarshal _) as [resp [e2 |]]; [discriminate |].
  destruct (GetInfoFromIP _) as [info [e3 |]]; [discriminate |].
  by intros [= <- _].
Qed.

(** C9.  Lengths are Go's [len], counted in bytes.  When the response
    data decodes and the location lookup succeeds, [NewRecord] returns a
    record; whenever it returns a record, a filtered request URI longer
    than 1000 is stored as its first 1000 bytes, of length exactly 1000,
    and one of length 1000 or less is stored as it is. *)
Theorem NewRecord_truncates_requestUri (ctx : Context) :
  let u := FilterQuery (RequestURI (Req ctx)) ["accessToken"] in
  let ip := Strings.Replace (GetIPFromRequest (Req ctx)) ": " "" in
  (forall respBytes resp info,
     json_Marshal (Input_Data_json ctx) = (respBytes, None) ->
     json_Unmarshal respBytes = (resp, None) ->
     GetInfoFromIP ip = (info, None) ->
     exists r, NewRecord ctx = (Some r, None))
  /\ (forall r err,
        NewRecord ctx = (Some r, err) ->
        ((1000 < String.length u)%nat ->
         RequestUri r = substring 0 1000 u
         /\ String.length (RequestUri r) = 1000%nat)
        /\ ((String.length u <= 1000)%nat -> RequestUri r = u)).
Proof.
  intros u ip; split.
  - intros respBytes resp info Hm Hu Hi. unfold NewRecord.
    rewrite Hm, Hu. fold ip. rewrite Hi. by eexists.
  - intros r err H. apply NewRecord_RequestUri in H. fold u in H.
    rewrite H. split.
    + apply truncate_uri_long.
    + apply truncate_uri_short.
Qed.

(** C8.  With [logPostOnly] set, [AddRecord] of a record whose method is
    [GET] returns [(false, nil, nil)]; the record is as it was given and
    the store is the same: no row is inserted and no statement is sent. *)
Theorem AddRecord_GET_skipped (r : Record) (e : Engine) :
  logPostOnly = true ->
  Method r = "GET" ->
  AddRecord r e = Done (r, (false, None, None)) e.
Proof.
  intros Hp Hm. unfold AddRecord. by rewrite Hp, Hm.
Qed.

End Creation.

(** *** The store calls *)

Lemma cond_str_empty (v : string) : cond_str "" v = true.
Proof. reflexivity. Qed.

Lemma bean_match_named (name : string) (row : Record) :
  name <> "" -> bean_match (Record_named name) row = name_is name row.
Proof.
  intros Hn. apply String.eqb_neq in Hn.
  unfold bean_match, Record_named.
  cbn [Id Owner Name CreatedTime Organization ClientIp UserAgent User Method
       RequestUri Action Language Region City Unit Section Object Response
       Provider Block BlockHash Transaction Provider2 Block2 BlockHash2
       Transaction2].
  rewrite !cond_str_empty. change (Z.eqb 0 0) with true.
  cbn [orb andb]. rewrite !andb_true_r.
  unfold cond_str, name_is. rewrite Hn. apply String.eqb_sym.
Qed.

Lemma find_named (name : string) (rs : list Record) :
  name <> "" ->
  List.find (bean_match (Record_named name)) rs = List.find (name_is name) rs.
Proof.
  intros Hn. induction rs as [| row rs IH]; [done |].
  cbn [List.find]. by rewrite bean_match_named, IH.
Qed.

Lemma engine_Get_eq (bean : Record) (e : Engine) :
  engine_Get bean e =
  match hd None (faults e) with
  | Some msg => Done (bean, false, Some msg) (sent (SqlGet bean) e)
  | None =>
      match List.find (bean_match bean) (rows e) with
      | Some row => Done (row, true, None) (sent (SqlGet bean) e)
      | None => Done (bean, false, None) (sent (SqlGet bean) e)
      end
  end.
Proof.
  unfold engine_Get, bind, driver, get_rows, ret.
  destruct (hd None (faults e)); [done |]. simpl.
  by destruct (List.find _ _).
Qed.

Lemma engine_UpdateMap_eq (name : string) (fields : gmap string any)
  (e : Engine) :
  engine_UpdateMap name fields e =
  let e1 := sent (SqlUpdateMap name fields) e in
  match hd None (faults e) with
  | Some msg => Done (0%Z, Some msg) e1
  | None =>
      if fields_ok fields
      then Done (matched name (rows e), None)
             (with_rows (update_where name (assign fields) (rows e)) e1)
      else Done (0%Z, Some "Unknown column in field list") e1
  end.
Proof.
  unfold engine_UpdateMap, bind, driver, get_rows, put_rows, ret.
  destruct (hd None (faults e)); [done |]. by destruct (fields_ok fields).
Qed.

Lemma engine_UpdateAllCols_eq (name : string) (bean : Record) (e : Engine) :
  engine_UpdateAllCols name bean e =
  let e1 := sent (SqlUpdateAllCols name bean) e in
  match hd None (faults e) with
  | Some msg => Done (0%Z, Some msg) e1
  | None =>
      Done (matched name (rows e), None)
        (with_rows
           (update_where name (fun row => set_Id (Id row) bean) (rows e)) e1)
  end.
Proof.
  unfold engine_UpdateAllCols, bind, driver, get_rows, put_rows, ret.
  by destruct (hd None (faults e)).
Qed.

Lemma engine_Delete_eq (name : string) (e : Engine) :
  engine_Delete name e =
  let e1 := sent (SqlDelete name) e in
  match hd None (faults e) with
  | Some msg => Done (0%Z, Some msg) e1
  | None =>
      Done (matched name (rows e), None)
        (with_rows (delete_where name (rows e)) e1)
  end.
Proof.
  unfold engine_Delete, bind, driver, get_rows, put_rows, ret.
  by destruct (hd None (faults e)).
Qed.

(** A matched row count is zero exactly when no row has the name. *)
Lemma matched_zero (name : string) (rs : list Record) :
  Z.eqb (matched name rs) 0 = true <-> List.find (name_is name) rs = None.
Proof.
  unfold matched. rewrite Z.eqb_eq.
  induction rs as [| row rs IH]; simpl; [done |].
  destruct (name_is name row); simpl; [| done].
  split; [lia | discriminate].
Qed.

Section Store.

Context {util : UtilPkg}.

Lemma getRecord_empty (owner name : string) (e : Engine) :
  owner = "" \/ name = "" -> getRecord owner name e = Done (None, None) e.
Proof.
  intros H. unfold getRecord.
  replace (String.eqb owner "" || String.eqb name "") with true; [done |].
  symmetry. apply orb_true_iff. by rewrite !String.eqb_eq.
Qed.

Lemma getRecord_eq (owner name : string) (e : Engine) :
  owner <> "" -> name <> "" ->
  getRecord owner name e =
  match hd None (faults e) with
  | Some msg =>
      Done (Some (Record_named name), Some msg)
        (sent (SqlGet (Record_named name)) e)
  | None =>
      Done (List.find (name_is name) (rows e), None)
        (sent (SqlGet (Record_named name)) e)
  end.
Proof.
  intros Ho Hn. unfold getRecord.
  apply String.eqb_neq in Ho as ->. apply String.eqb_neq in Hn as Hn'.
  rewrite Hn'; simpl. unfold bind. rewrite engine_Get_eq.
  destruct (hd None (faults e)); [done |].
  rewrite find_named by done. by destruct (List.find _ _).
Qed.

Lemma UpdateRecordFields_eq (id owner name : string) (fields : FieldMap)
  (e : Engine) :
  GetOwnerAndNameFromId id = Some (owner, name) ->
  owner <> "" -> name <> "" ->
  UpdateRecordFields id fields e =
  let e1 := sent (SqlGet (Record_named name)) e in
  let e2 := sent (SqlUpdateMap name fields) e1 in
  match hd None (faults e) with
  | Some msg => Done (false, Some msg) e1
  | None =>
      match List.find (name_is name) (rows e) with
      | None => Done (false, None) e1
      | Some _ =>
          match hd None (faults e1) with
          | Some msg => Done (false, Some msg) e2
          | None =>
              if fields_ok fields
              then Done (true, None)
                     (with_rows
                        (update_where name (assign fields) (rows e)) e2)
              else Done (false, Some "Unknown column in field list") e2
          end
      end
  end.
Proof.
  intros Hid Ho Hn. unfold UpdateRecordFields. rewrite Hid.
  unfold bind. rewrite getRecord_eq by done.
  destruct (hd None (faults e)); [done |].
  destruct (List.find (name_is name) (rows e)) as [p |] eqn:Hfind; [| done].
  rewrite engine_UpdateMap_eq; simpl.
  destruct (hd None (tl (faults e))); [done |].
  destruct (fields_ok fields); [| done].
  unfold ret. do 2 f_equal.
  destruct (Z.eqb (matched name (rows e)) 0) eqn:Hz; [| done].
  apply matched_zero in Hz. congruence.
Qed.

Lemma UpdateRecordFields_skip (id owner name : string) (fields : FieldMap)
  (e : Engine) :
  GetOwnerAndNameFromId id = Some (owner, name) ->
  owner = "" \/ name = "" ->
  UpdateRecordFields id fields e = Done (false, None) e.
Proof.
  intros Hid H. unfold UpdateRecordFields, bind. rewrite Hid.
  by rewrite getRecord_empty.
Qed.

End Store.

(** *** Lookup, partial update and deletion go by the name *)

Lemma update_where_In (name : string) (f : Record -> Record)
  (rs : list Record) (row : Record) :
  In row rs -> Name row = name -> In (f row) (update_where name f rs).
Proof.
  intros Hin Hn. unfold update_where. apply in_map_iff. exists row.
  split; [| done]. unfold name_is. by rewrite Hn, String.eqb_refl.
Qed.

Lemma delete_where_In (name : string) (rs : list Record) (row : Record) :
  In row (delete_where name rs) <-> In row rs /\ Name row <> name.
Proof.
  unfold delete_where, name_is. rewrite filter_In, negb_true_iff.
  by rewrite String.eqb_neq.
Qed.

Lemma find_name_is (name : string) (rs : list Record) (p : Record) :
  List.find (name_is name) rs = Some p -> In p rs /\ Name p = name.
Proof.
  intros H. apply find_some in H as [Hin Hn]. split; [done |].
  by apply String.eqb_eq.
Qed.

Section Lookup.

Context {util : UtilPkg}.

Lemma getRecord_found (owner name : string) (e e1 : Engine) (p : Record) :
  getRecord owner name e = Done (Some p, None) e1 ->
  In p (rows e) /\ Name p = name /\ name <> ""
  /\ e1 = sent (SqlGet (Record_named name)) e.
Proof.
  intros H.
  destruct (decide (owner = "")) as [-> | Ho];
    [by rewrite getRecord_empty in H by auto |].
  destruct (decide (name = "")) as [-> | Hn];
    [by rewrite getRecord_empty in H by auto |].
  rewrite getRecord_eq in H by done.
  destruct (hd None (faults e)); [done |].
  injection H as Hf <-. apply find_name_is in Hf as [? ?]. done.
Qed.

Lemma matched_positive (name : string) (rs : list Record) :
  negb (Z.eqb (matched name rs) 0) = true
  <-> exists row, In row rs /\ Name row = name.
Proof.
  rewrite negb_true_iff, <- not_true_iff_false, matched_zero. split.
  - destruct (List.find (name_is name) rs) as [p |] eqn:Hfind; [| done].
    intros _. exists p. by apply find_name_is.
  - intros (row & Hin & Hrow) Hnone.
    eapply find_none in Hnone; [| exact Hin].
    unfold name_is in Hnone. by rewrite Hrow, String.eqb_refl in Hnone.
Qed.

(** C10.  Lookup, partial update and deletion are keyed by the name
    alone.  Two lookups of a name under non-empty owners are the same call
    with the same result; the statement sent is a [Get] whose condition is
    the name only, and what it returns without driver fault is the first
    row of that name, whatever its owner; an empty owner or name gives
    [(nil, nil)] with nothing sent.  [UpdateRecordFields] under two ids
    with the same name is the same call, and when it updates (a non-empty
    map of columns, no driver fault, a row of the name), every row of that
    name gets the fields, whatever its owner.  [DeleteRecord] depends on
    the record's name only: without driver fault it succeeds, deletes
    every row of that name and no other, and returns [true] exactly when
    there was one; on a driver fault it returns the error and the table
    stays. *)
Theorem record_keyed_by_name (n : string) (e : Engine) :
  (forall o1 o2, o1 <> "" -> o2 <> "" -> getRecord o1 n e = getRecord o2 n e)
  /\ (forall o, o <> "" -> n <> "" ->
        exists res e',
          getRecord o n e = Done res e'
          /\ sent_between e e' [SqlGet (Record_named n)]
          /\ rows e' = rows e
          /\ (hd None (faults e) = None ->
              res = (List.find (name_is n) (rows e), None))
          /\ (hd None (faults e) <> None -> res.2 = hd None (faults e))
          /\ forall row,
               bean_match (Record_named n) row = String.eqb (Name row) n)
  /\ (forall o m, o = "" \/ m = "" -> getRecord o m e = Done (None, None) e)
  /\ (forall id1 id2 o1 o2 fields,
        GetOwnerAndNameFromId id1 = Some (o1, n) ->
        GetOwnerAndNameFromId id2 = Some (o2, n) ->
        o1 <> "" -> o2 <> "" ->
        UpdateRecordFields id1 fields e = UpdateRecordFields id2 fields e)
  /\ (forall id o fields,
        GetOwnerAndNameFromId id = Some (o, n) ->
        o <> "" -> n <> "" -> faults e = [] -> fields_ok fields = true ->
        fields <> ∅ ->
        (exists row, In row (rows e) /\ Name row = n) ->
        exists e',
          UpdateRecordFields id fields e = Done (true, None) e'
          /\ rows e' = update_where n (assign fields) (rows e)
          /\ forall row, In row (rows e) -> Name row = n ->
                         In (assign fields row) (rows e'))
  /\ (forall r1 r2, Name r1 = n -> Name r2 = n ->
        DeleteRecord r1 e = DeleteRecord r2 e)
  /\ (forall r, Name r = n ->
        exists res e',
          DeleteRecord r e = Done res e'
          /\ sent_between e e' [SqlDelete n]
          /\ (hd None (faults e) = None ->
              res.2 = None
              /\ (res.1 = true <-> exists row, In row (rows e) /\ Name row = n))
          /\ (hd None (faults e) <> None ->
              res = (false, hd None (faults e)) /\ rows e' = rows e)
          /\ (res.2 = None ->
              rows e' = delete_where n (rows e)
              /\ forall row, In row (rows e') <->
                             In row (rows e) /\ Name row <> n)).
Proof.
  repeat apply conj.
  - intros o1 o2 H1 H2. destruct (decide (n = "")) as [-> | Hn].
    + by rewrite !getRecord_empty by auto.
    + by rewrite !getRecord_eq by done.
  - intros o Ho Hn. rewrite getRecord_eq by done.
    destruct (hd None (faults e)); do 2 eexists;
      (split; [reflexivity |]); (split; [done |]); (split; [done |]);
      (split; [done |]); (split; [done |]);
      intros row; by apply bean_match_named.
  - intros o m H. by apply getRecord_empty.
  - intros id1 id2 o1 o2 fields H1 H2 Ho1 Ho2.
    destruct (decide (n = "")) as [-> | Hn].
    + by rewrite (UpdateRecordFields_skip id1 o1 ""),
        (UpdateRecordFields_skip id2 o2 "") by auto.
    + by rewrite (UpdateRecordFields_eq id1 o1 n),
        (UpdateRecordFields_eq id2 o2 n) by done.
  - intros id o fields Hid Ho Hn Hf Hok _ (row & Hin & Hrow).
    rewrite (UpdateRecordFields_eq id o n) by done. simpl.
    rewrite Hf; simpl. rewrite Hok.
    destruct (List.find (name_is n) (rows e)) as [p |] eqn:Hfind.
    + eexists; split; [reflexivity |]. split; [done |]. simpl.
      intros row' Hin' Hrow'. by apply update_where_In.
    + exfalso. eapply find_none in Hfind; [| exact Hin].
      unfold name_is in Hfind. by rewrite Hrow, String.eqb_refl in Hfind.
  - intros r1 r2 H1 H2. unfold DeleteRecord. by rewrite H1, H2.
  - intros r Hr. unfold DeleteRecord, bind. rewrite Hr, engine_Delete_eq.
    cbv zeta. destruct (hd None (faults e)) as [msg |]; do 2 eexists;
      (split; [reflexivity |]); (split; [done |]); cbn [fst snd].
    + split; [done |]. split; [done |]. done.
    + split; [intros _; split; [done | apply matched_positive] |].
      split; [done |]. intros _. cbn [rows with_rows sent].
      split; [done |]. intros row. apply delete_where_In.
Qed.

End Lookup.

(** *** Provider change on update *)

Lemma reset_slots_fields (p r : Record) :
  let r' := reset_slot2 p (reset_slot1 p r) in
  (Provider r <> Provider p ->
   Block r' = "" /\ BlockHash r' = "" /\ Transaction r' = "")
  /\ (Provider r = Provider p -> slot1 r' = slot1 r)
  /\ (Provider2 r <> Provider2 p ->
      Block2 r' = "" /\ BlockHash2 r' = "" /\ Transaction2 r' = "")
  /\ (Provider2 r = Provider2 p -> slot2 r' = slot2 r)
  /\ Provider r' = Provider r /\ Provider2 r' = Provider2 r
  /\ same_but_anchoring r r'.
Proof.
  unfold reset_slot1, reset_slot2, slot1, slot2, same_but_anchoring.
  destruct (String.eqb_spec (Provider r) (Provider p)) as [E1 | N1]; simpl;
    destruct (String.eqb_spec (Provider2 r) (Provider2 p)) as [E2 | N2];
    simpl; repeat apply conj; try done.
Qed.

Section Update.

Context {util : UtilPkg}.

(** C6.  Let [p] be the stored record that [UpdateRecord] finds for the
    id.  The record given to the full-row update is the incoming one in
    which the block, block hash and transaction of the primary slot are
    empty when its provider differs from [p]'s and are left alone
    otherwise, and likewise, on its own, for the secondary slot; that
    record is what the one statement sent after the lookup carries, and
    what every row of the name holds once the statement went through. *)
Theorem UpdateRecord_resets_changed_slot (id owner name : string)
  (r p : Record) (e e1 : Engine) :
  GetOwnerAndNameFromId id = Some (owner, name) ->
  getRecord owner name e = Done (Some p, None) e1 ->
  let r' := reset_slot2 p (reset_slot1 p r) in
  (In p (rows e) /\ Name p = name)
  /\ (Provider r <> Provider p ->
      Block r' = "" /\ BlockHash r' = "" /\ Transaction r' = "")
  /\ (Provider r = Provider p -> slot1 r' = slot1 r)
  /\ (Provider2 r <> Provider2 p ->
      Block2 r' = "" /\ BlockHash2 r' = "" /\ Transaction2 r' = "")
  /\ (Provider2 r = Provider2 p -> slot2 r' = slot2 r)
  /\ same_but_anchoring r r'
  /\ exists res e',
       UpdateRecord id r e = Done (r', res) e'
       /\ sent_between e1 e' [SqlUpdateAllCols name r']
       /\ (res.2 = None ->
           rows e'
           = update_where name (fun row => set_Id (Id row) r') (rows e)).
Proof.
  intros Hid Hget r'.
  destruct (getRecord_found _ _ _ _ _ Hget) as (Hin & Hname & Hn & He1).
  destruct (reset_slots_fields p r) as (H1 & H2 & H3 & H4 & _ & _ & H7).
  split; [done |]. split; [exact H1 |]. split; [exact H2 |].
  split; [exact H3 |]. split; [exact H4 |]. split; [exact H7 |].
  unfold UpdateRecord, bind. rewrite Hid, Hget, engine_UpdateAllCols_eq.
  fold r'. simpl. subst e1.
  destruct (hd None (faults _)); do 2 eexists;
    (split; [reflexivity |]); (split; [done |]); simpl; done.
Qed.

End Update.

(** *** Commit *)

Lemma dom_primary_data p b t h : dom (primary_data p b t h) = primary_columns.
Proof. reflexivity. Qed.

Lemma dom_secondary_data p b t h :
  dom (secondary_data p b t h) = secondary_columns.
Proof. reflexivity. Qed.

Lemma columns_disjoint : primary_columns ## secondary_columns.
Proof. apply (bool_decide_unpack _). by vm_compute. Qed.

Lemma fields_ok_primary_data p b t h : fields_ok (primary_data p b t h) = true.
Proof. reflexivity. Qed.

Lemma fields_ok_secondary_data p b t h :
  fields_ok (secondary_data p b t h) = true.
Proof. reflexivity. Qed.

Lemma frame1_assign p b t h row : frame1 row (assign (primary_data p b t h) row).
Proof. rewrite assign_primary_data. by destruct row. Qed.

Lemma frame2_assign p b t h row :
  frame2 row (assign (secondary_data p b t h) row).
Proof. rewrite assign_secondary_data. by destruct row. Qed.

Lemma frame1_refl row : frame1 row row.
Proof. by destruct row. Qed.

Lemma frame2_refl row : frame2 row row.
Proof. by destruct row. Qed.

Lemma Forall2_update_where (R : Record -> Record -> Prop) name f rs :
  (forall row, R row row) -> (forall row, R row (f row)) ->
  Forall2 R rs (update_where name f rs).
Proof.
  intros Hrefl Hf. induction rs as [| row rs IH]; [constructor |].
  cbn [update_where List.map]. constructor; [| exact IH].
  destruct (name_is name row); auto.
Qed.

Lemma Forall2_same (R : Record -> Record -> Prop) rs :
  (forall row, R row row) -> Forall2 R rs rs.
Proof. intros H. induction rs; constructor; auto. Qed.

Lemma writes_none e : writes_between e e [].
Proof. exists []. split; [| done]. unfold sent_between. by rewrite app_nil_r. Qed.

Lemma writes_get bean e rs :
  writes_between e (sent (SqlGet bean) e) []
  /\ writes_between e (with_rows rs (sent (SqlGet bean) e)) [].
Proof. split; by exists [SqlGet bean]. Qed.

Lemma writes_get_update bean name fields e rs :
  writes_between e (sent (SqlUpdateMap name fields) (sent (SqlGet bean) e))
    [SqlUpdateMap name fields]
  /\ writes_between e
       (with_rows rs (sent (SqlUpdateMap name fields) (sent (SqlGet bean) e)))
       [SqlUpdateMap name fields].
Proof.
  split; exists [SqlGet bean; SqlUpdateMap name fields];
    (split; [| done]); unfold sent_between; simpl; by rewrite <- app_assoc.
Qed.

Section Commit.

Context {util : UtilPkg} {directory : ProviderDirectory}.

(** What [UpdateRecordFields] may do to the store: a panic leaves it as
    it was; otherwise nothing is written and the rows stay, or the one
    statement written is the partial update of the given fields, which
    leaves the rows or assigns the fields to the rows of the name. *)
Lemma UpdateRecordFields_effect (id : string) (fields : FieldMap)
  (e : Engine) :
  match UpdateRecordFields id fields e with
  | Panic _ e' => e' = e
  | Done _ e' =>
      (writes_between e e' [] /\ rows e' = rows e)
      \/ exists name,
           writes_between e e' [SqlUpdateMap name fields]
           /\ (rows e' = rows e
               \/ rows e' = update_where name (assign fields) (rows e))
  end.
Proof.
  destruct (GetOwnerAndNameFromId id) as [[owner name] |] eqn:Hid;
    [| unfold UpdateRecordFields; by rewrite Hid].
  destruct (decide (owner = "")) as [-> | Ho].
  { rewrite (UpdateRecordFields_skip _ _ _ _ _ Hid) by auto.
    left. split; [apply writes_none | done]. }
  destruct (decide (name = "")) as [-> | Hn].
  { rewrite (UpdateRecordFields_skip _ _ _ _ _ Hid) by auto.
    left. split; [apply writes_none | done]. }
  rewrite (UpdateRecordFields_eq _ _ _ _ _ Hid) by done. cbv zeta.
  destruct (hd None (faults e)).
  { left. split; [apply writes_get; exact [] | done]. }
  destruct (List.find _ _).
  2:{ left. split; [apply writes_get; exact [] | done]. }
  destruct (hd None (faults _)).
  { right. exists name. split; [apply writes_get_update; exact [] | by left]. }
  destruct (fields_ok fields); right; exists name.
  - split; [apply writes_get_update | by right].
  - split; [apply writes_get_update; exact [] | by left].
Qed.

(** The write-once guard at the head of the two commit paths. *)
Lemma CommitRecord_guard (r : Record) (e : Engine) :
  Block r <> "" ->
  CommitRecord r e
  = Done (r, (false, None, Some (already_committed r (Block r)))) e.
Proof.
  intros H. apply String.eqb_neq in H. unfold CommitRecord. by rewrite H.
Qed.

Lemma CommitRecordSecond_guard (r : Record) (e : Engine) :
  Block2 r <> "" ->
  CommitRecordSecond r e
  = Done (r, (false, Some (already_committed r (Block2 r)))) e.
Proof.
  intros H. apply String.eqb_neq in H. unfold CommitRecordSecond.
  by rewrite H.
Qed.

(** C1.  A record whose primary block is not empty is refused by
    [CommitRecord]: the result is [(false, nil, err)], the message of
    [err] ends with the block id already committed, and neither the record
    in memory nor the store has changed, so provider, block, block hash and
    transaction are as before.  [CommitRecordSecond] does the same on
    [Block2], whatever the primary slot holds. *)
Theorem commit_twice_rejected (r : Record) (e : Engine) :
  (Block r <> "" ->
   CommitRecord r e
   = Done (r, (false, None, Some (already_committed r (Block r)))) e)
  /\ (Block2 r <> "" ->
      CommitRecordSecond r e
      = Done (r, (false, Some (already_committed r (Block2 r)))) e)
  /\ (forall block,
        Strings.Contains (already_committed r block) "already been committed"
        /\ Strings.Contains (already_committed r block) block).
Proof.
  split; [| split].
  - apply CommitRecord_guard.
  - apply CommitRecordSecond_guard.
  - intros block. unfold already_committed. split.
    + apply Contains_after, Contains_after.
      apply (Contains_here " has " "already been committed" _).
    + rewrite <- !append_assoc. apply Contains_end.
Qed.

(** The state of the record and of the call once the client is resolved:
    the equations of the two commit paths from the ledger call on. *)
Lemma CommitRecord_resolved (r : Record) (e : Engine) client pv :
  Block r = "" ->
  getRecordChainClient (Provider r) = (Some client, Some pv, None) ->
  CommitRecord r e =
  let r' := set_Provider (PName pv) r in
  let '(blockId, transactionId, blockHash, err) :=
    client_Commit client (toParam r') in
  match err with
  | Some _ => Done (r', (false, None, err)) e
  | None =>
      let data := primary_data (PName pv) blockId transactionId blockHash in
      match UpdateRecordFields (getId r) data e with
      | Panic msg e' => Panic msg e'
      | Done (affected, err) e' => Done (r', (affected, Some data, err)) e'
      end
  end.
Proof.
  intros Hb Hc. unfold CommitRecord. rewrite Hb, Hc. cbv beta iota zeta.
  change (negb (String.eqb "" "")) with false. cbv iota.
  destruct (client_Commit _ _) as [[[blockId transactionId] blockHash] err].
  destruct err; [done |]. unfold bind, ret.
  change (getId (set_Provider (PName pv) r)) with (getId r).
  change (Provider (set_Provider (PName pv) r)) with (PName pv).
  by destruct (UpdateRecordFields _ _ _) as [| [] ?].
Qed.

Lemma CommitRecordSecond_resolved (r : Record) (e : Engine) client pv :
  Block2 r = "" ->
  getRecordChainClient (Provider2 r) = (Some client, Some pv, None) ->
  CommitRecordSecond r e =
  let r' := set_Provider2 (PName pv) r in
  let '(blockId, transactionId, blockHash, err) :=
    client_Commit client (toParam r') in
  match err with
  | Some _ => Done (r', (false, err)) e
  | None =>
      let data := secondary_data (PName pv) blockId transactionId blockHash in
      match UpdateRecordFields (getId r) data e with
      | Panic msg e' => Panic msg e'
      | Done (affected, err) e' => Done (r', (affected, err)) e'
      end
  end.
Proof.
  intros Hb Hc. unfold CommitRecordSecond. rewrite Hb, Hc.
  cbv beta iota zeta.
  change (negb (String.eqb "" "")) with false. cbv iota.
  destruct (client_Commit _ _) as [[[blockId transactionId] blockHash] err].
  destruct err; [done |]. unfold bind, ret.
  change (getId (set_Provider2 (PName pv) r)) with (getId r).
  change (Provider2 (set_Provider2 (PName pv) r)) with (PName pv).
  by destruct (UpdateRecordFields _ _ _) as [| [] ?].
Qed.

Lemma CommitRecord_effect (r : Record) (e : Engine) :
  match CommitRecord r e with
  | Panic _ e' => e' = e
  | Done (_, (_, data, _)) e' =>
      (writes_between e e' [] /\ rows e' = rows e)
      \/ exists name fields,
           data = Some fields /\ dom fields = primary_columns
           /\ writes_between e e' [SqlUpdateMap name fields]
           /\ Forall2 frame1 (rows e) (rows e')
  end.
Proof.
  destruct (String.eqb_spec (Block r) "") as [Hb | Hb].
  2:{ rewrite (CommitRecord_guard r e Hb).
      left. split; [apply writes_none | done]. }
  destruct (getRecordChainClient (Provider r)) as [[client pv] cerr] eqn:Hc.
  destruct cerr as [msg |].
  { unfold CommitRecord. rewrite Hb, Hc. cbv beta iota.
    change (negb (String.eqb "" "")) with false. cbv iota.
    left. split; [apply writes_none | done]. }
  destruct pv as [pv |], client as [client |];
    try (unfold CommitRecord; rewrite Hb, Hc; cbv beta iota;
         change (negb (String.eqb "" "")) with false; cbv iota; reflexivity).
  rewrite (CommitRecord_resolved r e client pv Hb Hc). cbv zeta.
  destruct (client_Commit _ _) as [[[b t] h] [msg |]].
  { left. split; [apply writes_none | done]. }
  pose proof (UpdateRecordFields_effect (getId r)
                (primary_data (PName pv) b t h) e) as Hu.
  destruct (UpdateRecordFields _ _ e) as [| [aff uerr] e1]; [done |].
  destruct Hu as [Hu | (name & Hw & Hrows)]; [by left |].
  right. exists name, (primary_data (PName pv) b t h).
  split; [done |]. split; [apply dom_primary_data |]. split; [done |].
  destruct Hrows as [-> | ->].
  - apply Forall2_same, frame1_refl.
  - apply Forall2_update_where; [apply frame1_refl | apply frame1_assign].
Qed.

Lemma CommitRecordSecond_effect (r : Record) (e : Engine) :
  match CommitRecordSecond r e with
  | Panic _ e' => e' = e
  | Done _ e' =>
      (writes_between e e' [] /\ rows e' = rows e)
      \/ exists name fields,
           dom fields = secondary_columns
           /\ writes_between e e' [SqlUpdateMap name fields]
           /\ Forall2 frame2 (rows e) (rows e')
  end.
Proof.
  destruct (String.eqb_spec (Block2 r) "") as [Hb | Hb].
  2:{ rewrite (CommitRecordSecond_guard r e Hb).
      left. split; [apply writes_none | done]. }
  destruct (getRecordChainClient (Provider2 r)) as [[client pv] cerr] eqn:Hc.
  destruct cerr as [msg |].
  { unfold CommitRecordSecond. rewrite Hb, Hc. cbv beta iota.
    change (negb (String.eqb "" "")) with false. cbv iota.
    left. split; [apply writes_none | done]. }
  destruct pv as [pv |], client as [client |];
    try (unfold CommitRecordSecond; rewrite Hb, Hc; cbv beta iota;
         change (negb (String.eqb "" "")) with false; cbv iota; reflexivity).
  rewrite (CommitRecordSecond_resolved r e client pv Hb Hc). cbv zeta.
  destruct (client_Commit _ _) as [[[b t] h] [msg |]].
  { left. split; [apply writes_none | done]. }
  pose proof (UpdateRecordFields_effect (getId r)
                (secondary_data (PName pv) b t h) e) as Hu.
  destruct (UpdateRecordFields _ _ e) as [| [aff uerr] e1]; [done |].
  destruct Hu as [Hu | (name & Hw & Hrows)]; [by left |].
  right. exists name, (secondary_data (PName pv) b t h).
  split; [apply dom_secondary_data |]. split; [done |].
  destruct Hrows as [-> | ->].
  - apply Forall2_same, frame2_refl.
  - apply Forall2_update_where; [apply frame2_refl | apply frame2_assign].
Qed.

Lemma UpdateRecordFields_applied (id owner name : string) (data : FieldMap)
  (e : Engine) :
  GetOwnerAndNameFromId id = Some (owner, name) ->
  owner <> "" -> name <> "" -> faults e = [] -> fields_ok data = true ->
  (exists row, In row (rows e) /\ Name row = name) ->
  UpdateRecordFields id data e = Done (true, None) (committed name data e).
Proof.
  intros Hid Ho Hn Hf Hok (row & Hin & Hrow).
  rewrite (UpdateRecordFields_eq id owner name) by done. simpl.
  rewrite Hf; simpl. rewrite Hok.
  destruct (List.find (name_is name) (rows e)) as [p |] eqn:Hfind; [done |].
  exfalso. eapply find_none in Hfind; [| exact Hin].
  unfold name_is in Hfind. by rewrite Hrow, String.eqb_refl in Hfind.
Qed.

(** C4.  Whatever [CommitRecord] does (a panic leaves the store as it
    was), it writes nothing, or exactly one statement: a partial update by field map whose columns are [provider],
    [block], [transaction] and [block_hash]; the map is the data it
    returns; and every row of the table is, after the call, what it was
    but for its primary slot.  [CommitRecordSecond] does the same with
    [provider2], [block2], [transaction2] and [block_hash2] and the
    secondary slot.  The two column sets are disjoint.  When the ledger
    commit succeeds and the store holds a row of the record's name (id
    split into a non-empty owner and name, no driver fault), the update is
    applied: the rows of that name get the resolved provider and the three
    identifiers of the ledger in the slot, and nothing else changes. *)
Theorem commit_writes_only_its_slot (r : Record) (e : Engine) :
  match CommitRecord r e with
  | Panic _ e' => e' = e
  | Done (_, (_, data, _)) e' =>
      (writes_between e e' [] /\ rows e' = rows e)
      \/ exists name fields,
           data = Some fields /\ dom fields = primary_columns
           /\ writes_between e e' [SqlUpdateMap name fields]
           /\ Forall2 frame1 (rows e) (rows e')
  end
  /\ match CommitRecordSecond r e with
     | Panic _ e' => e' = e
     | Done _ e' =>
         (writes_between e e' [] /\ rows e' = rows e)
         \/ exists name fields,
              dom fields = secondary_columns
              /\ writes_between e e' [SqlUpdateMap name fields]
              /\ Forall2 frame2 (rows e) (rows e')
     end
  /\ primary_columns ## secondary_columns
  /\ (forall client pv b t h owner name,
        Block r = "" ->
        getRecordChainClient (Provider r) = (Some client, Some pv, None) ->
        client_Commit client (toParam (set_Provider (PName pv) r))
        = (b, t, h, None) ->
        GetOwnerAndNameFromId (getId r) = Some (owner, name) ->
        owner <> "" -> name <> "" -> faults e = [] ->
        (exists row, In row (rows e) /\ Name row = name) ->
        let data := primary_data (PName pv) b t h in
        CommitRecord r e
        = Done (set_Provider (PName pv) r, (true, Some data, None))
            (committed name data e)
        /\ forall row, slot1 (assign data row) = (PName pv, b, h, t)
                       /\ frame1 row (assign data row))
  /\ (forall client pv b t h owner name,
        Block2 r = "" ->
        getRecordChainClient (Provider2 r) = (Some client, Some pv, None) ->
        client_Commit client (toParam (set_Provider2 (PName pv) r))
        = (b, t, h, None) ->
        GetOwnerAndNameFromId (getId r) = Some (owner, name) ->
        owner <> "" -> name <> "" -> faults e = [] ->
        (exists row, In row (rows e) /\ Name row = name) ->
        let data := secondary_data (PName pv) b t h in
        CommitRecordSecond r e
        = Done (set_Provider2 (PName pv) r, (true, None))
            (committed name data e)
        /\ forall row, slot2 (assign data row) = (PName pv, b, h, t)
                       /\ frame2 row (assign data row)).
Proof.
  split; [| split; [| split; [| split]]].
  - apply CommitRecord_effect.
  - apply CommitRecordSecond_effect.
  - apply columns_disjoint.
  - intros client pv b t h owner name Hb Hc Hl Hid Ho Hn Hf Hrow data.
    split.
    + rewrite (CommitRecord_resolved r e client pv Hb Hc). cbv zeta.
      rewrite Hl. fold data.
      by rewrite (UpdateRecordFields_applied _ owner name data e).
    + intros row. split; [| apply frame1_assign].
      unfold data. rewrite assign_primary_data. by destruct row.
  - intros client pv b t h owner name Hb Hc Hl Hid Ho Hn Hf Hrow data.
    split.
    + rewrite (CommitRecordSecond_resolved r e client pv Hb Hc). cbv zeta.
      rewrite Hl. fold data.
      by rewrite (UpdateRecordFields_applied _ owner name data e).
    + intros row. split; [| apply frame2_assign].
      unfold data. rewrite assign_secondary_data. by destruct row.
Qed.

(** C5.  When the resolved client's [Commit] returns an error,
    [CommitRecord] returns [(false, nil, err)] with that very error and
    the store is the one it was given: no statement is sent, no row
    changes.  The record in memory has the resolved provider's name in
    [Provider] (assigned before the ledger call); its block, block hash
    and transaction are untouched, so the block stays empty.  The same
    holds for [CommitRecordSecond] and the secondary slot.  The Ethereum
    client's [Commit] returns three empty strings whenever it returns an
    error. *)
Theorem ledger_failure_leaves_store (r : Record) (e : Engine) :
  (forall client pv b t h msg,
     Block r = "" ->
     getRecordChainClient (Provider r) = (Some client, Some pv, None) ->
     client_Commit client (toParam (set_Provider (PName pv) r))
     = (b, t, h, Some msg) ->
     exists r',
       CommitRecord r e = Done (r', (false, None, Some msg)) e
       /\ r' = set_Provider (PName pv) r
       /\ Block r' = "" /\ BlockHash r' = BlockHash r
       /\ Transaction r' = Transaction r /\ slot2 r' = slot2 r)
  /\ (forall client pv b t h msg,
        Block2 r = "" ->
        getRecordChainClient (Provider2 r) = (Some client, Some pv, None) ->
        client_Commit client (toParam (set_Provider2 (PName pv) r))
        = (b, t, h, Some msg) ->
        exists r',
          CommitRecordSecond r e = Done (r', (false, Some msg)) e
          /\ r' = set_Provider2 (PName pv) r
          /\ Block2 r' = "" /\ BlockHash2 r' = BlockHash2 r
          /\ Transaction2 r' = Transaction2 r /\ slot1 r' = slot1 r)
  /\ (forall (client : EthereumClient) data b t h msg,
        Commit client data = (b, t, h, Some msg) ->
        b = "" /\ t = "" /\ h = "").
Proof.
  split; [| split].
  - intros client pv b t h msg Hb Hc Hl. eexists. split.
    + rewrite (CommitRecord_resolved r e client pv Hb Hc). cbv zeta.
      by rewrite Hl.
    + by repeat split.
  - intros client pv b t h msg Hb Hc Hl. eexists. split.
    + rewrite (CommitRecordSecond_resolved r e client pv Hb Hc). cbv zeta.
      by rewrite Hl.
    + by repeat split.
  - intros client data b t h msg. apply EthereumClient_Commit_error.
Qed.

End Commit.

(** ** The theorems at concrete inputs *)

Lemma toParam_anchoring_invariant_witness :
  same_but_anchoring Demo.fresh Demo.anchored
  /\ toParam (util := Demo.util) Demo.fresh
     = toParam (util := Demo.util) Demo.anchored.
Proof.
  assert (H : same_but_anchoring Demo.fresh Demo.anchored)
    by (unfold same_but_anchoring; simpl; repeat split; reflexivity).
  split; [exact H |].
  destruct (toParam_anchoring_invariant (util := Demo.util) Demo.fresh)
    as (_ & Hsame & _).
  exact (Hsame Demo.anchored H).
Defined.

Lemma toParam_payload_witness :
  exists tree,
    toParam (util := Demo.util) Demo.anchored
    = Demo.render
        (Param_json (mkParam "acme/7c6b0d9e" "Record" (Demo.render tree)))
    /\ member "block" tree = Some (JStr "")
    /\ member "transaction2" tree = Some (JStr "")
    /\ member "owner" tree = Some (JStr "acme").
Proof.
  destruct (toParam_payload (util := Demo.util) Demo.anchored)
    as (_ & (tree & Ht & _ & Hin & Hout) & _).
  exists tree. split; [exact Ht |]. split; [| split].
  - apply Hin. unfold anchoring_tags. cbn [In]. auto.
  - apply Hin. unfold anchoring_tags. cbn [In]. auto 10.
  - rewrite Hout; [reflexivity |].
    unfold anchoring_tags. cbn [In]. intros H.
    decompose [or] H; try discriminate; contradiction.
Defined.

Lemma commit_twice_rejected_witness :
  Block Demo.anchored <> "" /\ Block2 Demo.anchored2 <> ""
  /\ CommitRecord (util := Demo.util) (directory := Demo.directory_of None)
       Demo.anchored (Demo.store_of [Demo.anchored])
     = Done (Demo.anchored,
             (false, None,
              Some "the record: acme/7c6b0d9e has already been committed, blockId = 12345"))
         (Demo.store_of [Demo.anchored])
  /\ CommitRecordSecond (util := Demo.util)
       (directory := Demo.directory_of None)
       Demo.anchored2 (Demo.store_of [Demo.anchored2])
     = Done (Demo.anchored2,
             (false,
              Some "the record: acme/7c6b0d9e has already been committed, blockId = 777"))
         (Demo.store_of [Demo.anchored2]).
Proof.
  assert (H1 : Block Demo.anchored <> "") by discriminate.
  assert (H2 : Block2 Demo.anchored2 <> "") by discriminate.
  split; [exact H1 |]. split; [exact H2 |]. split.
  - destruct (commit_twice_rejected (util := Demo.util)
                (directory := Demo.directory_of None)
                Demo.anchored (Demo.store_of [Demo.anchored])) as (H & _ & _).
    exact (H H1).
  - destruct (commit_twice_rejected (util := Demo.util)
                (directory := Demo.directory_of None)
                Demo.anchored2 (Demo.store_of [Demo.anchored2]))
      as (_ & H & _).
    exact (H H2).
Defined.

Lemma commit_writes_only_its_slot_witness :
  let data := primary_data "eth-main" "12345" "0xtxhash" "0xblockhash" in
  CommitRecord (util := Demo.util) (directory := Demo.directory_of None)
    Demo.fresh (Demo.store_of [Demo.fresh])
  = Done (Demo.fresh, (true, Some data, None))
      (committed "7c6b0d9e" data (Demo.store_of [Demo.fresh]))
  /\ rows (committed "7c6b0d9e" data (Demo.store_of [Demo.fresh]))
     = [Demo.anchored].
Proof.
  intros data. split; [| reflexivity].
  destruct (commit_writes_only_its_slot (util := Demo.util)
              (directory := Demo.directory_of None)
              Demo.fresh (Demo.store_of [Demo.fresh])) as (_ & _ & _ & H & _).
  refine (proj1 (H (EthereumClient_client (Demo.eth None)) Demo.eth_provider
                   "12345" "0xtxhash" "0xblockhash" "acme" "7c6b0d9e"
                   eq_refl eq_refl _ eq_refl _ _ eq_refl _)).
  - vm_compute. reflexivity.
  - discriminate.
  - discriminate.
  - exists Demo.fresh. split; [left; reflexivity | reflexivity].
Defined.

Lemma ledger_failure_leaves_store_witness :
  CommitRecord (util := Demo.util)
    (directory := Demo.directory_of (Some "timeout"))
    Demo.fresh (Demo.store_of [Demo.fresh])
  = Done (Demo.fresh,
          (false, None, Some "transaction failed to be mined: timeout"))
      (Demo.store_of [Demo.fresh]).
Proof.
  destruct (ledger_failure_leaves_store (util := Demo.util)
              (directory := Demo.directory_of (Some "timeout"))
              Demo.fresh (Demo.store_of [Demo.fresh])) as (H & _ & _).
  destruct (H (EthereumClient_client (Demo.eth (Some "timeout")))
              Demo.eth_provider "" "" ""
              "transaction failed to be mined: timeout"
              eq_refl eq_refl) as (r' & Hr & -> & _).
  - vm_compute. reflexivity.
  - exact Hr.
Defined.

Lemma UpdateRecord_resets_changed_slot_witness :
  let incoming := set_Provider "eth-test" Demo.anchored in
  let r' := reset_slot2 Demo.anchored (reset_slot1 Demo.anchored incoming) in
  Provider incoming <> Provider Demo.anchored
  /\ Block r' = "" /\ BlockHash r' = "" /\ Transaction r' = "".
Proof.
  intros incoming r'.
  assert (Hp : Provider incoming <> Provider Demo.anchored) by discriminate.
  split; [exact Hp |].
  destruct (UpdateRecord_resets_changed_slot (util := Demo.util)
              "acme/7c6b0d9e" "acme" "7c6b0d9e" incoming Demo.anchored
              (Demo.store_of [Demo.anchored])
              (sent (SqlGet (Record_named "7c6b0d9e"))
                 (Demo.store_of [Demo.anchored]))
              eq_refl eq_refl) as (_ & H & _).
  exact (H Hp).
Defined.

Lemma Query_verdict_witness :
  exists verdict,
    EthereumClient_Query (Demo.eth None) "0x1" "payload" = (verdict, None)
    /\ Strings.Contains verdict "Matched"
    /\ Strings.Contains verdict "payload".
Proof.
  destruct (Query_verdict (Demo.eth None) "0x1" "payload") as [H _].
  destruct (H (mkReceipt "blockhash" 12345)
              (mkTx 7 "0xabc" 0 21000 1000 "payload" "k") eq_refl eq_refl)
    as (verdict & Hq & Hm & _).
  exists verdict. split; [exact Hq |].
  destruct (Hm eq_refl) as (_ & H1 & H2). split; [exact H1 | exact H2].
Defined.

Lemma AddRecord_GET_skipped_witness :
  AddRecord (util := Demo.util) (conf := Demo.conf_of true)
    (directory := Demo.directory_of None)
    Demo.get_request (Demo.store_of [Demo.fresh])
  = Done (Demo.get_request, (false, None, None)) (Demo.store_of [Demo.fresh]).
Proof.
  apply (AddRecord_GET_skipped (util := Demo.util) (conf := Demo.conf_of true)
           (directory := Demo.directory_of None)); reflexivity.
Defined.

Lemma NewRecord_truncates_requestUri_witness :
  exists r,
    NewRecord (util := Demo.util) (conf := Demo.conf_of true) Demo.long_request
    = (Some r, None)
    /\ RequestUri r = substring 0 1000 Demo.long_uri
    /\ String.length (RequestUri r) = 1000%nat.
Proof.
  destruct (NewRecord_truncates_requestUri (util := Demo.util)
              (conf := Demo.conf_of true) Demo.long_request) as [H1 H2].
  destruct (H1 "null" (mkRespBody "ok" "") (mkLocationInfo "FR" "Paris")
              eq_refl eq_refl eq_refl) as [r Hr].
  exists r. split; [exact Hr |].
  apply (H2 r None Hr). apply Nat.ltb_lt. vm_compute. reflexivity.
Defined.

Lemma record_keyed_by_name_witness :
  let e := Demo.store_of [Demo.fresh; Demo.namesake; set_Id 3 Sim.stored] in
  let fields : FieldMap := {[ "block" := AStr "9" ]} in
  getRecord "acme" "7c6b0d9e" e = getRecord "globex" "7c6b0d9e" e
  /\ (exists e',
        getRecord "globex" "7c6b0d9e" e = Done (Some Demo.fresh, None) e')
  /\ (exists e',
        UpdateRecordFields (util := Demo.util) "globex/7c6b0d9e" fields e
        = Done (true, None) e'
        /\ rows e' = [set_Block "9" Demo.fresh; set_Block "9" Demo.namesake;
                      set_Id 3 Sim.stored])
  /\ (exists e',
        DeleteRecord Demo.namesake e = Done (true, None) e'
        /\ rows e' = [set_Id 3 Sim.stored]).
Proof.
  intros e fields.
  destruct (record_keyed_by_name (util := Demo.util) "7c6b0d9e" e)
    as (Hget & Hone & _ & _ & Hupd & _ & Hdel).
  split; [apply Hget; discriminate |]. split; [| split].
  - destruct (Hone "globex") as (res & e' & He & _ & _ & Hres & _);
      [discriminate | discriminate |].
    exists e'. rewrite He, (Hres eq_refl). reflexivity.
  - destruct (Hupd "globex/7c6b0d9e" "globex" fields eq_refl)
      as (e' & He & Hr & _).
    + discriminate.
    + discriminate.
    + reflexivity.
    + reflexivity.
    + intros H. apply (f_equal (fun m : FieldMap => m !! "block")) in H.
      discriminate H.
    + exists Demo.namesake. split; [right; left; reflexivity | reflexivity].
    + exists e'. split; [exact He |]. rewrite Hr. reflexivity.
  - destruct (Hdel Demo.namesake eq_refl)
      as ([ok err] & e' & He & _ & Hok & _ & Hrows).
    destruct (Hok eq_refl) as [Herr Htrue]. cbn [fst snd] in Herr, Htrue.
    assert (ok = true) as ->.
    { apply Htrue. exists Demo.fresh.
      split; [left; reflexivity | reflexivity]. }
    exists e'. rewrite He, Herr. split; [reflexivity |].
    destruct (Hrows Herr) as [Hr _]. rewrite Hr. reflexivity.
Defined.

(** ** Further properties of the record engine *)

(** *** Resolution of the ledger client *)

Section Resolution.

Context {util : UtilPkg} {directory : ProviderDirectory}.

(** X1.  [getRecordChainClient] returns a provider whenever it returns no
    error, and neither client nor provider when it returns one.  The
    provider is the one the directory has under the given name, or the
    active one when the name is empty; a name the directory does not have
    is an error that tells the name, without a fall back on the active
    provider, and an empty name without active provider is an error
    too. *)
Theorem getRecordChainClient_resolution (name : string) :
  (forall client pv,
     getRecordChainClient name = (client, pv, None) ->
     exists p,
       pv = Some p
       /\ (name <> "" -> getProvider "admin" name = (Some p, None))
       /\ (name = "" -> GetActiveBlockchainProvider "admin" = (Some p, None)))
  /\ (forall client pv msg,
        getRecordChainClient name = (client, pv, Some msg) ->
        client = None /\ pv = None)
  /\ (name <> "" -> getProvider "admin" name = (None, None) ->
      getRecordChainClient name
      = (None, None,
         Some ("the blockchain provider: " +:+ name +:+ " is not found")))
  /\ (name = "" -> GetActiveBlockchainProvider "admin" = (None, None) ->
      getRecordChainClient name
      = (None, None, Some "there is no active blockchain provider")).
Proof.
  unfold getRecordChainClient, getRecordProvider.
  destruct (String.eqb_spec name "") as [-> | Hn]; cbn [negb].
  - destruct (GetActiveBlockchainProvider "admin") as [[p |] [e1 |]];
      cbv beta iota;
      try destruct (NewChainClient _ _ _ _ _ _ _ _ _ _ _ _ _ _) as [c [e2 |]];
      repeat split; intros; simplify_eq; try congruence;
      eexists; repeat split; intros; congruence.
  - destruct (getProvider "admin" name) as [[p |] [e1 |]]; cbv beta iota;
      try destruct (NewChainClient _ _ _ _ _ _ _ _ _ _ _ _ _ _) as [c [e2 |]];
      repeat split; intros; simplify_eq; try congruence;
      eexists; repeat split; intros; congruence.
Qed.

End Resolution.

(** *** Commits that do not reach the store *)

Section CommitEdges.

Context {util : UtilPkg} {directory : ProviderDirectory}.

Lemma getRecordChainClient_provider (name : string) client pv :
  getRecordChainClient name = (client, pv, None) -> pv <> None.
Proof.
  unfold getRecordChainClient.
  destruct (getRecordProvider name) as [[p |] [e1 |]]; try discriminate.
  destruct (NewChainClient _ _ _ _ _ _ _ _ _ _ _ _ _ _) as [c [e2 |]];
    [discriminate |].
  by intros [= _ <-].
Qed.

Lemma UpdateRecordFields_panics (id : string) (fields : FieldMap)
  (e e' : Engine) (msg : string) :
  UpdateRecordFields id fields e = Panic msg e' ->
  GetOwnerAndNameFromId id = None /\ e' = e.
Proof.
  destruct (GetOwnerAndNameFromId id) as [[owner name] |] eqn:Hid.
  - destruct (decide (owner = "")) as [-> | Ho];
      [by rewrite (UpdateRecordFields_skip _ _ _ _ _ Hid) by auto |].
    destruct (decide (name = "")) as [-> | Hn];
      [by rewrite (UpdateRecordFields_skip _ _ _ _ _ Hid) by auto |].
    rewrite (UpdateRecordFields_eq _ _ _ _ _ Hid) by done. cbv zeta.
    destruct (hd None (faults e)); [done |].
    destruct (List.find _ _); [| done].
    destruct (hd None (faults _)); [done |].
    by destruct (fields_ok fields).
  - unfold UpdateRecordFields. rewrite Hid. by intros [= _ <-].
Qed.

(** X2.  [CommitRecord] panics in two situations only, and the store is
    then as it was: the directory built a nil client without an error, or
    the ledger commit has succeeded and the id [owner/name] of the record
    cannot be split.  In the second one the ledger holds the payload and
    the store holds nothing of the commit.  A nil provider is never
    dereferenced. *)
Theorem CommitRecord_panics (r : Record) (e e' : Engine) (msg : string) :
  CommitRecord r e = Panic msg e' ->
  e' = e /\ Block r = ""
  /\ exists pv,
       getRecordChainClient (Provider r) = (None, Some pv, None)
       \/ exists client b t h,
            getRecordChainClient (Provider r) = (Some client, Some pv, None)
            /\ client_Commit client (toParam (set_Provider (PName pv) r))
               = (b, t, h, None)
            /\ GetOwnerAndNameFromId (getId r) = None.
Proof.
  destruct (String.eqb_spec (Block r) "") as [Hb | Hb];
    [| by rewrite (CommitRecord_guard r e Hb)].
  destruct (getRecordChainClient (Provider r)) as [[client pv] cerr] eqn:Hc.
  destruct cerr as [m |].
  { unfold CommitRecord. rewrite Hb, Hc. cbv beta iota.
    change (negb (String.eqb "" "")) with false. by cbv iota. }
  destruct pv as [pv |];
    [| by apply getRecordChainClient_provider in Hc].
  destruct client as [client |].
  2:{ unfold CommitRecord. rewrite Hb, Hc. cbv beta iota.
      change (negb (String.eqb "" "")) with false. cbv iota.
      intros [= _ <-]. split; [done |]. split; [done |]. exists pv. by left. }
  rewrite (CommitRecord_resolved r e client pv Hb Hc). cbv zeta.
  destruct (client_Commit _ _) as [[[b t] h] [m |]] eqn:Hl; [done |].
  destruct (UpdateRecordFields _ _ e) as [m e1 | [aff uerr] e1] eqn:Hu;
    [| done].
  intros [= _ <-]. apply UpdateRecordFields_panics in Hu as [Hid ->].
  split; [done |]. split; [done |]. exists pv. right.
  by exists client, b, t, h.
Qed.

(** X3.  A ledger commit that succeeds for a record the store does not
    hold (its owner or name is empty, or no row has its name) is not an
    error: [CommitRecord] returns [(false, data, nil)] with the field map
    it would have written, and no row changes. *)
Theorem CommitRecord_not_persisted (r : Record) (e : Engine) client pv
  (b t h owner name : string) :
  Block r = "" ->
  getRecordChainClient (Provider r) = (Some client, Some pv, None) ->
  client_Commit client (toParam (set_Provider (PName pv) r))
  = (b, t, h, None) ->
  GetOwnerAndNameFromId (getId r) = Some (owner, name) ->
  faults e = [] ->
  owner = "" \/ name = "" \/ List.find (name_is name) (rows e) = None ->
  exists e',
    CommitRecord r e
    = Done (set_Provider (PName pv) r,
            (false, Some (primary_data (PName pv) b t h), None)) e'
    /\ rows e' = rows e /\ writes_between e e' [].
Proof.
  intros Hb Hc Hl Hid Hf Hmiss.
  rewrite (CommitRecord_resolved r e client pv Hb Hc). cbv zeta. rewrite Hl.
  destruct (decide (owner = "")) as [-> | Ho].
  { rewrite (UpdateRecordFields_skip _ _ _ _ _ Hid) by auto.
    eexists; split; [reflexivity |]. split; [done | apply writes_none]. }
  destruct (decide (name = "")) as [-> | Hn].
  { rewrite (UpdateRecordFields_skip _ _ _ _ _ Hid) by auto.
    eexists; split; [reflexivity |]. split; [done | apply writes_none]. }
  destruct Hmiss as [? | [? | Hfind]]; [done | done |].
  rewrite (UpdateRecordFields_eq _ _ _ _ _ Hid) by done. cbv zeta.
  rewrite Hf, Hfind. cbn [hd].
  eexists; split; [reflexivity |]. split; [done |].
  apply (writes_get _ _ []).
Qed.

End CommitEdges.

(** *** Verification queries *)

Lemma getRecord_reads (owner name : string) (e : Engine) :
  exists res e',
    getRecord owner name e = Done res e'
    /\ rows e' = rows e /\ writes_between e e' [].
Proof.
  destruct (decide (owner = "")) as [-> | Ho].
  { rewrite getRecord_empty by auto. do 2 eexists.
    split; [reflexivity |]. split; [done | apply writes_none]. }
  destruct (decide (name = "")) as [-> | Hn].
  { rewrite getRecord_empty by auto. do 2 eexists.
    split; [reflexivity |]. split; [done | apply writes_none]. }
  rewrite getRecord_eq by done.
  destruct (hd None (faults e)); do 2 eexists;
    (split; [reflexivity |]); (split; [done |]);
    apply (writes_get _ _ []).
Qed.

Section Queries.

Context {util : UtilPkg} {utilid : UtilIdPkg} {directory : ProviderDirectory}.

Lemma QueryRecord_found (id owner name : string) (e e1 : Engine)
  (rec : Record) client pv :
  GetOwnerAndNameFromIdNoCheck id = Some (owner, name) ->
  getRecord owner name e = Done (Some rec, None) e1 ->
  Block rec <> "" ->
  getRecordChainClient (Provider rec) = (Some client, pv, None) ->
  QueryRecord id e
  = Done (passed_on (client_Query client (Transaction rec) (toParam rec))) e1.
Proof.
  intros Hid Hget Hb Hc. apply String.eqb_neq in Hb.
  unfold QueryRecord, GetRecord, bind. rewrite Hid, Hget, Hb, Hc.
  cbv beta iota. unfold passed_on.
  by destruct (client_Query _ _ _) as [res [m |]].
Qed.

Lemma QueryRecordSecond_found (id owner name : string) (e e1 : Engine)
  (rec : Record) client pv :
  GetOwnerAndNameFromIdNoCheck id = Some (owner, name) ->
  getRecord owner name e = Done (Some rec, None) e1 ->
  Block2 rec <> "" ->
  getRecordChainClient (Provider2 rec) = (Some client, pv, None) ->
  QueryRecordSecond id e
  = Done (passed_on (client_Query client (Transaction2 rec) (toParam rec)))
      e1.
Proof.
  intros Hid Hget Hb Hc. apply String.eqb_neq in Hb.
  unfold QueryRecordSecond, GetRecord, bind. rewrite Hid, Hget, Hb, Hc.
  cbv beta iota. unfold passed_on.
  by destruct (client_Query _ _ _) as [res [m |]].
Qed.

(** X4.  [QueryRecord] refuses, without resolving a ledger client, an id
    the store has no record for ([does not exist], with the id as given)
    and a record whose primary block is empty; [QueryRecordSecond] does
    the same on the secondary block.  A record anchored on one slot only
    is thus refused by the query of the other slot. *)
Theorem QueryRecord_refusals (id owner name : string) (e e1 : Engine) :
  GetOwnerAndNameFromIdNoCheck id = Some (owner, name) ->
  (getRecord owner name e = Done (None, None) e1 ->
   QueryRecord id e = Done ("", Some (does_not_exist id)) e1
   /\ QueryRecordSecond id e = Done ("", Some (does_not_exist id)) e1)
  /\ (forall rec,
        getRecord owner name e = Done (Some rec, None) e1 ->
        (Block rec = "" ->
         QueryRecord id e = Done ("", Some (block_empty rec)) e1)
        /\ (Block2 rec = "" ->
            QueryRecordSecond id e = Done ("", Some (block_empty rec)) e1)).
Proof.
  intros Hid. split.
  - intros Hget. unfold QueryRecord, QueryRecordSecond, GetRecord, bind.
    by rewrite Hid, Hget.
  - intros rec Hget. split; intros Hb.
    + unfold QueryRecord, GetRecord, bind. by rewrite Hid, Hget, Hb.
    + unfold QueryRecordSecond, GetRecord, bind. by rewrite Hid, Hget, Hb.
Qed.

(** X5.  The two queries only read: whatever they return, and also when
    they panic, the rows are the ones they found and no writing statement
    was sent. *)
Theorem QueryRecord_reads_only (id : string) (e : Engine) :
  match QueryRecord id e with
  | Panic _ e' | Done _ e' => rows e' = rows e /\ writes_between e e' []
  end
  /\ match QueryRecordSecond id e with
     | Panic _ e' | Done _ e' => rows e' = rows e /\ writes_between e e' []
     end.
Proof.
  unfold QueryRecord, QueryRecordSecond, GetRecord, bind.
  destruct (GetOwnerAndNameFromIdNoCheck id) as [[owner name] |];
    [| split; (split; [done | apply writes_none])].
  destruct (getRecord_reads owner name e) as ([rec err] & e1 & -> & Hr & Hw).
  split.
  - destruct err as [m |]; [done |]. destruct rec as [rec |]; [| done].
    destruct (String.eqb (Block rec) ""); [done |].
    destruct (getRecordChainClient _) as [[[c |] pv] [m |]]; try done.
    by destruct (client_Query _ _ _) as [res [m |]].
  - destruct err as [m |]; [done |]. destruct rec as [rec |]; [| done].
    destruct (String.eqb (Block2 rec) ""); [done |].
    destruct (getRecordChainClient _) as [[[c |] pv] [m |]]; try done.
    by destruct (client_Query _ _ _) as [res [m |]].
Qed.

End Queries.

(** *** The Ethereum client: what is sent, what fails, and the round trip *)

Lemma Itoa_nonempty (z : Z) : Strings.Itoa z <> "".
Proof.
  unfold Strings.Itoa, NilZero.string_of_int.
  destruct (Z.to_int z) as [d | d]; [| done].
  unfold NilZero.string_of_uint. by destruct d.
Qed.

Lemma EthereumClient_Commit_success (client : EthereumClient)
  (data b t h : string) :
  EthereumClient_Commit client data = (b, t, h, None) ->
  exists nonce gasPrice gasLimit chainID signedTx receipt,
    PendingNonceAt (Client client) (FromAddress client) = (nonce, None)
    /\ SuggestGasPrice (Client client) = (gasPrice, None)
    /\ EstimateGas (Client client)
         (mkCallMsg (FromAddress client) (FromAddress client) gasPrice 0 data)
       = (gasLimit, None)
    /\ ChainID (Client client) = (chainID, None)
    /\ SignTx (Client client)
         (mkTx nonce (FromAddress client) 0 gasLimit gasPrice data "")
         chainID (PrivateKey client)
       = (signedTx, None)
    /\ SendTransaction (Client client) signedTx = None
    /\ WaitMined (Client client) signedTx = (receipt, None)
    /\ b = Strings.Itoa (BlockNumber receipt)
    /\ t = Hex (Client client) (TxHash (Client client) signedTx)
    /\ h = Hex (Client client) (ReceiptBlockHash receipt).
Proof.
  unfold EthereumClient_Commit.
  destruct (PendingNonceAt _ _) as [nonce [e1 |]] eqn:H1; [discriminate |].
  destruct (SuggestGasPrice _) as [gasPrice [e2 |]] eqn:H2; [discriminate |].
  destruct (EstimateGas _ _) as [gasLimit [e3 |]] eqn:H3; [discriminate |].
  destruct (ChainID _) as [chainID [e4 |]] eqn:H4; [discriminate |].
  destruct (SignTx _ _ _ _) as [signedTx [e5 |]] eqn:Hs; [discriminate |].
  destruct (SendTransaction _ _) as [e6 |] eqn:Hd; [discriminate |].
  destruct (WaitMined _ _) as [receipt [e7 |]] eqn:Hw; [discriminate |].
  intros [= <- <- <-].
  exists nonce, gasPrice, gasLimit, chainID, signedTx, receipt.
  by rewrite H3, Hs, Hd, Hw.
Qed.

(** X6.  When [Commit] succeeds, the transaction that was signed and
    broadcast goes from the client's address to that same address with
    value 0 and the payload as its data, under the pending nonce, the
    suggested gas price and the gas estimated for that very message; the
    three texts returned are the decimal block number, which is never
    empty, and the hex texts of the transaction hash and of the block
    hash of the receipt. *)
Theorem Commit_success_shape (client : EthereumClient) (data b t h : string) :
  Commit client data = (b, t, h, None) ->
  b <> ""
  /\ exists nonce gasPrice gasLimit chainID signedTx receipt,
       PendingNonceAt (Client client) (FromAddress client) = (nonce, None)
       /\ SuggestGasPrice (Client client) = (gasPrice, None)
       /\ EstimateGas (Client client)
            (mkCallMsg (FromAddress client) (FromAddress client) gasPrice 0
               data)
          = (gasLimit, None)
       /\ ChainID (Client client) = (chainID, None)
       /\ SignTx (Client client)
            (mkTx nonce (FromAddress client) 0 gasLimit gasPrice data "")
            chainID (PrivateKey client)
          = (signedTx, None)
       /\ SendTransaction (Client client) signedTx = None
       /\ WaitMined (Client client) signedTx = (receipt, None)
       /\ b = Strings.Itoa (BlockNumber receipt)
       /\ t = Hex (Client client) (TxHash (Client client) signedTx)
       /\ h = Hex (Client client) (ReceiptBlockHash receipt).
Proof.
  intros H. apply EthereumClient_Commit_success in H as Hs. split; [| done].
  destruct Hs as (? & ? & ? & ? & ? & receipt & Hs).
  decompose [and] Hs. subst b. apply Itoa_nonempty.
Qed.

(** X7.  An error of [Commit] is the error of one of its steps: the one
    of the nonce, gas price, gas estimate, chain id, signing or broadcast
    call as it came, or the one of the mining wait behind the text
    [transaction failed to be mined: ].  Only the mining stage is told by
    the message. *)
Theorem Commit_error_origin (client : EthereumClient) (data b t h msg : string) :
  Commit client data = (b, t, h, Some msg) ->
  let c := Client client in
  (PendingNonceAt c (FromAddress client)).2 = Some msg
  \/ (SuggestGasPrice c).2 = Some msg
  \/ (exists m, (EstimateGas c m).2 = Some msg)
  \/ (ChainID c).2 = Some msg
  \/ (exists tx id, (SignTx c tx id (PrivateKey client)).2 = Some msg)
  \/ (exists tx, SendTransaction c tx = Some msg)
  \/ (exists tx cause,
        (WaitMined c tx).2 = Some cause
        /\ msg = "transaction failed to be mined: " +:+ cause).
Proof.
  intros H c. subst c. revert H.
  change (Commit client data) with (EthereumClient_Commit client data).
  unfold EthereumClient_Commit.
  destruct (PendingNonceAt _ _) as [nonce [e1 |]] eqn:H1;
    [intros [= _ _ _ ->]; by left |].
  destruct (SuggestGasPrice _) as [gasPrice [e2 |]] eqn:H2;
    [intros [= _ _ _ ->]; right; by left |].
  destruct (EstimateGas _ _) as [gasLimit [e3 |]] eqn:H3.
  { intros [= _ _ _ ->]. do 2 right. left. eexists. by rewrite H3. }
  destruct (ChainID _) as [chainID [e4 |]] eqn:H4;
    [intros [= _ _ _ ->]; do 3 right; by left |].
  destruct (SignTx _ _ _ _) as [signedTx [e5 |]] eqn:H5.
  { intros [= _ _ _ ->]. do 4 right. left. do 2 eexists. by rewrite H5. }
  destruct (SendTransaction _ _) as [e6 |] eqn:H6.
  { intros [= _ _ _ ->]. do 5 right. left. eexists. by rewrite H6. }
  destruct (WaitMined _ _) as [receipt [e7 |]] eqn:H7; [| discriminate].
  intros [= _ _ _ <-]. do 6 right. exists signedTx, e7. by rewrite H7.
Qed.

(** X8.  Round trip on a chain that does not tamper: after [Commit] of a
    payload succeeded, [Query] of the transaction id it returned answers
    [Matched] with that payload, and for any other local payload it
    answers [Mismatched] with the committed payload as chain data. *)
Theorem Commit_then_Query (client : EthereumClient) (data b t h : string) :
  faithful_chain (Client client) ->
  Commit client data = (b, t, h, None) ->
  exists receipt,
    Query client t data = (verdict_header receipt +:+ Matched_text data, None)
    /\ forall other,
         other <> data ->
         Query client t other
         = (verdict_header receipt +:+ Mismatched_text data other, None).
Proof.
  intros [Hsign Hserve] H.
  apply EthereumClient_Commit_success in H
    as (nonce & gasPrice & gasLimit & chainID & signedTx & receipt & H).
  destruct H as (_ & _ & _ & _ & Hs & Hd & _ & _ & -> & _).
  apply Hsign in Hs. cbn [Data] in Hs.
  destruct (Hserve signedTx Hd) as [(tx & Htx & Hdata) (rc & Hrc)].
  exists rc.
  change (Query client) with (EthereumClient_Query client).
  unfold EthereumClient_Query. rewrite Hrc, Htx, Hdata, Hs.
  unfold verdict_header. split.
  - by rewrite String.eqb_refl, !append_assoc.
  - intros other Hne.
    replace (String.eqb data other) with false
      by (symmetry; apply String.eqb_neq; congruence).
    by rewrite !append_assoc.
Qed.

(** *** Commit, then verify *)

Lemma find_update_where (name : string) (f : Record -> Record)
  (rs : list Record) :
  (forall row, Name (f row) = Name row) ->
  List.find (name_is name) (update_where name f rs)
  = match List.find (name_is name) rs with
    | Some row => Some (f row)
    | None => None
    end.
Proof.
  intros Hf. induction rs as [| row rs IH]; [done |].
  cbn [update_where List.map List.find].
  destruct (name_is name row) eqn:Hrow.
  - unfold name_is in *. by rewrite Hf, Hrow.
  - rewrite Hrow. exact IH.
Qed.

Lemma same_but_anchoring_sym (a c : Record) :
  same_but_anchoring a c -> same_but_anchoring c a.
Proof. unfold same_but_anchoring. intros H. decompose [and] H. by repeat split. Qed.

Section RoundTrip.

Context {util : UtilPkg} {utilid : UtilIdPkg} {directory : ProviderDirectory}.

Lemma toParam_same (a c : Record) :
  same_but_anchoring a c -> toParam a = toParam c.
Proof.
  intros H. unfold toParam. by rewrite (same_but_anchoring_clear a c H).
Qed.

Lemma committed_lookup (owner name : string) (data : FieldMap) (e : Engine)
  (r0 : Record) :
  owner <> "" -> name <> "" -> faults e = [] ->
  (forall row, Name (assign data row) = Name row) ->
  List.find (name_is name) (rows e) = Some r0 ->
  getRecord owner name (committed name data e)
  = Done (Some (assign data r0), None)
      (sent (SqlGet (Record_named name)) (committed name data e)).
Proof.
  intros Ho Hn Hf Hname Hfind. rewrite getRecord_eq by done.
  unfold committed. cbn [faults with_rows sent rows].
  rewrite Hf. cbn [tl hd]. rewrite find_update_where by done.
  by rewrite Hfind.
Qed.

(** X9.  Commit, then verify.  Let the store hold, as the first row of
    its name, the record that is committed (up to anchoring fields), let
    the ledger commit succeed with a non-empty block id, and let the name
    of the bound provider resolve to the same client again.  Then
    [CommitRecord] persists the slot, and [QueryRecord] of the record's id
    afterwards asks that client about the transaction id the commit
    returned, with the very payload the commit submitted, and hands back
    what the client answers. *)
Theorem commit_then_query (r r0 : Record) (e : Engine) client pv
  (b t h owner name id : string) :
  Block r = "" ->
  getRecordChainClient (Provider r) = (Some client, Some pv, None) ->
  getRecordChainClient (PName pv) = (Some client, Some pv, None) ->
  client_Commit client (toParam (set_Provider (PName pv) r))
  = (b, t, h, None) ->
  b <> "" ->
  GetOwnerAndNameFromId (getId r) = Some (owner, name) ->
  GetOwnerAndNameFromIdNoCheck id = Some (owner, name) ->
  owner <> "" -> name <> "" -> faults e = [] ->
  List.find (name_is name) (rows e) = Some r0 ->
  same_but_anchoring r r0 ->
  let data := primary_data (PName pv) b t h in
  let e1 := committed name data e in
  CommitRecord r e = Done (set_Provider (PName pv) r, (true, Some data, None)) e1
  /\ QueryRecord id e1
     = Done (passed_on
               (client_Query client t (toParam (set_Provider (PName pv) r))))
         (sent (SqlGet (Record_named name)) e1).
Proof.
  intros Hb Hc Hc' Hl Hbne Hid Hid' Ho Hn Hf Hfind Hsame data e1.
  assert (Hname : forall row, Name (assign data row) = Name row).
  { intros row. unfold data. rewrite assign_primary_data. by destruct row. }
  split.
  - rewrite (CommitRecord_resolved r e client pv Hb Hc). cbv zeta.
    rewrite Hl. fold data.
    rewrite (UpdateRecordFields_applied _ owner name data e); try done.
    apply find_name_is in Hfind as [? ?]. by exists r0.
  - pose proof (committed_lookup owner name data e r0 Ho Hn Hf Hname Hfind)
      as Hget.
    fold e1 in Hget.
    rewrite (QueryRecord_found id owner name e1 _ (assign data r0) client
               (Some pv) Hid' Hget).
    + unfold data. rewrite assign_primary_data.
      cbn [Transaction set_Provider set_Block set_Transaction set_BlockHash].
      do 3 f_equal. apply toParam_same.
      unfold same_but_anchoring in *. decompose [and] Hsame.
      destruct r, r0. cbn in *. by repeat split.
    + unfold data. rewrite assign_primary_data. by destruct r0.
    + unfold data. rewrite assign_primary_data. by destruct r0.
Qed.

End RoundTrip.

Section Tamper.

Context {util : UtilPkg} {utilid : UtilIdPkg} {directory : ProviderDirectory}.

(** X10.  Over the Ethereum client, [QueryRecord] compares the data of the
    record's transaction on the chain with the canonical payload of the
    record as the store holds it now: equal, the answer is [Matched]; a
    stored record whose payload differs from what is on the chain is
    answered by [Mismatched], with both texts and without an error. *)
Theorem QueryRecord_compares_stored (id owner name : string) (e e1 : Engine)
  (rec : Record) (c : EthereumClient) pv (receipt : Receipt) (tx : Tx) :
  GetOwnerAndNameFromIdNoCheck id = Some (owner, name) ->
  getRecord owner name e = Done (Some rec, None) e1 ->
  Block rec <> "" ->
  getRecordChainClient (Provider rec)
  = (Some (EthereumClient_client c), pv, None) ->
  TransactionReceipt (Client c) (HexToHash (Client c) (Transaction rec))
  = (receipt, None) ->
  TransactionByHash (Client c) (HexToHash (Client c) (Transaction rec))
  = (tx, None) ->
  (Data tx = toParam rec ->
   QueryRecord id e
   = Done (verdict_header receipt +:+ Matched_text (toParam rec), None) e1)
  /\ (Data tx <> toParam rec ->
      QueryRecord id e
      = Done (verdict_header receipt
              +:+ Mismatched_text (Data tx) (toParam rec), None) e1).
Proof.
  intros Hid Hget Hb Hc Hr Ht.
  rewrite (QueryRecord_found id owner name e e1 rec _ pv Hid Hget Hb Hc).
  unfold client_Query. cbn [impl impl_iface self EthereumClient_client Query
                            EthereumClient_iface].
  unfold EthereumClient_Query. rewrite Hr, Ht. unfold verdict_header.
  split; intros H.
  - by rewrite H, String.eqb_refl, !append_assoc.
  - apply String.eqb_neq in H. by rewrite H, !append_assoc.
Qed.

End Tamper.

(** *** [AddRecord] *)

Lemma length_append (a b : string) :
  String.length (a +:+ b) = (String.length a + String.length b)%nat.
Proof.
  induction a as [| x a IH]; [done |].
  change (S (String.length (a +:+ b))
          = S (String.length a + String.length b)). by rewrite IH.
Qed.

Lemma substring_all (s : string) : substring 0 (String.length s) s = s.
Proof.
  induction s as [| x s IH]; [done |].
  change (String x (substring 0 (String.length s) s) = String x s).
  by rewrite IH.
Qed.

Lemma substring_skip (p s : string) (n : nat) :
  substring (String.length p) n (p +:+ s) = substring 0 n s.
Proof.
  induction p as [| x p IH]; [done |].
  change (substring (String.length p) n (p +:+ s) = substring 0 n s).
  exact IH.
Qed.

Lemma HasSuffix_append (p suffix : string) :
  Strings.HasSuffix (p +:+ suffix) suffix = true.
Proof.
  unfold Strings.HasSuffix, Strings.slice. rewrite length_append.
  apply andb_true_iff. split; [apply Nat.leb_le; lia |].
  replace (String.length p + String.length suffix - String.length suffix)%nat
    with (String.length p) by lia.
  replace (String.length p + String.length suffix - String.length p)%nat
    with (String.length suffix) by lia.
  rewrite substring_skip, substring_all. apply String.eqb_refl.
Qed.

(** *** Keys of the table *)

Lemma next_id_above (rs : list Record) (row : Record) :
  In row rs -> (Id row < next_id rs)%Z.
Proof.
  unfold next_id. induction rs as [| x rs IH]; [done |].
  cbn [List.map fold_right]. intros [-> | Hin]; [lia |].
  specialize (IH Hin). lia.
Qed.

Lemma key_taken_spec (id : Z) (rs : list Record) :
  key_taken id rs = true <-> exists row, In row rs /\ Id row = id.
Proof.
  unfold key_taken. rewrite existsb_exists.
  split; intros (row & Hin & H); exists row; (split; [done |]); lia.
Qed.

Lemma key_taken_free (id : Z) (rs : list Record) :
  key_taken id rs = false <-> forall row, In row rs -> Id row <> id.
Proof.
  rewrite <- not_true_iff_false, key_taken_spec. split.
  - intros H row Hin Hid. apply H. by exists row.
  - intros H (row & Hin & Hid). by apply (H row).
Qed.

Lemma key_taken_next_id (rs : list Record) :
  key_taken (next_id rs) rs = false.
Proof.
  apply key_taken_free. intros row Hin. apply next_id_above in Hin. lia.
Qed.

Lemma insert_by_key_last (row : Record) (rs : list Record) :
  (forall x, In x rs -> (Id x < Id row)%Z) ->
  insert_by_key row rs = (rs ++ [row])%list.
Proof.
  induction rs as [| x rs IH]; [done |]. intros H.
  cbn [insert_by_key app].
  destruct (Z.ltb_spec (Id row) (Id x)) as [Hlt | _].
  - specialize (H x (or_introl eq_refl)). lia.
  - rewrite IH; [done |]. intros y Hy. apply H. by right.
Qed.

Lemma insert_by_key_split (row : Record) (rs : list Record) :
  exists before after,
    rs = (before ++ after)%list
    /\ insert_by_key row rs = (before ++ row :: after)%list.
Proof.
  induction rs as [| x rs (before & after & Hrs & Hins)].
  - by exists [], [].
  - cbn [insert_by_key]. destruct (Z.ltb (Id row) (Id x)).
    + by exists [], (x :: rs).
    + exists (x :: before), after. cbn [app]. by rewrite <- Hrs, Hins.
Qed.

Lemma insert_by_key_In (row x : Record) (rs : list Record) :
  In x (insert_by_key row rs) <-> x = row \/ In x rs.
Proof.
  destruct (insert_by_key_split row rs) as (before & after & -> & ->).
  rewrite !in_app_iff. cbn [In]. intuition.
Qed.

Lemma insert_by_key_ordered (row : Record) (rs : list Record) :
  key_ordered rs -> key_taken (Id row) rs = false ->
  key_ordered (insert_by_key row rs).
Proof.
  unfold key_ordered. intros Hs Hfree.
  rewrite key_taken_free in Hfree.
  induction Hs as [| x rs Hs IH Hx]; cbn [insert_by_key].
  - by repeat constructor.
  - assert (Hne : Id x <> Id row) by (apply Hfree; by left).
    pose proof Hx as Hall. rewrite List.Forall_forall in Hx.
    destruct (Z.ltb_spec (Id row) (Id x)) as [Hlt | Hge].
    + constructor; [by constructor |].
      apply List.Forall_forall. intros y [<- | Hy]; [done |].
      specialize (Hx y Hy). lia.
    + constructor.
      * apply IH. intros y Hy. apply Hfree. by right.
      * apply List.Forall_forall. intros y Hy.
        apply insert_by_key_In in Hy as [-> | Hy]; [lia | by apply Hx].
Qed.

Lemma find_insert_fresh (p : Record -> bool) (row : Record)
  (rs : list Record) :
  List.find p rs = None -> p row = true ->
  List.find p (insert_by_key row rs) = Some row.
Proof.
  intros Hnone Hp. induction rs as [| x rs IH].
  - cbn [insert_by_key List.find]. by rewrite Hp.
  - cbn [List.find] in Hnone. destruct (p x) eqn:Hx; [done |].
    cbn [insert_by_key]. destruct (Z.ltb (Id row) (Id x)).
    + cbn [List.find]. by rewrite Hp.
    + cbn [List.find]. rewrite Hx. by apply IH.
Qed.

(** On a table in key order the lookup after an insert finds, of the new
    row and the row found before, the one with the lower key. *)
Lemma find_insert_by_key (p : Record -> bool) (row old : Record)
  (rs : list Record) :
  key_ordered rs -> p row = true -> List.find p rs = Some old ->
  List.find p (insert_by_key row rs)
  = Some (if Z.ltb (Id row) (Id old) then row else old).
Proof.
  unfold key_ordered. intros Hs Hp.
  induction Hs as [| x rs Hs IH Hx]; [done |].
  rewrite List.Forall_forall in Hx.
  cbn [List.find insert_by_key]. intros Hfind.
  destruct (Z.ltb_spec (Id row) (Id x)) as [Hlt | Hge].
  - cbn [List.find]. rewrite Hp.
    assert (Hold : (Id x <= Id old)%Z).
    { destruct (p x); [injection Hfind as <-; lia |].
      apply find_some in Hfind as [Hin _]. specialize (Hx old Hin). lia. }
    destruct (Z.ltb_spec (Id row) (Id old)); [done | lia].
  - cbn [List.find]. destruct (p x); [| by apply IH].
    injection Hfind as <-.
    destruct (Z.ltb_spec (Id row) (Id x)); [lia | done].
Qed.

(** The row the table makes of a bean: the key is given when it is zero. *)
Lemma engine_Insert_eq (bean : Record) (e : Engine) :
  engine_Insert bean e =
  let e1 := sent (SqlInsert bean) e in
  match hd None (faults e) with
  | Some msg => Done (bean, 0%Z, Some msg) e1
  | None =>
      if negb (Z.eqb (Id bean) 0) && key_taken (Id bean) (rows e) then
        Done (bean, 0%Z, Some duplicate_key) e1
      else
        let row :=
          if Z.eqb (Id bean) 0 then set_Id (next_id (rows e)) bean
          else bean in
        Done (row, 1%Z, None) (with_rows (insert_by_key row (rows e)) e1)
  end.
Proof.
  unfold engine_Insert, bind, driver, get_rows, put_rows, ret.
  destruct (hd None (faults e)); [done |]. cbn [sent rows].
  destruct (Z.eqb (Id bean) 0); cbn [negb andb].
  - rewrite insert_by_key_last; [done |].
    intros x Hx. cbn [Id set_Id]. by apply next_id_above.
  - by destruct (key_taken (Id bean) (rows e)).
Qed.

(** The key of the row an insert makes is not a key of the table. *)
Lemma inserted_key_free (bean : Record) (rs : list Record) :
  negb (Z.eqb (Id bean) 0) && key_taken (Id bean) rs = false ->
  key_taken
    (Id (if Z.eqb (Id bean) 0 then set_Id (next_id rs) bean else bean)) rs
  = false.
Proof.
  destruct (Z.eqb (Id bean) 0); cbn [negb andb]; [intros _ | done].
  cbn [Id set_Id]. apply key_taken_next_id.
Qed.

Section Adding.

Context {util : UtilPkg} {conf : ConfPkg} {directory : ProviderDirectory}.

(** X11.  [AddRecord] does not log the commit and query operations
    themselves: a record whose action ends with [-record] or with
    [-record-second] is answered by [(false, nil, nil)], whatever the
    logging policy, and the record and the store stay as they were. *)
Theorem AddRecord_skips_own_actions (r : Record) (e : Engine) (p : string) :
  Action r = p +:+ "-record" \/ Action r = p +:+ "-record-second" ->
  AddRecord r e = Done (r, (false, None, None)) e.
Proof.
  intros H. unfold AddRecord.
  destruct (logPostOnly && String.eqb (Method r) "GET"); [done |].
  destruct H as [-> | ->].
  - by rewrite HasSuffix_append.
  - destruct (Strings.HasSuffix (p +:+ "-record-second") "-record");
      [done |]. by rewrite HasSuffix_append.
Qed.

(** The record as [AddRecord] hands it to [Insert], and the row the table
    makes of it. *)
Lemma AddRecord_eq (r : Record) (e : Engine) :
  logPostOnly && String.eqb (Method r) "GET" = false ->
  Strings.HasSuffix (Action r) "-record" = false ->
  Strings.HasSuffix (Action r) "-record-second" = false ->
  AddRecord r e =
  let '(r1, err) := bind_active_providers r in
  match err with
  | Some _ => Done (r1, (false, None, err)) e
  | None =>
      let bean := set_Owner (Organization r1) r1 in
      let e1 := sent (SqlInsert bean) e in
      match hd None (faults e) with
      | Some msg => Done (bean, (false, None, Some msg)) e1
      | None =>
          if negb (Z.eqb (Id bean) 0) && key_taken (Id bean) (rows e) then
            Done (bean, (false, None, Some duplicate_key)) e1
          else
            let row :=
              if Z.eqb (Id bean) 0 then set_Id (next_id (rows e)) bean
              else bean in
            let e2 := with_rows (insert_by_key row (rows e)) e1 in
            if NeedCommit row then
              match CommitRecord row e2 with
              | Panic msg e' => Panic msg e'
              | Done (r', (affected2, data, Some msg)) e' =>
                  Done (r', (false, None, Some msg)) e'
              | Done (r', (affected2, data, None)) e' =>
                  Done (r', (affected2, data, None)) e'
              end
            else Done (row, (true, None, None)) e2
      end
  end.
Proof.
  intros H1 H2 H3. unfold AddRecord. rewrite H1, H2, H3.
  destruct (bind_active_providers r) as [r1 [m |]]; [done |].
  unfold bind. rewrite engine_Insert_eq. cbv zeta.
  destruct (hd None (faults e)); [done |].
  destruct (negb _ && key_taken _ _); [done |].
  match goal with |- context [NeedCommit ?x] => destruct (NeedCommit x) end;
    [| done].
  destruct (CommitRecord _ _) as [| [r' [[aff data] [m |]]] e']; done.
Qed.

Lemma bind_active_providers_frame (r r1 : Record) (err : error) :
  bind_active_providers r = (r1, err) ->
  same_but_anchoring r r1
  /\ (Block r1, BlockHash r1, Transaction r1)
     = (Block r, BlockHash r, Transaction r)
  /\ (Block2 r1, BlockHash2 r1, Transaction2 r1)
     = (Block2 r, BlockHash2 r, Transaction2 r)
  /\ (Provider r <> "" -> r1 = r).
Proof.
  unfold bind_active_providers.
  destruct (String.eqb_spec (Provider r) "") as [Hp | Hp].
  - destruct (GetTwoActiveBlockchainProvider "admin") as [[p1 p2] [m |]].
    + intros [= <- _]. by destruct r.
    + intros [= <- _]. destruct p1, p2, r; by repeat split.
  - intros [= <- _]. by destruct r.
Qed.

(** X12.  Without [NeedCommit], [AddRecord] never panics, returns no data,
    and changes no row the table had: it leaves the rows alone, or it
    adds exactly one row and returns [(true, nil, nil)] with it.  The row
    goes to its place in key order, which is the end when the record came
    without id, and its key is none of the table; a record whose non-zero
    id is the key of a row is not added.  The row's owner is the record's
    organization, whatever owner was given; it keeps the record's id when
    that is not zero; and but for id, owner and the two provider names it
    is the record given. *)
Theorem AddRecord_appends (r : Record) (e : Engine) :
  NeedCommit r = false ->
  match AddRecord r e with
  | Panic _ _ => False
  | Done (r', (ok, data, err)) e' =>
      data = None
      /\ (Id r <> 0%Z -> key_taken (Id r) (rows e) = true -> ok = false)
      /\ ((ok = false /\ rows e' = rows e)
          \/ (ok = true /\ err = None
              /\ rows e' = insert_by_key r' (rows e)
              /\ (exists before after,
                    rows e = (before ++ after)%list
                    /\ rows e' = (before ++ r' :: after)%list)
              /\ (Id r = 0%Z -> rows e' = (rows e ++ [r'])%list)
              /\ key_taken (Id r') (rows e) = false
              /\ Owner r' = Organization r
              /\ (Id r <> 0%Z -> Id r' = Id r)
              /\ same_but_anchoring (set_Owner (Owner r') (set_Id (Id r') r))
                   r'
              /\ (Block r', BlockHash r', Transaction r')
                 = (Block r, BlockHash r, Transaction r)
              /\ (Block2 r', BlockHash2 r', Transaction2 r')
                 = (Block2 r, BlockHash2 r, Transaction2 r)))
  end.
Proof.
  intros Hnc.
  destruct (logPostOnly && String.eqb (Method r) "GET") eqn:H1;
    [unfold AddRecord; rewrite H1; split; [done |]; split; [done | by left] |].
  destruct (Strings.HasSuffix (Action r) "-record") eqn:H2;
    [unfold AddRecord; rewrite H1, H2; split; [done |]; split;
     [done | by left] |].
  destruct (Strings.HasSuffix (Action r) "-record-second") eqn:H3;
    [unfold AddRecord; rewrite H1, H2, H3; split; [done |]; split;
     [done | by left] |].
  rewrite (AddRecord_eq r e H1 H2 H3).
  destruct (bind_active_providers r) as [r1 err] eqn:Hbind.
  apply bind_active_providers_frame in Hbind as (Hsame & Hs1 & Hs2 & _).
  destruct err as [m |]; [split; [done |]; split; [done | by left] |].
  cbv zeta.
  destruct (hd None (faults e)); [split; [done |]; split; [done | by left] |].
  assert (Hnc1 : NeedCommit r1 = NeedCommit r).
  { unfold same_but_anchoring in Hsame. by decompose [and] Hsame. }
  assert (Horg : Organization r1 = Organization r).
  { unfold same_but_anchoring in Hsame. by decompose [and] Hsame. }
  assert (Hid : Id r1 = Id r).
  { unfold same_but_anchoring in Hsame. by decompose [and] Hsame. }
  destruct (negb _ && key_taken _ _) eqn:Hclash;
    [split; [done |]; split; [done | by left] |].
  pose proof (inserted_key_free _ _ Hclash) as Hfree.
  change (Id (set_Owner (Organization r1) r1)) with (Id r1) in *.
  rewrite Hid in *.
  destruct (Z.eqb_spec (Id r) 0) as [Hz | Hz].
  - cbn [NeedCommit set_Id set_Owner]. rewrite Hnc1, Hnc.
    split; [done |]. split; [done |]. right. cbn [rows with_rows sent].
    split; [done |]. split; [done |]. split; [done |].
    split; [apply insert_by_key_split |].
    split; [intros _; apply insert_by_key_last; intros x Hx;
            by apply next_id_above |].
    split; [exact Hfree |]. split; [done |]. split; [done |].
    unfold same_but_anchoring in *. decompose [and] Hsame.
    destruct r, r1. cbn in *. by simplify_eq.
  - cbn [negb andb] in Hclash.
    cbn [NeedCommit set_Id set_Owner]. rewrite Hnc1, Hnc.
    split; [done |]. split; [intros _ Ht; congruence |].
    right. cbn [rows with_rows sent].
    split; [done |]. split; [done |]. split; [done |].
    split; [apply insert_by_key_split |].
    split; [done |]. split; [exact Hfree |]. split; [done |].
    split; [intros _; cbn [Id set_Owner]; exact Hid |].
    unfold same_but_anchoring in *. decompose [and] Hsame.
    destruct r, r1. cbn in *. by simplify_eq.
Qed.

End Adding.

Lemma find_app_fresh (name : string) (rs : list Record) (row : Record) :
  List.find (name_is name) (rs ++ [row])
  = match List.find (name_is name) rs with
    | Some old => Some old
    | None => if name_is name row then Some row else None
    end.
Proof.
  induction rs as [| x rs IH]; [done |].
  cbn [app List.find]. by destruct (name_is name x).
Qed.

Section AddingMore.

Context {util : UtilPkg} {conf : ConfPkg} {directory : ProviderDirectory}.

Lemma UpdateRecordFields_error_rows (id : string) (fields : FieldMap)
  (e e' : Engine) (ok : bool) (msg : string) :
  UpdateRecordFields id fields e = Done (ok, Some msg) e' ->
  rows e' = rows e.
Proof.
  destruct (GetOwnerAndNameFromId id) as [[owner name] |] eqn:Hid;
    [| unfold UpdateRecordFields; by rewrite Hid].
  destruct (decide (owner = "")) as [-> | Ho];
    [by rewrite (UpdateRecordFields_skip _ _ _ _ _ Hid) by auto |].
  destruct (decide (name = "")) as [-> | Hn];
    [by rewrite (UpdateRecordFields_skip _ _ _ _ _ Hid) by auto |].
  rewrite (UpdateRecordFields_eq _ _ _ _ _ Hid) by done. cbv zeta.
  destruct (hd None (faults e)); [by intros [= _ _ <-] |].
  destruct (List.find _ _); [| done].
  destruct (hd None (faults _)); [by intros [= _ _ <-] |].
  destruct (fields_ok fields); [done | by intros [= _ _ <-]].
Qed.

Lemma CommitRecord_error_rows (r r' : Record) (e e' : Engine) ok data msg :
  CommitRecord r e = Done (r', (ok, data, Some msg)) e' ->
  rows e' = rows e
  /\ (Block r', BlockHash r', Transaction r')
     = (Block r, BlockHash r, Transaction r)
  /\ Name r' = Name r /\ Owner r' = Owner r.
Proof.
  destruct (String.eqb_spec (Block r) "") as [Hb | Hb];
    [| rewrite (CommitRecord_guard r e Hb); by intros [= <- _ _ _ <-]].
  destruct (getRecordChainClient (Provider r)) as [[client pv] cerr] eqn:Hc.
  destruct cerr as [m |].
  { unfold CommitRecord. rewrite Hb, Hc. cbv beta iota.
    change (negb (String.eqb "" "")) with false. cbv iota. unfold ret.
    intros [= <- _ _ _ <-]. by rewrite ?Hb. }
  destruct pv as [pv |], client as [client |];
    try (unfold CommitRecord; rewrite Hb, Hc; cbv beta iota;
         change (negb (String.eqb "" "")) with false; cbv iota; discriminate).
  rewrite (CommitRecord_resolved r e client pv Hb Hc). cbv zeta.
  destruct (client_Commit _ _) as [[[b t] h] [m |]];
    [by intros [= <- _ _ _ <-] |].
  destruct (UpdateRecordFields _ _ e) as [| [aff [uerr |]] e1] eqn:Hu;
    try done.
  intros [= <- _ _ _ <-].
  by rewrite (UpdateRecordFields_error_rows _ _ _ _ _ _ Hu).
Qed.

(** X13.  Binding of providers by [AddRecord] (without [NeedCommit], on
    the path that inserts): a record that names a primary provider keeps
    both provider names as given, an empty secondary one included; a
    record without primary provider gets the names of the active pair,
    the secondary name being overwritten when there is a second active
    provider and kept when there is none. *)
Theorem AddRecord_binds_providers (r r' : Record) (e e' : Engine) data :
  NeedCommit r = false ->
  AddRecord r e = Done (r', (true, data, None)) e' ->
  (Provider r <> "" ->
   Provider r' = Provider r /\ Provider2 r' = Provider2 r)
  /\ (Provider r = "" ->
      exists p1 p2,
        GetTwoActiveBlockchainProvider "admin" = (p1, p2, None)
        /\ Provider r' = match p1 with Some p => PName p | None => "" end
        /\ Provider2 r'
           = match p2 with Some p => PName p | None => Provider2 r end).
Proof.
  intros Hnc.
  destruct (logPostOnly && String.eqb (Method r) "GET") eqn:H1;
    [unfold AddRecord; by rewrite H1 |].
  destruct (Strings.HasSuffix (Action r) "-record") eqn:H2;
    [unfold AddRecord; by rewrite H1, H2 |].
  destruct (Strings.HasSuffix (Action r) "-record-second") eqn:H3;
    [unfold AddRecord; by rewrite H1, H2, H3 |].
  rewrite (AddRecord_eq r e H1 H2 H3).
  destruct (bind_active_providers r) as [r1 err] eqn:Hbind.
  pose proof (bind_active_providers_frame _ _ _ Hbind) as (Hsame & _ & _ & Hk).
  assert (Hnc1 : NeedCommit r1 = NeedCommit r).
  { unfold same_but_anchoring in Hsame. by decompose [and] Hsame. }
  destruct err as [m |]; [done |]. cbv zeta.
  destruct (hd None (faults e)); [done |].
  destruct (negb _ && key_taken _ _); [done |].
  assert (Hrow : forall x : Z,
            (if Z.eqb (Id (set_Owner (Organization r1) r1)) 0
             then set_Id x (set_Owner (Organization r1) r1)
             else set_Owner (Organization r1) r1) = r' ->
            Provider r' = Provider r1 /\ Provider2 r' = Provider2 r1).
  { intros x <-. by destruct (Z.eqb _ 0). }
  match goal with |- context [NeedCommit ?x] =>
    replace (NeedCommit x) with false
      by (destruct (Z.eqb (Id (set_Owner (Organization r1) r1)) 0); cbn;
          congruence)
  end.
  intros [= Hr' _ _]. apply Hrow in Hr' as [Hp1 Hp2]. split.
  - intros Hp. by rewrite Hp1, Hp2, (Hk Hp).
  - intros Hp. unfold bind_active_providers in Hbind.
    rewrite Hp in Hbind. cbn [String.eqb] in Hbind.
    destruct (GetTwoActiveBlockchainProvider "admin") as [[p1 p2] [m |]];
      [done |].
    exists p1, p2. split; [done |]. injection Hbind as <-.
    rewrite Hp1, Hp2. destruct p1, p2; cbn; by rewrite ?Hp.
Qed.

(** X14.  An immediate commit that fails does not undo the insert.  When
    [AddRecord] of a record with [NeedCommit], on a table that takes the
    insert (the record has no id, or one that is no key of the table),
    returns an error, whatever made the commit fail, the result is
    [(false, nil, err)] and the table is the old one with the new row
    added, last when the record had no id; the row has the record's name,
    the organization as owner and the block of the record as given.  When
    the record's id is the key of a row it is the insert that fails: the
    table stays as it was and the insert is the only statement sent. *)
Theorem AddRecord_failed_commit_keeps_row (r r' : Record) (e e' : Engine)
  ok data msg :
  NeedCommit r = true ->
  logPostOnly && String.eqb (Method r) "GET" = false ->
  Strings.HasSuffix (Action r) "-record" = false ->
  Strings.HasSuffix (Action r) "-record-second" = false ->
  (Provider r = "" -> (GetTwoActiveBlockchainProvider "admin").2 = None) ->
  hd None (faults e) = None ->
  AddRecord r e = Done (r', (ok, data, Some msg)) e' ->
  ok = false /\ data = None
  /\ (Id r = 0%Z \/ key_taken (Id r) (rows e) = false ->
      exists row,
        rows e' = insert_by_key row (rows e)
        /\ (Id r = 0%Z -> rows e' = (rows e ++ [row])%list)
        /\ key_taken (Id row) (rows e) = false
        /\ Name row = Name r /\ Owner row = Organization r
        /\ Block row = Block r
        /\ Name r' = Name r /\ Block r' = Block r)
  /\ (Id r <> 0%Z -> key_taken (Id r) (rows e) = true ->
      rows e' = rows e /\ journal e' = (journal e ++ [SqlInsert r'])%list).
Proof.
  intros Hnc H1 H2 H3 Hdir Hf.
  rewrite (AddRecord_eq r e H1 H2 H3).
  destruct (bind_active_providers r) as [r1 err] eqn:Hbind.
  pose proof (bind_active_providers_frame _ _ _ Hbind) as (Hsame & Hs1 & _).
  assert (Hfields : NeedCommit r1 = NeedCommit r
                    /\ Organization r1 = Organization r /\ Name r1 = Name r
                    /\ Id r1 = Id r).
  { unfold same_but_anchoring in Hsame. by decompose [and] Hsame. }
  destruct Hfields as (Hnc1 & Horg & Hname & Hid).
  assert (Hblock : Block r1 = Block r) by congruence.
  destruct err as [m |].
  { exfalso. unfold bind_active_providers in Hbind.
    destruct (String.eqb_spec (Provider r) "") as [Hp | Hp]; [| done].
    specialize (Hdir Hp).
    destruct (GetTwoActiveBlockchainProvider "admin") as [[p1 p2] [m' |]];
      [done |]. by destruct p1, p2. }
  cbv zeta. rewrite Hf.
  destruct (negb _ && key_taken _ _) eqn:Hclash.
  { change (Id (set_Owner (Organization r1) r1)) with (Id r1) in Hclash.
    rewrite Hid in Hclash. apply andb_true_iff in Hclash as [Hnz Htaken].
    apply negb_true_iff, Z.eqb_neq in Hnz.
    intros [= <- <- <- <- <-]. split; [done |]. split; [done |].
    split; [intros [Hz | Hfree]; congruence |]. done. }
  pose proof (inserted_key_free _ _ Hclash) as Hfree.
  change (Id (set_Owner (Organization r1) r1)) with (Id r1) in *.
  rewrite Hid in *.
  set (row := if Z.eqb (Id r) 0
              then set_Id (next_id (rows e)) (set_Owner (Organization r1) r1)
              else set_Owner (Organization r1) r1) in *.
  assert (Hrow : NeedCommit row = true /\ Name row = Name r
                 /\ Owner row = Organization r /\ Block row = Block r).
  { unfold row. destruct (Z.eqb _ 0); cbn;
      by rewrite Hnc1, Hnc, Hname, Horg, Hblock. }
  destruct Hrow as (Hrnc & Hrname & Hrowner & Hrblock). rewrite Hrnc.
  destruct (CommitRecord row _) as [| [rc [[aff d] [m |]]] ec] eqn:Hcommit;
    [done | | done].
  intros [= <- <- <- _ <-].
  apply CommitRecord_error_rows in Hcommit as (Hrows & Hs & Hn & _).
  split; [done |]. split; [done |]. split.
  - intros _. exists row. rewrite Hrows. cbn [rows with_rows sent].
    split; [done |]. split.
    { intros Hz. apply insert_by_key_last. intros x Hx.
      unfold row. rewrite Hz. cbn [Z.eqb Id set_Id].
      by apply next_id_above. }
    split; [exact Hfree |]. repeat (split; [done |]).
    split; [congruence |]. injection Hs as Hb _ _. congruence.
  - intros Hnz Htaken. exfalso.
    apply Z.eqb_neq in Hnz. rewrite Hnz, Htaken in Hclash. done.
Qed.

(** X15.  Insert, then look up.  After [AddRecord] has inserted a record
    (no [NeedCommit], no driver fault, organization and name not empty,
    no id or one that is no key of the table), the lookup by organization
    and name returns the row just inserted when no row of the table has
    that name.  When one has, the lookup still returns that earlier row if
    the record came without id; with an id of its own, on a table in key
    order, it returns whichever of the two rows has the lower key. *)
Theorem AddRecord_then_getRecord (r : Record) (e : Engine) :
  NeedCommit r = false ->
  logPostOnly && String.eqb (Method r) "GET" = false ->
  Strings.HasSuffix (Action r) "-record" = false ->
  Strings.HasSuffix (Action r) "-record-second" = false ->
  (Provider r = "" -> (GetTwoActiveBlockchainProvider "admin").2 = None) ->
  faults e = [] ->
  Organization r <> "" -> Name r <> "" ->
  Id r = 0%Z \/ key_taken (Id r) (rows e) = false ->
  exists r' e',
    AddRecord r e = Done (r', (true, None, None)) e'
    /\ Owner r' = Organization r /\ Name r' = Name r
    /\ (Id r <> 0%Z -> Id r' = Id r)
    /\ (forall row, In row (rows e) -> Id row <> Id r')
    /\ (key_ordered (rows e) -> key_ordered (rows e'))
    /\ (List.find (name_is (Name r)) (rows e) = None ->
        getRecord (Organization r) (Name r) e'
        = Done (Some r', None) (sent (SqlGet (Record_named (Name r))) e'))
    /\ (forall old,
          List.find (name_is (Name r)) (rows e) = Some old ->
          Id r = 0%Z ->
          getRecord (Organization r) (Name r) e'
          = Done (Some old, None) (sent (SqlGet (Record_named (Name r))) e'))
    /\ (forall old,
          List.find (name_is (Name r)) (rows e) = Some old ->
          key_ordered (rows e) ->
          getRecord (Organization r) (Name r) e'
          = Done (Some (if Z.ltb (Id r') (Id old) then r' else old), None)
              (sent (SqlGet (Record_named (Name r))) e')).
Proof.
  intros Hnc H1 H2 H3 Hdir Hf Ho Hn Hkey.
  rewrite (AddRecord_eq r e H1 H2 H3).
  destruct (bind_active_providers r) as [r1 err] eqn:Hbind.
  pose proof (bind_active_providers_frame _ _ _ Hbind) as (Hsame & _).
  assert (Hfields : NeedCommit r1 = NeedCommit r
                    /\ Organization r1 = Organization r /\ Name r1 = Name r
                    /\ Id r1 = Id r).
  { unfold same_but_anchoring in Hsame. by decompose [and] Hsame. }
  destruct Hfields as (Hnc1 & Horg & Hname & Hid).
  destruct err as [m |].
  { exfalso. unfold bind_active_providers in Hbind.
    destruct (String.eqb_spec (Provider r) "") as [Hp | Hp]; [| done].
    specialize (Hdir Hp).
    destruct (GetTwoActiveBlockchainProvider "admin") as [[p1 p2] [m' |]];
      [done |]. by destruct p1, p2. }
  cbv zeta. rewrite Hf. cbn [hd].
  assert (Hclash : negb (Z.eqb (Id (set_Owner (Organization r1) r1)) 0)
                   && key_taken (Id (set_Owner (Organization r1) r1)) (rows e)
                   = false).
  { change (Id (set_Owner (Organization r1) r1)) with (Id r1). rewrite Hid.
    destruct Hkey as [-> | ->]; [done | apply andb_false_r]. }
  rewrite Hclash.
  pose proof (inserted_key_free _ _ Hclash) as Hfree.
  change (Id (set_Owner (Organization r1) r1)) with (Id r1) in *.
  rewrite Hid in *.
  set (row := if Z.eqb (Id r) 0
              then set_Id (next_id (rows e)) (set_Owner (Organization r1) r1)
              else set_Owner (Organization r1) r1) in *.
  assert (Hrow : NeedCommit row = false /\ Name row = Name r
                 /\ Owner row = Organization r).
  { unfold row. destruct (Z.eqb _ 0); cbn; by rewrite Hnc1, Hnc, Hname, Horg. }
  destruct Hrow as (Hrnc & Hrname & Hrowner). rewrite Hrnc.
  assert (Hprow : name_is (Name r) row = true).
  { unfold name_is. by rewrite Hrname, String.eqb_refl. }
  do 2 eexists. split; [reflexivity |]. split; [done |]. split; [done |].
  split.
  { intros Hnz. apply Z.eqb_neq in Hnz. unfold row. rewrite Hnz.
    cbn [Id set_Owner]. exact Hid. }
  split; [by apply key_taken_free |].
  split; [intros Hs; cbn [rows with_rows sent]; by apply insert_by_key_ordered |].
  split; [| split].
  - intros Hfind. rewrite getRecord_eq by done.
    cbn [faults with_rows sent rows]. rewrite Hf. cbn [tl hd].
    by rewrite (find_insert_fresh _ _ _ Hfind Hprow).
  - intros old Hfind Hz. rewrite getRecord_eq by done.
    cbn [faults with_rows sent rows]. rewrite Hf. cbn [tl hd].
    rewrite insert_by_key_last, find_app_fresh, Hfind; [done |].
    intros x Hx. unfold row. rewrite Hz. cbn [Z.eqb Id set_Id].
    by apply next_id_above.
  - intros old Hfind Hs. rewrite getRecord_eq by done.
    cbn [faults with_rows sent rows]. rewrite Hf. cbn [tl hd].
    by rewrite (find_insert_by_key _ _ _ _ Hs Hprow Hfind).
Qed.

End AddingMore.

(** *** Deleting, updating and listing *)

Lemma find_delete_where (name : string) (rs : list Record) :
  List.find (name_is name) (delete_where name rs) = None.
Proof.
  induction rs as [| row rs IH]; [done |].
  cbn [delete_where List.filter].
  destruct (name_is name row) eqn:Hrow; cbn [negb]; [exact IH |].
  cbn [List.find]. rewrite Hrow. exact IH.
Qed.

Lemma delete_where_none (name : string) (rs : list Record) :
  List.find (name_is name) rs = None -> delete_where name rs = rs.
Proof.
  induction rs as [| row rs IH]; [done |].
  cbn [delete_where List.filter List.find].
  destruct (name_is name row); [done |]. intros H. cbn [negb].
  f_equal. by apply IH.
Qed.

Lemma find_name_is_ex (name : string) (rs : list Record) :
  (exists row, In row rs /\ Name row = name)
  <-> List.find (name_is name) rs <> None.
Proof.
  split.
  - intros (row & Hin & Hrow) Hnone.
    eapply find_none in Hnone; [| exact Hin].
    unfold name_is in Hnone. by rewrite Hrow, String.eqb_refl in Hnone.
  - destruct (List.find _ _) as [p |] eqn:Hfind; [| done].
    intros _. exists p. by apply find_name_is.
Qed.

(** X16.  Delete, then look up.  Without driver fault [DeleteRecord]
    returns [true] exactly when some row had the record's name; afterwards
    the lookup of that name finds nothing under any owner, and a second
    [DeleteRecord] returns [false] and leaves the rows alone. *)
Theorem DeleteRecord_then_lookup (r : Record) (e : Engine) :
  faults e = [] ->
  exists ok e',
    DeleteRecord r e = Done (ok, None) e'
    /\ (ok = true <-> exists row, In row (rows e) /\ Name row = Name r)
    /\ (forall owner, exists e'',
          getRecord owner (Name r) e' = Done (None, None) e'')
    /\ exists e'',
         DeleteRecord r e' = Done (false, None) e'' /\ rows e'' = rows e'.
Proof.
  intros Hf. unfold DeleteRecord, bind. rewrite !engine_Delete_eq. cbv zeta.
  rewrite Hf. cbn [hd]. do 2 eexists. split; [reflexivity |].
  cbn [faults with_rows sent rows tl hd]. split; [| split].
  - rewrite find_name_is_ex, negb_true_iff.
    destruct (Z.eqb (matched (Name r) (rows e)) 0) eqn:Hz.
    + apply matched_zero in Hz. by rewrite Hz.
    + split; [| done]. intros _ Hnone. apply matched_zero in Hnone.
      congruence.
  - intros owner.
    destruct (decide (owner = "")) as [-> | Ho];
      [rewrite getRecord_empty by auto; by eexists |].
    destruct (decide (Name r = "")) as [Hn | Hn];
      [rewrite getRecord_empty by auto; by eexists |].
    rewrite getRecord_eq by done. cbn [faults with_rows sent rows].
    rewrite Hf. cbn [tl hd]. rewrite find_delete_where. by eexists.
  - rewrite engine_Delete_eq. cbv zeta.
    cbn [faults with_rows sent rows]. rewrite Hf. cbn [tl hd].
    eexists. split.
    + replace (Z.eqb (matched (Name r) (delete_where (Name r) (rows e))) 0)
        with true; [reflexivity |].
      symmetry. apply matched_zero, find_delete_where.
    + cbn [rows with_rows]. apply delete_where_none, find_delete_where.
Qed.

Section Updating.

Context {util : UtilPkg}.

(** X17.  [UpdateRecord] of an id the store has no row for (empty owner
    or name, or no row of the name) answers [(false, nil)]: nothing is
    written, and the incoming record is returned as it was given, its
    anchoring fields included. *)
Theorem UpdateRecord_missing (id owner name : string) (r : Record)
  (e : Engine) :
  GetOwnerAndNameFromId id = Some (owner, name) ->
  owner = "" \/ name = ""
  \/ (hd None (faults e) = None
      /\ List.find (name_is name) (rows e) = None) ->
  exists e',
    UpdateRecord id r e = Done (r, (false, None)) e'
    /\ rows e' = rows e /\ writes_between e e' [].
Proof.
  intros Hid H. unfold UpdateRecord, bind. rewrite Hid.
  destruct (decide (owner = "")) as [-> | Ho].
  { rewrite getRecord_empty by auto. eexists. split; [reflexivity |].
    split; [done | apply writes_none]. }
  destruct (decide (name = "")) as [-> | Hn].
  { rewrite getRecord_empty by auto. eexists. split; [reflexivity |].
    split; [done | apply writes_none]. }
  destruct H as [? | [? | [Hf Hfind]]]; [done | done |].
  rewrite getRecord_eq by done. rewrite Hf, Hfind.
  eexists. split; [reflexivity |]. split; [done |].
  apply (writes_get _ _ []).
Qed.

Lemma length_update_where (name : string) (f : Record -> Record)
  (rs : list Record) :
  List.length (update_where name f rs) = List.length rs.
Proof. unfold update_where. apply length_map. Qed.

Lemma Id_update_where (name : string) (bean : Record) (rs : list Record) :
  List.map Id (update_where name (fun row => set_Id (Id row) bean) rs)
  = List.map Id rs.
Proof.
  induction rs as [| row rs IH]; [done |].
  cbn [update_where List.map]. f_equal; [| exact IH].
  by destruct (name_is name row).
Qed.

Lemma find_update_where_to (name : string) (f : Record -> Record)
  (rs : list Record) :
  (forall row, Name (f row) = name) ->
  List.find (name_is name) (update_where name f rs)
  = match List.find (name_is name) rs with
    | Some row => Some (f row)
    | None => None
    end.
Proof.
  intros Hf. induction rs as [| row rs IH]; [done |].
  cbn [update_where List.map List.find].
  destruct (name_is name row) eqn:Hrow.
  - unfold name_is. by rewrite Hf, String.eqb_refl.
  - rewrite Hrow. exact IH.
Qed.

(** X18.  Update, then look up.  When the providers of the incoming
    record are those of the stored one and the driver does not fail,
    [UpdateRecord] returns [(true, nil)] and the record unchanged; the
    table keeps its length and the ids of its rows; and the lookup of the
    name afterwards (the incoming record bearing that name) returns the
    incoming record under the id of the stored row.  The anchoring fields
    it holds are the incoming ones: a block that was stored is not kept
    when the incoming record has none. *)
Theorem UpdateRecord_then_lookup (id owner name : string) (r p : Record)
  (e : Engine) :
  GetOwnerAndNameFromId id = Some (owner, name) ->
  owner <> "" -> name <> "" -> faults e = [] ->
  List.find (name_is name) (rows e) = Some p ->
  Provider r = Provider p -> Provider2 r = Provider2 p ->
  Name r = name ->
  exists e',
    UpdateRecord id r e = Done (r, (true, None)) e'
    /\ List.length (rows e') = List.length (rows e)
    /\ List.map Id (rows e') = List.map Id (rows e)
    /\ getRecord owner name e'
       = Done (Some (set_Id (Id p) r), None)
           (sent (SqlGet (Record_named name)) e')
    /\ slot1 (set_Id (Id p) r) = slot1 r
    /\ slot2 (set_Id (Id p) r) = slot2 r.
Proof.
  intros Hid Ho Hn Hf Hfind Hp1 Hp2 Hname.
  unfold UpdateRecord, bind. rewrite Hid.
  rewrite getRecord_eq by done. rewrite Hf. cbn [hd]. rewrite Hfind.
  unfold reset_slot1, reset_slot2. rewrite Hp1, String.eqb_refl. cbn [negb].
  rewrite Hp2, String.eqb_refl. cbn [negb].
  rewrite engine_UpdateAllCols_eq. cbv zeta.
  cbn [faults with_rows sent rows tl hd]. rewrite Hf. cbn [tl hd].
  replace (Z.eqb (matched name (rows e)) 0) with false.
  2:{ symmetry. destruct (Z.eqb _ 0) eqn:Hz; [| done].
      apply matched_zero in Hz. congruence. }
  eexists. split; [reflexivity |]. cbn [rows with_rows sent].
  split; [apply length_update_where |]. split; [apply Id_update_where |].
  split; [| by destruct r].
  rewrite getRecord_eq by done. cbn [faults with_rows sent rows].
  rewrite Hf. cbn [tl hd]. rewrite find_update_where_to, Hfind; [done |].
  intros row. exact Hname.
Qed.

End Updating.

Lemma bean_match_owned (owner : string) (row : Record) :
  owner <> "" -> bean_match (Record_owned owner) row = String.eqb (Owner row) owner.
Proof.
  intros Hn. apply String.eqb_neq in Hn.
  unfold bean_match, Record_owned.
  cbn [Id Owner Name CreatedTime Organization ClientIp UserAgent User Method
       RequestUri Action Language Region City Unit Section Object Response
       Provider Block BlockHash Transaction Provider2 Block2 BlockHash2
       Transaction2].
  rewrite !cond_str_empty. change (Z.eqb 0 0) with true.
  cbn [orb andb]. rewrite !andb_true_r.
  unfold cond_str. rewrite Hn. apply String.eqb_sym.
Qed.

Lemma bean_match_zero (row : Record) : bean_match Record_zero row = true.
Proof. reflexivity. Qed.

Lemma filter_true {A} (l : list A) : List.filter (fun _ => true) l = l.
Proof. induction l as [| x l IH]; [done |]. cbn. by rewrite IH. Qed.

#[local] Instance id_desc_total : Total id_desc.
Proof. intros a c. unfold id_desc. lia. Qed.

(** X19.  [GetRecords] lists, highest id first, exactly the rows whose
    owner is the given one, each as often as the table has it; with the
    empty owner the condition disappears and it lists every row of every
    owner, as [getAllRecords] does.  A driver error gives the empty list
    with the error.  Rows and journal are untouched. *)
Theorem GetRecords_listing (owner : string) (e : Engine) :
  (hd None (faults e) = None ->
   exists l e',
     GetRecords owner e = Done (l, None) e'
     /\ rows e' = rows e /\ journal e' = journal e
     /\ Sorted id_desc l
     /\ (owner <> "" ->
         l ≡ₚ List.filter (fun row => String.eqb (Owner row) owner) (rows e))
     /\ (owner = "" ->
         l ≡ₚ rows e /\ GetRecords owner e = getAllRecords e))
  /\ (forall msg,
        hd None (faults e) = Some msg ->
        exists e', GetRecords owner e = Done ([], Some msg) e'
                   /\ rows e' = rows e).
Proof.
  unfold GetRecords, getAllRecords, bind, engine_FindDesc, ret. split.
  - intros ->. do 2 eexists. split; [reflexivity |].
    cbn [rows journal]. split; [done |]. split; [done |].
    split; [apply Sorted_merge_sort; apply _ |]. split.
    + intros Ho. rewrite merge_sort_Permutation.
      erewrite filter_ext; [reflexivity |].
      intros row. by apply bean_match_owned.
    + intros ->. split; [| done].
      rewrite merge_sort_Permutation.
      change (Record_owned "") with Record_zero.
      erewrite filter_ext; [by rewrite filter_true |].
      intros row. apply bean_match_zero.
  - intros msg ->. by eexists.
Qed.

(** *** What [NewRecord] builds *)

Section Fresh.

Context {util : UtilPkg} {conf : ConfPkg} {directory : ProviderDirectory}.

Lemma truncate_uri_bound (u : string) :
  (String.length (truncate_uri u) <= 1000)%nat.
Proof.
  destruct (Nat.lt_ge_cases 1000 (String.length u)) as [H | H].
  - destruct (truncate_uri_long u H) as [_ ->]. lia.
  - by rewrite truncate_uri_short.
Qed.

(** X20.  [NewRecord] returns a record or an error, never both and never
    neither.  The record has no id, owner, organization, user or user
    agent, its two anchoring slots are empty, it is neither triggered nor
    marked for commit, and its request URI has at most 1000 bytes.
    Handed as it is to [AddRecord], it is therefore never committed at
    once, [AddRecord] does not panic, and the record that comes back has
    the empty owner, under which the lookup by owner and name finds
    nothing. *)
Theorem NewRecord_fresh (ctx : Context) :
  match NewRecord ctx with
  | (Some r, None) =>
      Id r = 0%Z /\ Owner r = "" /\ Organization r = "" /\ User r = ""
      /\ UserAgent r = ""
      /\ slot1 r = ("", "", "", "") /\ slot2 r = ("", "", "", "")
      /\ IsTriggered r = false /\ NeedCommit r = false
      /\ (String.length (RequestUri r) <= 1000)%nat
      /\ forall e,
           match AddRecord r e with
           | Panic _ _ => False
           | Done (r', (_, data, _)) e' =>
               data = None /\ Owner r' = ""
               /\ getRecord (Owner r') (Name r') e' = Done (None, None) e'
           end
  | (None, Some _) => True
  | _ => False
  end.
Proof.
  unfold NewRecord.
  destruct (json_Marshal _) as [respBytes [e1 |]]; [done |].
  destruct (json_Unmarshal _) as [resp [e2 |]]; [done |].
  destruct (GetInfoFromIP _) as [info [e3 |]]; [done |].
  cbn [Id Owner Organization User UserAgent slot1 slot2 IsTriggered
       NeedCommit RequestUri Provider Block BlockHash Transaction Provider2
       Block2 BlockHash2 Transaction2].
  repeat (split; [done |]). split; [apply truncate_uri_bound |].
  intros e.
  match goal with |- context [AddRecord ?x e] => set (r := x) end.
  assert (Hnc : NeedCommit r = false) by done.
  assert (Horg : Organization r = "") by done.
  assert (Hown : Owner r = "") by done.
  clearbody r.
  destruct (logPostOnly && String.eqb (Method r) "GET") eqn:H1.
  { unfold AddRecord. rewrite H1. split; [done |]. split; [done |].
    apply getRecord_empty. by left. }
  destruct (Strings.HasSuffix (Action r) "-record") eqn:H2.
  { unfold AddRecord. rewrite H1, H2. split; [done |]. split; [done |].
    apply getRecord_empty. by left. }
  destruct (Strings.HasSuffix (Action r) "-record-second") eqn:H3.
  { unfold AddRecord. rewrite H1, H2, H3. split; [done |]. split; [done |].
    apply getRecord_empty. by left. }
  rewrite (AddRecord_eq r e H1 H2 H3).
  destruct (bind_active_providers r) as [r1 err] eqn:Hbind.
  apply bind_active_providers_frame in Hbind as (Hsame & _).
  assert (Hfields : NeedCommit r1 = NeedCommit r
                    /\ Organization r1 = Organization r
                    /\ Owner r1 = Owner r).
  { unfold same_but_anchoring in Hsame. by decompose [and] Hsame. }
  destruct Hfields as (Hnc1 & Horg1 & Hown1).
  destruct err as [m |].
  { split; [done |]. split; [congruence |].
    apply getRecord_empty. left. congruence. }
  cbv zeta. destruct (hd None (faults e)).
  { split; [done |]. cbn [Owner set_Owner].
    split; [congruence |]. apply getRecord_empty. left. congruence. }
  destruct (negb _ && key_taken _ _).
  { split; [done |]. cbn [Owner set_Owner].
    split; [congruence |]. apply getRecord_empty. left. congruence. }
  destruct (Z.eqb (Id (set_Owner (Organization r1) r1)) 0);
    cbn [NeedCommit set_Id set_Owner]; rewrite Hnc1, Hnc;
    (split; [done |]); cbn [Owner set_Id set_Owner];
    (split; [congruence |]); apply getRecord_empty; left; congruence.
Qed.

End Fresh.

(** ** The local embedding provider *)

Lemma prefix_spec (p s : string) :
  String.prefix p s = true <-> exists rest, s = p +:+ rest.
Proof.
  revert s. induction p as [| a p IH]; intros s.
  - split; [intros _; exists s; reflexivity | intros _; by destruct s].
  - destruct s as [| c s]; cbn [String.prefix].
    + split; [done | intros [rest Hrest]; discriminate Hrest].
    + destruct (ascii_dec a c) as [-> | Hne].
      * rewrite IH. split; intros [rest Hrest]; exists rest.
        -- change (String c s = String c (p +:+ rest)). by rewrite Hrest.
        -- change (String c s = String c (p +:+ rest)) in Hrest. congruence.
      * split; [done |]. intros [rest Hrest].
        change (String c s = String a (p +:+ rest)) in Hrest. congruence.
Qed.

Lemma Contains_b_spec (s substr : string) :
  Embedding.Contains_b s substr = true <-> Strings.Contains s substr.
Proof.
  split.
  - induction s as [| c s IH]; cbn [Embedding.Contains_b];
      rewrite orb_true_iff; intros [Hp | Ht]; try done.
    + apply prefix_spec in Hp as [rest ->]. by exists "", rest.
    + apply prefix_spec in Hp as [rest ->]. by exists "", rest.
    + destruct (IH Ht) as (a & b & ->). by exists (String c a), b.
  - intros (a & b & ->). induction a as [| c a IH].
    + change ("" +:+ substr +:+ b) with (substr +:+ b).
      destruct (substr +:+ b) eqn:E; cbn [Embedding.Contains_b];
        apply orb_true_iff; left; apply prefix_spec; exists b; by rewrite E.
    + change (String c a +:+ substr +:+ b)
        with (String c (a +:+ substr +:+ b)).
      cbn [Embedding.Contains_b]. apply orb_true_iff. by right.
Qed.

Lemma Contains_b_false (s substr : string) :
  Embedding.Contains_b s substr = false <-> ~ Strings.Contains s substr.
Proof.
  rewrite <- Contains_b_spec. by destruct (Embedding.Contains_b s substr).
Qed.

Section EmbeddingProvider.

Import Embedding.

Context {prices : PricePkg}.

(** X21.  [calculatePrice] never changes the token count.  A model whose
    name contains one of the three names of the price table is priced in
    USD, [text-embedding-ada-002] first, whatever the provider type and
    the provider's own price.  The call succeeds exactly for those
    models, for [custom-embedding] and for the type [Ollama]; the last two
    are priced at the provider's own price in its own currency.  On the
    error, which tells the model, the price is untouched and the currency
    has nevertheless been set to USD. *)
Theorem calculatePrice_outcome (p : LocalEmbeddingProvider)
  (res : EmbeddingResult) :
  let out := calculatePrice p res in
  TokenCount out.1 = TokenCount res
  /\ (Strings.Contains (subType p) "text-embedding-ada-002" ->
      out = (mkEmbeddingResult (TokenCount res)
               (getPrice (TokenCount res) lit_0_0001) "USD", None))
  /\ (known_model (subType p) -> out.2 = None /\ Currency out.1 = "USD")
  /\ (out.2 = None
      <-> known_model (subType p) \/ subType p = "custom-embedding"
          \/ typ p = "Ollama")
  /\ (~ known_model (subType p) -> out.2 = None ->
      out.1 = mkEmbeddingResult (TokenCount res)
                (getPrice (TokenCount res) (pricePerThousandTokens p))
                (currency p))
  /\ (out.2 <> None ->
      out = (mkEmbeddingResult (TokenCount res) (Price res) "USD",
             Some (unknown_model (subType p)))).
Proof.
  unfold known_model, calculatePrice. cbv zeta.
  destruct (Contains_b (subType p) "text-embedding-ada-002") eqn:H1;
    [apply Contains_b_spec in H1 | apply Contains_b_false in H1].
  { cbn [fst snd TokenCount Currency]. repeat split; try done; tauto. }
  destruct (Contains_b (subType p) "text-embedding-3-small") eqn:H2;
    [apply Contains_b_spec in H2 | apply Contains_b_false in H2].
  { cbn [fst snd TokenCount Currency]. repeat split; try done; tauto. }
  destruct (Contains_b (subType p) "text-embedding-3-large") eqn:H3;
    [apply Contains_b_spec in H3 | apply Contains_b_false in H3].
  { cbn [fst snd TokenCount Currency]. repeat split; try done; tauto. }
  destruct (String.eqb_spec (subType p) "custom-embedding") as [Hc | Hc];
    destruct (String.eqb_spec (typ p) "Ollama") as [Ho | Ho];
    cbn [orb fst snd TokenCount Currency Price];
    repeat split; try done; try tauto.
Qed.

(** X22.  The model [custom-embedding] stands for the compatible
    provider: without one [QueryVector] returns the error
    [no embedding provider specified] for every backend, so no request is
    made; with one, the request names the compatible provider as model,
    and (the type not being [Custom]) the result is priced at the
    provider's own price in its own currency, also when the compatible
    provider bears a name of the price table. *)
Theorem QueryVector_custom_embedding (p : LocalEmbeddingProvider) :
  subType p = "custom-embedding" ->
  (compatibleProvider p = "" ->
   forall backend text,
     QueryVector backend p text
     = QueryReturn None None (Some "no embedding provider specified"))
  /\ (compatibleProvider p <> "" -> typ p <> "Custom" ->
      forall (backend : Backend) text resp vector rest,
        backend (select_client p) text (compatibleProvider p) = (resp, None) ->
        RespData resp = vector :: rest ->
        QueryVector backend p text
        = QueryReturn (Some vector)
            (Some (mkEmbeddingResult (PromptTokens resp)
                     (getPrice (PromptTokens resp) (pricePerThousandTokens p))
                     (currency p)))
            None).
Proof.
  intros Hs. split.
  - intros Hc backend text. unfold QueryVector. cbv zeta.
    by rewrite Hs, Hc.
  - intros Hc Ht backend text resp vector rest Hb Hd.
    apply String.eqb_neq in Hc, Ht. unfold QueryVector. cbv zeta.
    rewrite Hs, Hc, Ht. cbn [String.eqb Ascii.eqb Bool.eqb andb negb].
    rewrite Hb. unfold calculatePrice. cbv zeta. rewrite Hs.
    change (Contains_b "custom-embedding" "text-embedding-ada-002")
      with false.
    change (Contains_b "custom-embedding" "text-embedding-3-small")
      with false.
    change (Contains_b "custom-embedding" "text-embedding-3-large")
      with false.
    cbn [String.eqb Ascii.eqb Bool.eqb andb orb TokenCount Price Currency].
    by rewrite Hd.
Qed.



End EmbeddingProvider.

Section EmbeddingClient.

Import Embedding.

Context {prices : PricePkg}.

(** X24.  [NewLocalEmbeddingProvider] always succeeds and leaves the
    deployment name and the API version empty.  For such a provider, the
    type [Azure] asks for an Azure client with empty deployment name and
    API version, the types [Local] and [Custom] for the local client on
    the provider URL, the type [OpenAI] for the proxy client; any other
    type, [Ollama] included, has no client, and the request of
    [QueryVector], if it makes one, goes to the nil client. *)
Theorem NewLocalEmbeddingProvider_client
  (typ subType secretKey providerUrl compatibleProvider : string)
  (price : float64) (currency : string) :
  exists p,
    NewLocalEmbeddingProvider typ subType secretKey providerUrl
      compatibleProvider price currency = (Some p, None)
    /\ deploymentName p = "" /\ apiVersion p = ""
    /\ (typ = "Azure" ->
        select_client p = Some (AzureClient "" secretKey providerUrl ""))
    /\ (typ = "Local" \/ typ = "Custom" ->
        select_client p = Some (LocalClient secretKey providerUrl))
    /\ (typ = "OpenAI" -> select_client p = Some (ProxyClient secretKey))
    /\ (typ <> "Local" -> typ <> "Azure" -> typ <> "OpenAI" ->
        typ <> "Custom" ->
        select_client p = None
        /\ forall (backend : Backend) text,
             QueryVector backend p text
             = QueryVector (fun _ t m => backend None t m) p text).
Proof.
  eexists. split; [reflexivity |]. split; [done |]. split; [done |].
  unfold select_client.
  cbn [Embedding.typ Embedding.secretKey Embedding.providerUrl
       Embedding.deploymentName Embedding.apiVersion].
  split; [by intros -> |]. split; [by intros [-> | ->] |].
  split; [by intros -> |].
  intros H1 H2 H3 H4. apply String.eqb_neq in H1, H2, H3, H4.
  assert (Hnone : (if String.eqb typ "Local"
                   then Some (getLocalClientFromUrl secretKey providerUrl)
                   else if String.eqb typ "Azure"
                   then Some (AzureClient "" secretKey providerUrl "")
                   else if String.eqb typ "OpenAI"
                   then Some (ProxyClient secretKey)
                   else if String.eqb typ "Custom"
                   then Some (getLocalClientFromUrl secretKey providerUrl)
                   else None) = None) by (by rewrite H1, H2, H3, H4).
  split; [exact Hnone |]. intros backend text.
  unfold QueryVector, select_client.
  cbn [Embedding.typ Embedding.secretKey Embedding.providerUrl
       Embedding.deploymentName Embedding.apiVersion].
  by rewrite Hnone.
Qed.

End EmbeddingClient.

(** ** The further properties at concrete inputs *)

Lemma Sim_faithful : faithful_chain Sim.conn.
Proof.
  split.
  - intros tx chainID key signed [= <-]. reflexivity.
  - intros signed _. cbn [HexToHash Hex TxHash TransactionByHash
                          TransactionReceipt Sim.conn].
    rewrite length_append.
    replace (String.length "0x" + String.length (Data signed) - 2)%nat
      with (String.length (Data signed)) by (cbn [String.length]; lia).
    change 2%nat with (String.length "0x").
    rewrite substring_skip, substring_all.
    split; [by eexists | by eexists].
Qed.

Lemma getRecordChainClient_resolution_witness :
  getRecordChainClient (directory := Sim.directory) "nope"
  = (None, None, Some "the blockchain provider: nope is not found")
  /\ getRecordChainClient (directory := Sim.directory) ""
     = (None, None, Some "there is no active blockchain provider").
Proof.
  destruct (getRecordChainClient_resolution (directory := Sim.directory)
              "nope") as (_ & _ & H & _).
  destruct (getRecordChainClient_resolution (directory := Sim.directory) "")
    as (_ & _ & _ & H').
  split; [apply H; [discriminate | reflexivity] |].
  apply H'; reflexivity.
Defined.

Lemma CommitRecord_panics_witness :
  let r := set_Owner "acme" (set_Id 1 (Record_named "a/b")) in
  let e := Demo.store_of [r] in
  exists msg,
    CommitRecord (util := Demo.util) (directory := Sim.directory)
      (set_Provider "sim" r) e = Panic msg e
    /\ GetOwnerAndNameFromId (UtilPkg := Demo.util)
         (getId (set_Provider "sim" r)) = None.
Proof.
  intros r e. eexists. split; [vm_compute; reflexivity |].
  destruct (CommitRecord_panics (util := Demo.util)
              (directory := Sim.directory) (set_Provider "sim" r) e e
              "GetOwnerAndNameFromId() error")
    as (_ & _ & pv & [H | (client & b & t & h & _ & _ & H)]).
  - vm_compute. reflexivity.
  - discriminate H.
  - exact H.
Defined.

Lemma CommitRecord_not_persisted_witness :
  let e := Demo.store_of [Sim.stored] in
  let txid := "0x" +:+ toParam (util := Demo.util) Sim.submitted in
  exists e',
    CommitRecord (util := Demo.util) (directory := Sim.directory)
      Sim.submitted e
    = Done (Sim.submitted,
            (false, Some (primary_data "sim" "42" txid "0xb"), None)) e'
    /\ rows e' = [Sim.stored].
Proof.
  intros e txid.
  destruct (CommitRecord_not_persisted (util := Demo.util)
              (directory := Sim.directory) Sim.submitted e
              (EthereumClient_client Sim.eth) Sim.provider
              "42" txid "0xb" "" "rec-1"
              eq_refl eq_refl eq_refl eq_refl eq_refl
              (or_introl eq_refl)) as (e' & H & Hr & _).
  exists e'. split; [exact H | exact Hr].
Defined.

Lemma QueryRecord_refusals_witness :
  let e := Demo.store_of [Sim.stored] in
  QueryRecord (util := Demo.util) (utilid := Sim.utilid)
    (directory := Sim.directory) "acme/rec-1" e
  = Done ("", Some "the record: acme/rec-1's block ID should not be empty")
      (sent (SqlGet (Record_named "rec-1")) e)
  /\ QueryRecord (util := Demo.util) (utilid := Sim.utilid)
       (directory := Sim.directory) "acme/rec-2" e
     = Done ("", Some "the record: acme/rec-2 does not exist")
         (sent (SqlGet (Record_named "rec-2")) e).
Proof.
  intros e. split.
  - destruct (QueryRecord_refusals (util := Demo.util) (utilid := Sim.utilid)
                (directory := Sim.directory) "acme/rec-1" "acme" "rec-1" e
                (sent (SqlGet (Record_named "rec-1")) e) eq_refl) as [_ H].
    destruct (H Sim.stored eq_refl) as [H1 _]. exact (H1 eq_refl).
  - destruct (QueryRecord_refusals (util := Demo.util) (utilid := Sim.utilid)
                (directory := Sim.directory) "acme/rec-2" "acme" "rec-2" e
                (sent (SqlGet (Record_named "rec-2")) e) eq_refl) as [H _].
    destruct (H eq_refl) as [H1 _]. exact H1.
Defined.

Lemma Commit_success_shape_witness :
  Commit Sim.eth "payload" = ("42", "0xpayload", "0xb", None)
  /\ exists signedTx,
       SendTransaction Sim.conn signedTx = None
       /\ Data signedTx = "payload" /\ TxTo signedTx = "0xabc"
       /\ TxValue signedTx = 0%Z.
Proof.
  assert (H : Commit Sim.eth "payload" = ("42", "0xpayload", "0xb", None))
    by reflexivity.
  split; [exact H |].
  destruct (Commit_success_shape Sim.eth "payload" "42" "0xpayload" "0xb" H)
    as (_ & nonce & gasPrice & gasLimit & chainID & signedTx & receipt & Hs).
  destruct Hs as (_ & _ & _ & _ & Hsign & Hsend & _).
  exists signedTx. split; [exact Hsend |].
  injection Hsign as <-. by repeat split.
Defined.

Lemma Commit_error_origin_witness :
  Commit (Demo.eth (Some "timeout")) "payload"
  = ("", "", "", Some "transaction failed to be mined: timeout")
  /\ exists tx cause,
       (WaitMined (Demo.conn (Some "timeout") 12345 "payload") tx).2
       = Some cause.
Proof.
  assert (H : Commit (Demo.eth (Some "timeout")) "payload"
              = ("", "", "", Some "transaction failed to be mined: timeout"))
    by reflexivity.
  split; [exact H |].
  destruct (Commit_error_origin (Demo.eth (Some "timeout")) "payload" "" ""
              "" "transaction failed to be mined: timeout" H)
    as [H1 | [H1 | [[m H1] | [H1 | [(tx & id & H1) | [[tx H1] | H1]]]]]];
    try discriminate H1.
  destruct H1 as (tx & cause & Hw & _). by exists tx, cause.
Defined.

Lemma Commit_then_Query_witness :
  exists receipt,
    Query Sim.eth "0xpayload" "payload"
    = (verdict_header receipt +:+ Matched_text "payload", None)
    /\ Query Sim.eth "0xpayload" "forged"
       = (verdict_header receipt +:+ Mismatched_text "payload" "forged",
          None).
Proof.
  destruct (Commit_then_Query Sim.eth "payload" "42" "0xpayload" "0xb"
              Sim_faithful eq_refl) as (receipt & Hm & Ho).
  exists receipt. split; [exact Hm |]. apply Ho. discriminate.
Defined.

Lemma commit_then_query_witness :
  let e := Demo.store_of [Sim.stored] in
  let payload := toParam (util := Demo.util) Sim.stored in
  let data := primary_data "sim" "42" ("0x" +:+ payload) "0xb" in
  CommitRecord (util := Demo.util) (directory := Sim.directory) Sim.stored e
  = Done (Sim.stored, (true, Some data, None)) (committed "rec-1" data e)
  /\ QueryRecord (util := Demo.util) (utilid := Sim.utilid)
       (directory := Sim.directory) "acme/rec-1" (committed "rec-1" data e)
     = Done (passed_on (Query Sim.eth ("0x" +:+ payload) payload))
         (sent (SqlGet (Record_named "rec-1")) (committed "rec-1" data e)).
Proof.
  intros e payload data.
  assert (Hsame : same_but_anchoring Sim.stored Sim.stored)
    by (unfold same_but_anchoring; by repeat split).
  exact (commit_then_query (util := Demo.util) (utilid := Sim.utilid)
           (directory := Sim.directory) Sim.stored Sim.stored e
           (EthereumClient_client Sim.eth) Sim.provider
           "42" ("0x" +:+ payload) "0xb" "acme" "rec-1" "acme/rec-1"
           eq_refl eq_refl eq_refl eq_refl ltac:(discriminate)
           eq_refl eq_refl ltac:(discriminate) ltac:(discriminate)
           eq_refl eq_refl Hsame).
Defined.

Lemma QueryRecord_compares_stored_witness :
  let rec := set_Transaction "0xforged" (set_Block "42" Sim.stored) in
  let e := Demo.store_of [rec] in
  QueryRecord (util := Demo.util) (utilid := Sim.utilid)
    (directory := Sim.directory) "acme/rec-1" e
  = Done (verdict_header (mkReceipt "b" 42)
          +:+ Mismatched_text "forged" (toParam (util := Demo.util) rec),
          None)
      (sent (SqlGet (Record_named "rec-1")) e).
Proof.
  intros rec e.
  destruct (QueryRecord_compares_stored (util := Demo.util)
              (utilid := Sim.utilid) (directory := Sim.directory)
              "acme/rec-1" "acme" "rec-1" e
              (sent (SqlGet (Record_named "rec-1")) e) rec Sim.eth
              (Some Sim.provider) (mkReceipt "b" 42)
              (mkTx 0 "" 0 0 0 "forged" "")
              eq_refl eq_refl ltac:(discriminate) eq_refl eq_refl eq_refl)
    as [_ H].
  apply H. vm_compute. discriminate.
Defined.

Lemma AddRecord_skips_own_actions_witness :
  let r := mkRecord 0 "" "rec-9" "" "acme" "" "" "" "POST" "" "commit-record"
             "" "" "" "" "" "" "" "" "" "" "" "" "" "" "" false true in
  AddRecord (util := Demo.util) (conf := Demo.conf_of false)
    (directory := Sim.directory) r (Demo.store_of [])
  = Done (r, (false, None, None)) (Demo.store_of []).
Proof.
  intros r.
  apply (AddRecord_skips_own_actions (util := Demo.util)
           (conf := Demo.conf_of false) (directory := Sim.directory)
           r (Demo.store_of []) "commit").
  left. reflexivity.
Defined.

Lemma AddRecord_appends_witness :
  AddRecord (util := Demo.util) (conf := Demo.conf_of false)
    (directory := Sim.directory) Sim.submitted (Demo.store_of [Demo.fresh])
  = Done (set_Id 2 (set_Owner "acme" Sim.submitted), (true, None, None))
      (with_rows [Demo.fresh; set_Id 2 (set_Owner "acme" Sim.submitted)]
         (sent (SqlInsert (set_Owner "acme" Sim.submitted))
            (Demo.store_of [Demo.fresh])))
  /\ Owner (set_Id 2 (set_Owner "acme" Sim.submitted))
     = Organization Sim.submitted.
Proof.
  pose proof (AddRecord_appends (util := Demo.util)
                (conf := Demo.conf_of false) (directory := Sim.directory)
                Sim.submitted (Demo.store_of [Demo.fresh]) eq_refl) as H.
  assert (E : AddRecord (util := Demo.util) (conf := Demo.conf_of false)
                (directory := Sim.directory) Sim.submitted
                (Demo.store_of [Demo.fresh])
              = Done (set_Id 2 (set_Owner "acme" Sim.submitted),
                      (true, None, None))
                  (with_rows
                     [Demo.fresh; set_Id 2 (set_Owner "acme" Sim.submitted)]
                     (sent (SqlInsert (set_Owner "acme" Sim.submitted))
                        (Demo.store_of [Demo.fresh]))))
    by (vm_compute; reflexivity).
  split; [exact E |]. rewrite E in H.
  destruct H as [_ [_ [[H _] | (_ & _ & _ & _ & _ & _ & H & _)]]];
    [discriminate H | exact H].
Defined.

Lemma AddRecord_binds_providers_witness :
  let r := set_Provider "" Sim.submitted in
  exists r' e',
    AddRecord (util := Demo.util) (conf := Demo.conf_of false)
      (directory := Sim.directory) r (Demo.store_of [])
    = Done (r', (true, None, None)) e'
    /\ Provider r' = "sim" /\ Provider2 r' = "".
Proof.
  intros r.
  eassert (E : AddRecord (util := Demo.util) (conf := Demo.conf_of false)
                 (directory := Sim.directory) r (Demo.store_of [])
               = Done (Sim.stored, (true, None, None)) _)
    by (vm_compute; reflexivity).
  do 2 eexists. split; [exact E |].
  destruct (AddRecord_binds_providers (util := Demo.util)
              (conf := Demo.conf_of false) (directory := Sim.directory)
              r Sim.stored (Demo.store_of []) _ None eq_refl E) as [_ H].
  destruct (H eq_refl) as (p1 & p2 & Hp & H1 & H2).
  injection Hp as <- <-. split; [exact H1 | exact H2].
Defined.

Lemma AddRecord_failed_commit_keeps_row_witness :
  let r := mkRecord 0 "" "rec-1" "" "acme" "" "" "" "POST" "" "add-store" ""
             "" "" "" "" "" "" "sim" "" "" "" "" "" "" "" false true in
  exists r' e',
    AddRecord (util := Demo.util) (conf := Demo.conf_of false)
      (directory := Sim.failing_directory) r (Demo.store_of [Demo.fresh])
    = Done (r', (false, None,
                 Some "transaction failed to be mined: timeout")) e'
    /\ exists row,
         rows e' = [Demo.fresh; row] /\ Name row = "rec-1" /\ Block row = "".
Proof.
  intros r.
  eassert (E : AddRecord (util := Demo.util) (conf := Demo.conf_of false)
                 (directory := Sim.failing_directory) r
                 (Demo.store_of [Demo.fresh])
               = Done (set_Id 2 (set_Owner "acme" r),
                       (false, None,
                        Some "transaction failed to be mined: timeout")) _)
    by (vm_compute; reflexivity).
  do 2 eexists. split; [exact E |].
  destruct (AddRecord_failed_commit_keeps_row (util := Demo.util)
              (conf := Demo.conf_of false)
              (directory := Sim.failing_directory) r _
              (Demo.store_of [Demo.fresh]) _
              false None _ eq_refl eq_refl eq_refl eq_refl
              ltac:(discriminate) eq_refl E)
    as (_ & _ & H & _).
  destruct (H (or_introl eq_refl))
    as (row & _ & Hr & _ & Hn & _ & Hb & _).
  exists row. split; [exact (Hr eq_refl) |]. split; [exact Hn | exact Hb].
Defined.

Lemma AddRecord_then_getRecord_witness :
  let old := set_Id 5 Sim.stored in
  exists r' e',
    AddRecord (util := Demo.util) (conf := Demo.conf_of false)
      (directory := Sim.directory) (set_Id 1 Sim.submitted)
      (Demo.store_of [old])
    = Done (r', (true, None, None)) e'
    /\ Id r' = 1%Z
    /\ getRecord "acme" "rec-1" e'
       = Done (Some r', None) (sent (SqlGet (Record_named "rec-1")) e').
Proof.
  intros old.
  destruct (AddRecord_then_getRecord (util := Demo.util)
              (conf := Demo.conf_of false) (directory := Sim.directory)
              (set_Id 1 Sim.submitted) (Demo.store_of [old])
              eq_refl eq_refl eq_refl eq_refl ltac:(discriminate) eq_refl
              ltac:(discriminate) ltac:(discriminate) (or_intror eq_refl))
    as (r' & e' & Ha & _ & _ & Hid & _ & _ & _ & _ & Hlow).
  exists r', e'. split; [exact Ha |].
  assert (Hid' : Id r' = 1%Z) by (apply Hid; discriminate).
  split; [exact Hid' |].
  assert (Hs : key_ordered (rows (Demo.store_of [old])))
    by (repeat constructor).
  pose proof (Hlow old eq_refl Hs) as Hget.
  rewrite Hid' in Hget. exact Hget.
Defined.

Lemma DeleteRecord_then_lookup_witness :
  let e := Demo.store_of [Demo.fresh; Demo.namesake; set_Id 3 Sim.stored] in
  exists e',
    DeleteRecord Demo.fresh e = Done (true, None) e'
    /\ exists e'', getRecord "globex" "7c6b0d9e" e' = Done (None, None) e''.
Proof.
  intros e.
  destruct (DeleteRecord_then_lookup Demo.fresh e eq_refl)
    as (ok & e' & Hd & Hok & Hget & _).
  assert (ok = true) as ->.
  { apply Hok. exists Demo.fresh. split; [left; reflexivity | reflexivity]. }
  exists e'. split; [exact Hd |]. exact (Hget "globex").
Defined.

Lemma UpdateRecord_missing_witness :
  let incoming := set_Provider "other" Demo.anchored in
  exists e',
    UpdateRecord (util := Demo.util) "acme/absent" incoming
      (Demo.store_of [Demo.anchored])
    = Done (incoming, (false, None)) e'
    /\ rows e' = [Demo.anchored].
Proof.
  intros incoming.
  destruct (UpdateRecord_missing (util := Demo.util) "acme/absent" "acme"
              "absent" incoming (Demo.store_of [Demo.anchored]) eq_refl)
    as (e' & H & Hr & _).
  - right. right. split; reflexivity.
  - exists e'. split; [exact H | exact Hr].
Defined.

Lemma UpdateRecord_then_lookup_witness :
  let e := Demo.store_of [Demo.anchored] in
  exists e',
    UpdateRecord (util := Demo.util) "acme/7c6b0d9e" Demo.fresh e
    = Done (Demo.fresh, (true, None)) e'
    /\ getRecord "acme" "7c6b0d9e" e'
       = Done (Some Demo.fresh, None)
           (sent (SqlGet (Record_named "7c6b0d9e")) e')
    /\ Block Demo.anchored = "12345" /\ Block Demo.fresh = "".
Proof.
  intros e.
  destruct (UpdateRecord_then_lookup (util := Demo.util) "acme/7c6b0d9e"
              "acme" "7c6b0d9e" Demo.fresh Demo.anchored e
              eq_refl ltac:(discriminate) ltac:(discriminate) eq_refl
              eq_refl eq_refl eq_refl eq_refl)
    as (e' & Hu & _ & _ & Hg & _).
  exists e'. split; [exact Hu |]. split; [exact Hg |]. split; reflexivity.
Defined.

Lemma GetRecords_listing_witness :
  let e := Demo.store_of [Demo.fresh; Demo.namesake; set_Id 3 Sim.stored] in
  exists l e',
    GetRecords "acme" e = Done (l, None) e'
    /\ l ≡ₚ [Demo.fresh; set_Id 3 Sim.stored]
    /\ exists l' e'',
         GetRecords "" e = Done (l', None) e''
         /\ l' ≡ₚ [Demo.fresh; Demo.namesake; set_Id 3 Sim.stored].
Proof.
  intros e.
  destruct (GetRecords_listing "acme" e) as [H _].
  destruct (H eq_refl) as (l & e' & Hl & _ & _ & _ & Hown & _).
  exists l, e'. split; [exact Hl |]. split; [apply Hown; discriminate |].
  destruct (GetRecords_listing "" e) as [H' _].
  destruct (H' eq_refl) as (l' & e'' & Hl' & _ & _ & _ & _ & Hall).
  exists l', e''. split; [exact Hl' |]. apply Hall. reflexivity.
Defined.

Lemma calculatePrice_outcome_witness :
  let p := Embedding.mkLocalEmbeddingProvider (prices := Embedding.demo_prices)
             "Ollama" "azure-text-embedding-3-small-v2" "" "k" ""
             "" "" 500%Z "EUR" in
  let q := Embedding.mkLocalEmbeddingProvider (prices := Embedding.demo_prices)
             "Local" "bge-m3" "" "k" "" "" "" 500%Z "EUR" in
  let res := Embedding.mkEmbeddingResult (prices := Embedding.demo_prices)
               7 99%Z "" in
  ((Embedding.calculatePrice p res).2 = None
   /\ Embedding.Currency (Embedding.calculatePrice p res).1 = "USD")
  /\ Embedding.calculatePrice q res
     = (Embedding.mkEmbeddingResult (prices := Embedding.demo_prices)
          7 99%Z "USD",
        Some "calculatePrice() error: unknown model type: bge-m3").
Proof.
  intros p q res. split.
  - assert (Hk : Embedding.known_model (Embedding.subType p)).
    { right. left. by exists "azure-", "-v2". }
    destruct (calculatePrice_outcome p res) as (_ & _ & H & _).
    exact (H Hk).
  - destruct (calculatePrice_outcome q res) as (_ & _ & _ & _ & _ & H).
    apply H. discriminate.
Defined.

Lemma QueryVector_custom_embedding_witness :
  let p := Embedding.mkLocalEmbeddingProvider (prices := Embedding.demo_prices)
             "Local" "custom-embedding" "" "k" "http://localhost:11434"
             "text-embedding-3-small" "" 500%Z "EUR" in
  let q := Embedding.mkLocalEmbeddingProvider (prices := Embedding.demo_prices)
             "Local" "custom-embedding" "" "k" "http://localhost:11434"
             "" "" 500%Z "EUR" in
  Embedding.QueryVector (prices := Embedding.demo_prices)
    Embedding.demo_backend p "hello"
  = Embedding.QueryReturn (prices := Embedding.demo_prices) (Some [1; 2; 3]%Z)
      (Some (Embedding.mkEmbeddingResult (prices := Embedding.demo_prices)
               7 3500%Z "EUR"))
      None
  /\ Embedding.QueryVector (prices := Embedding.demo_prices)
    Embedding.demo_backend q "hello"
     = Embedding.QueryReturn (prices := Embedding.demo_prices) None None
         (Some "no embedding provider specified").
Proof.
  intros p q. split.
  - destruct (QueryVector_custom_embedding p eq_refl) as [_ H].
    exact (H ltac:(discriminate) ltac:(discriminate) Embedding.demo_backend
             "hello" _ [1; 2; 3]%Z [] eq_refl eq_refl).
  - destruct (QueryVector_custom_embedding q eq_refl) as [H _].
    exact (H eq_refl Embedding.demo_backend "hello").
Defined.


Lemma NewLocalEmbeddingProvider_client_witness :
  exists p,
    Embedding.NewLocalEmbeddingProvider (prices := Embedding.demo_prices)
      "Ollama" "nomic-embed-text" "k" "http://localhost:11434" "" 500%Z "EUR"
    = (Some p, None)
    /\ Embedding.select_client p = None.
Proof.
  destruct (NewLocalEmbeddingProvider_client
              (prices := Embedding.demo_prices)
              "Ollama" "nomic-embed-text" "k" "http://localhost:11434" ""
              500%Z "EUR") as (p & Hp & _ & _ & _ & _ & _ & H).
  exists p. split; [exact Hp |]. apply H; discriminate.
Defined.
